(** * Subscription lifecycle of the Telegram payment bot

    A shallow embedding of [bot/models.py], [bot/db_utils.py] and the
    store-touching handlers of [bot/handlers.py] and [bot/admin_handlers.py].

    - Tables are finite maps from the primary key to the row.
    - An ORM session is a unit of work: the list of changes it has staged and
      not yet committed.  Queries see the durable store with the session's own
      staged changes applied (autoflush); [commit] replays the staged changes on
      the durable store, where the declared constraints are checked.
    - Handlers run in a monad that threads the world (store, session, clock,
      outgoing bot traffic) and distinguishes normal completion, an early
      [return], and a raised exception. *)

From Stdlib Require Import ZArith Lia Ascii String DecimalString DecimalPos.
From stdpp Require Import base gmap strings list fin_maps.

Local Open Scope string_scope.
Local Open Scope list_scope.
Local Open Scope Z_scope.

(** ** Python string primitives used by the handlers *)

Module Py.

Definition code (c : ascii) : nat := nat_of_ascii c.

Definition is_digit (c : ascii) : bool :=
  (48 <=? code c)%nat && (code c <=? 57)%nat.

Fixpoint all_digits (s : string) : bool :=
  match s with
  | EmptyString => true
  | String c r => is_digit c && all_digits r
  end.

(** [str.isdigit]: non-empty and every character a digit. *)
Definition isdigit (s : string) : bool :=
  match s with
  | EmptyString => false
  | _ => all_digits s
  end.

Fixpoint int_from (acc : Z) (s : string) : Z :=
  match s with
  | EmptyString => acc
  | String c r => int_from (10 * acc + (Z.of_nat (code c) - 48)) r
  end.

(** [int(s)] on a string that passed [isdigit]. *)
Definition int (s : string) : Z := int_from 0 s.

Fixpoint last_field_from (cur : string) (s : string) : string :=
  match s with
  | EmptyString => cur
  | String c r =>
      if Ascii.eqb c "_"%char then last_field_from EmptyString r
      else last_field_from (cur +:+ String c EmptyString) r
  end.

(** [s.split('_')[-1]] *)
Definition last_field (s : string) : string := last_field_from EmptyString s.

(** [str(n)] for an integer. *)
Definition str (n : Z) : string := NilZero.string_of_int (Z.to_int n).

Definition upper_char (c : ascii) : ascii :=
  if (97 <=? code c)%nat && (code c <=? 122)%nat
  then ascii_of_nat (code c - 32) else c.

Definition lower_char (c : ascii) : ascii :=
  if (65 <=? code c)%nat && (code c <=? 90)%nat
  then ascii_of_nat (code c + 32) else c.

Fixpoint map_chars (f : ascii → ascii) (s : string) : string :=
  match s with
  | EmptyString => EmptyString
  | String c r => String (f c) (map_chars f r)
  end.

Definition upper : string → string := map_chars upper_char.
Definition lower : string → string := map_chars lower_char.

(** [s[:k]] *)
Fixpoint slice_to (k : nat) (s : string) : string :=
  match k, s with
  | S k', String c r => String c (slice_to k' r)
  | _, _ => EmptyString
  end.

Fixpoint starts_with (p s : string) : bool :=
  match p, s with
  | EmptyString, _ => true
  | String a p', String b s' => Ascii.eqb a b && starts_with p' s'
  | String _ _, EmptyString => false
  end.

(** [p in s] *)
Fixpoint contains (p s : string) : bool :=
  starts_with p s ||
  match s with
  | EmptyString => false
  | String _ r => contains p r
  end.

Definition hex_digit (d : Z) : ascii :=
  match Z.to_nat d with
  | 0%nat => "0" | 1%nat => "1" | 2%nat => "2" | 3%nat => "3"
  | 4%nat => "4" | 5%nat => "5" | 6%nat => "6" | 7%nat => "7"
  | 8%nat => "8" | 9%nat => "9" | 10%nat => "a" | 11%nat => "b"
  | 12%nat => "c" | 13%nat => "d" | 14%nat => "e" | _ => "f"
  end%char.

(** ['%0*x' % (width, n)]: [width] lower-case hexadecimal digits, most
    significant first. *)
Fixpoint hex_fixed (width : nat) (n : Z) : string :=
  match width with
  | O => EmptyString
  | S w => String (hex_digit ((n / 16 ^ Z.of_nat w) mod 16)) (hex_fixed w n)
  end.

(** [uuid.UUID.hex]: the 128-bit value as 32 hexadecimal digits. *)
Definition uuid_hex (u : Z) : string := hex_fixed 32 u.

Definition is_upper_hex (c : ascii) : bool :=
  is_digit c || ((65 <=? code c)%nat && (code c <=? 70)%nat).

Definition is_lower_hex (c : ascii) : bool :=
  is_digit c || ((97 <=? code c)%nat && (code c <=? 102)%nat).

Fixpoint all_chars (p : ascii → bool) (s : string) : bool :=
  match s with
  | EmptyString => true
  | String c r => p c && all_chars p r
  end.

End Py.

(** ** Data model ([models.py])

    The primary key [id] is the key of the table; a row holds the remaining
    columns.  Timestamps are seconds on the UTC clock.  The bookkeeping columns
    [created_at] and [updated_at] are written by the store and read by no
    code path; they are left out. *)

Module User.
Record t := mk {
  telegram_id : Z;
  username : option string;
  first_name : option string;
  last_name : option string;
  is_active : bool
}.
(** [User(telegram_id=...)] with the column defaults. *)
Definition new (tid : Z) : t := mk tid None None None true.
Definition set_username (v : string) (u : t) : t :=
  mk (telegram_id u) (Some v) (first_name u) (last_name u) (is_active u).
Definition set_first_name (v : string) (u : t) : t :=
  mk (telegram_id u) (username u) (Some v) (last_name u) (is_active u).
Definition set_last_name (v : string) (u : t) : t :=
  mk (telegram_id u) (username u) (first_name u) (Some v) (is_active u).
End User.

Module Chat.
Record t := mk {
  telegram_chat_id : Z;
  title : string;
  price_amount : Z;           (* Numeric(10, 2), in hundredths *)
  price_currency : string;
  crypto_wallet_address : option string;
  crypto_network : option string;
  is_active : bool
}.
End Chat.

Module Subscription.
Record t := mk {
  user_id : Z;
  chat_id : Z;
  start_date : Z;
  end_date : Z;
  status : string;
  payment_id : option string;
  payment_details : option (gmap string (option string))
}.
Definition set_status (st : string) (s : t) : t :=
  mk (user_id s) (chat_id s) (start_date s) (end_date s) st
     (payment_id s) (payment_details s).
End Subscription.

(** Objects as the ORM hands them out: the key, the row, and for
    subscriptions the eagerly loaded relationships ([selectinload]). *)
Record UserObj := { u_id : Z; u_row : User.t }.
Record ChatObj := { c_id : Z; c_row : Chat.t }.
Record SubObj := {
  s_id : Z;
  s_row : Subscription.t;
  s_user : option UserObj;
  s_chat : option ChatObj
}.

Record DB := {
  users : gmap Z User.t;
  chats : gmap Z Chat.t;
  subscriptions : gmap Z Subscription.t
}.

Definition empty_db : DB := {| users := ∅; chats := ∅; subscriptions := ∅ |}.

(** ** Exceptions *)

Inductive Constraint :=
| users_telegram_id_key            (* unique=True *)
| chats_telegram_chat_id_key       (* unique=True *)
| subscriptions_payment_id_key     (* unique=True *)
| subscriptions_user_id_fkey       (* ForeignKey('users.id') *)
| subscriptions_chat_id_fkey.      (* ForeignKey('chats.id') *)

Inductive Exn :=
| NameError (name : string)
| AttributeError (attr : string)
| IntegrityError (c : Constraint)
| MultipleResultsFound
| InvalidRequestError
| TelegramError.

(** [isinstance(e, SQLAlchemyError)] *)
Definition is_SQLAlchemyError (e : Exn) : bool :=
  match e with
  | IntegrityError _ | MultipleResultsFound | InvalidRequestError => true
  | _ => false
  end.

Inductive Result (A : Type) :=
| Ok (a : A)
| Err (e : Exn).
Arguments Ok {A} a.
Arguments Err {A} e.

(** ** The unit of work *)

Inductive UserField :=
| Username (v : string)
| FirstName (v : string)
| LastName (v : string).

(** The keyword arguments [update_chat_details] documents, and any other key. *)
Inductive ChatField :=
| Title (v : string)
| PriceAmount (v : Z)
| PriceCurrency (v : string)
| CryptoWalletAddress (v : option string)
| CryptoNetwork (v : option string)
| IsActive (v : bool)
| NoSuchAttribute (key : string).

Definition set_user_field (f : UserField) (u : User.t) : User.t :=
  match f with
  | Username v => User.set_username v u
  | FirstName v => User.set_first_name v u
  | LastName v => User.set_last_name v u
  end.

Definition set_chat_field (f : ChatField) (c : Chat.t) : Chat.t :=
  let '(Chat.mk tg ti pa pc wa nw ac) := c in
  match f with
  | Title v => Chat.mk tg v pa pc wa nw ac
  | PriceAmount v => Chat.mk tg ti v pc wa nw ac
  | PriceCurrency v => Chat.mk tg ti pa v wa nw ac
  | CryptoWalletAddress v => Chat.mk tg ti pa pc v nw ac
  | CryptoNetwork v => Chat.mk tg ti pa pc wa v ac
  | IsActive v => Chat.mk tg ti pa pc wa nw v
  | NoSuchAttribute _ => c
  end.

(** What a session can have staged. *)
Inductive Change :=
| InsertUser (u : User.t)
| InsertChat (c : Chat.t)
| InsertSubscription (s : Subscription.t)
| SetUserField (id : Z) (f : UserField)
| SetChatField (id : Z) (f : ChatField)
| SetSubscriptionStatus (id : Z) (st : string)
| DeleteChat (id : Z).

(** Keys handed out by the store: one more than the largest key in use. *)
Definition max_key {A} (m : gmap Z A) : Z :=
  map_fold (λ k _ acc, Z.max k acc) 0 m.
Definition next_id {A} (m : gmap Z A) : Z := 1 + max_key m.

Definition has_row {A} (P : A → Prop) `{∀ x, Decision (P x)}
    (m : gmap Z A) : bool :=
  bool_decide (filter (λ kv, P kv.2) m ≠ ∅).

(** One staged change written to the database.  Inserts answer with the key
    the row received.  The constraints are the ones [models.py] declares:
    the three [unique=True] columns and the two foreign keys of
    [subscriptions]; the store refuses a change that would break one.  The
    words of its refusal are the platform's ([str_exn]). *)
Definition flush1 (c : Change) (db : DB) : Result (DB * option Z) :=
  match c with
  | InsertUser u =>
      if has_row (λ r, User.telegram_id r = User.telegram_id u) (users db)
      then Err (IntegrityError users_telegram_id_key)
      else let k := next_id (users db) in
           Ok ({| users := <[k := u]> (users db); chats := chats db;
                  subscriptions := subscriptions db |}, Some k)
  | InsertChat c =>
      if has_row (λ r, Chat.telegram_chat_id r = Chat.telegram_chat_id c)
                 (chats db)
      then Err (IntegrityError chats_telegram_chat_id_key)
      else let k := next_id (chats db) in
           Ok ({| users := users db; chats := <[k := c]> (chats db);
                  subscriptions := subscriptions db |}, Some k)
  | InsertSubscription s =>
      if bool_decide (is_Some (Subscription.payment_id s)) &&
         has_row (λ r, Subscription.payment_id r = Subscription.payment_id s)
                 (subscriptions db)
      then Err (IntegrityError subscriptions_payment_id_key)
      else if bool_decide (users db !! Subscription.user_id s = None)
      then Err (IntegrityError subscriptions_user_id_fkey)
      else if bool_decide (chats db !! Subscription.chat_id s = None)
      then Err (IntegrityError subscriptions_chat_id_fkey)
      else let k := next_id (subscriptions db) in
           Ok ({| users := users db; chats := chats db;
                  subscriptions := <[k := s]> (subscriptions db) |}, Some k)
  | SetUserField id f =>
      Ok ({| users := alter (set_user_field f) id (users db);
             chats := chats db; subscriptions := subscriptions db |}, None)
  | SetChatField id f =>
      Ok ({| users := users db;
             chats := alter (set_chat_field f) id (chats db);
             subscriptions := subscriptions db |}, None)
  | SetSubscriptionStatus id st =>
      Ok ({| users := users db; chats := chats db;
             subscriptions :=
               alter (Subscription.set_status st) id (subscriptions db) |},
          None)
  | DeleteChat id =>
      if has_row (λ r, Subscription.chat_id r = id) (subscriptions db)
      then Err (IntegrityError subscriptions_chat_id_fkey)
      else Ok ({| users := users db; chats := delete id (chats db);
                  subscriptions := subscriptions db |}, None)
  end.

Fixpoint flush (cs : list Change) (db : DB) : Result (DB * list (option Z)) :=
  match cs with
  | [] => Ok (db, [])
  | c :: cs' =>
      match flush1 c db with
      | Err e => Err e
      | Ok (db1, k) =>
          match flush cs' db1 with
          | Err e => Err e
          | Ok (db2, ks) => Ok (db2, k :: ks)
          end
      end
  end.

Record Session := {
  pending : list Change;   (* staged, in the order they were made *)
  tx_active : bool         (* the [session.begin()] block's transaction *)
}.

Definition fresh_session : Session := {| pending := []; tx_active := false |}.

(** ** The world a handler runs in *)

(** Outgoing bot traffic and transaction boundaries, in the order they
    happen.  Keyboards attached to a message are not recorded. *)
Inductive Event :=
| TxBegin
| TxCommit
| TxRollback
| Answered (text : string)
| EditMessage (text : string)
| SendMessage (chat_id : Z) (text : string)
| SendFailed (chat_id : Z) (text : string).

Record World := {
  store : DB;              (* durable, shared by all sessions *)
  session : Session;       (* the session of the running handler *)
  clock : Z;               (* [datetime.utcnow()] *)
  entropy : nat → Z;       (* what successive [uuid.uuid4()] calls draw *)
  drawn : nat;
  trace : list Event
}.

Definition set_store (db : DB) (w : World) : World :=
  {| store := db; session := session w; clock := clock w;
     entropy := entropy w; drawn := drawn w; trace := trace w |}.
Definition set_session (s : Session) (w : World) : World :=
  {| store := store w; session := s; clock := clock w;
     entropy := entropy w; drawn := drawn w; trace := trace w |}.
Definition emit (e : Event) (w : World) : World :=
  {| store := store w; session := session w; clock := clock w;
     entropy := entropy w; drawn := drawn w; trace := trace w ++ [e] |}.
Definition draw (w : World) : World :=
  {| store := store w; session := session w; clock := clock w;
     entropy := entropy w; drawn := S (drawn w); trace := trace w |}.

(** What the code leaves to its libraries and to the deployment. *)
Record Platform := {
  strftime : string → Z → string;  (* [datetime.strftime(format)] *)
  format_2f : Z → string;          (* [f"{amount:.2f}"] *)
  str_exn : Exn → string;          (* [str(e)], the store's message text *)
  send_ok : Z → string → bool;     (* does [bot.send_message] go through *)
  reminder_days_ahead : Z          (* [settings.REMINDER_DAYS_AHEAD] *)
}.

(** ** Control flow *)

Inductive Outcome (A : Type) :=
| Normal (a : A)
| Returned               (* a bare [return] is unwinding the function *)
| Raised (e : Exn).
Arguments Normal {A} a.
Arguments Returned {A}.
Arguments Raised {A} e.

Definition M (A : Type) : Type := World → Outcome A * World.

Definition ret {A} (a : A) : M A := λ w, (Normal a, w).

Definition bind {A B} (m : M A) (k : A → M B) : M B :=
  λ w, match m w with
       | (Normal a, w') => k a w'
       | (Returned, w') => (Returned, w')
       | (Raised e, w') => (Raised e, w')
       end.

Notation "'let*' x ':=' m 'in' k" := (bind m (λ x, k))
  (at level 10, x binder, m at level 100, k at level 200).

Definition raise {A} (e : Exn) : M A := λ w, (Raised e, w).
Definition return_ {A} : M A := λ w, (Returned, w).

(** [try: body  except ...: handler] *)
Definition try_except {A} (body : M A) (handler : Exn → M A) : M A :=
  λ w, match body w with
       | (Raised e, w') => handler e w'
       | r => r
       end.

(** The end of a [def] whose [return]s carry no value. *)
Definition def_ (body : M unit) : M unit :=
  λ w, match body w with
       | (Returned, w') => (Normal tt, w')
       | r => r
       end.

Fixpoint for_each {A} (l : list A) (body : A → M unit) : M unit :=
  match l with
  | [] => ret tt
  | x :: l' => let* _ := body x in for_each l' body
  end.

Definition when (b : bool) (m : M unit) : M unit := if b then m else ret tt.

Definition utcnow : M Z := λ w, (Normal (clock w), w).

Definition uuid4 : M Z :=
  λ w, (Normal (entropy w (drawn w) mod 2 ^ 128), draw w).

(** ** Session operations *)

(** What a query run through the session sees. *)
Definition view : M DB :=
  λ w, match flush (pending (session w)) (store w) with
       | Ok (db, _) => (Normal db, w)
       | Err e => (Raised e, w)
       end.

(** [session.add(obj)] for a new object, [session.delete(obj)], or an
    attribute assignment on a loaded one.  Answers with the position of the
    change in the unit of work. *)
Definition stage (c : Change) : M nat :=
  λ w, let s := session w in
       (Normal (length (pending s)),
        set_session {| pending := pending s ++ [c];
                       tx_active := tx_active s |} w).

(** [session.add(obj)] for an object the session already holds. *)
Definition add_known : M unit := ret tt.

Definition closed_tx : Session := {| pending := []; tx_active := false |}.

(** [await session.commit()] answers with the keys the inserts received. *)
Definition commit : M (list (option Z)) :=
  λ w, match flush (pending (session w)) (store w) with
       | Ok (db, keys) =>
           (Normal keys, emit TxCommit (set_session closed_tx (set_store db w)))
       | Err e => (Raised e, emit TxRollback (set_session closed_tx w))
       end.

Definition rollback : M unit :=
  λ w, (Normal tt, emit TxRollback (set_session closed_tx w)).

(** [async with session.begin():] commits on the way out unless the block
    ended the transaction itself (by a commit or a rollback of its own), and
    rolls back when the block raises. *)
Definition with_begin {A} (body : M A) : M A :=
  λ w,
    let w0 := emit TxBegin
                (set_session {| pending := pending (session w);
                                tx_active := true |} w) in
    match body w0 with
    | (Raised e, w1) =>
        (Raised e, if tx_active (session w1) then snd (rollback w1) else w1)
    | (r, w1) =>
        if tx_active (session w1) then
          match commit w1 with
          | (Raised e, w2) => (Raised e, w2)
          | (_, w2) => (r, w2)
          end
        else (r, w1)
    end.

(** [async with async_session_factory() as session:] a new session on the
    way in; on the way out it is closed and whatever is staged is dropped. *)
Definition with_session {A} (body : M A) : M A :=
  λ w, let '(r, w1) := body (set_session fresh_session w) in
       (r, set_session fresh_session w1).

(** ** Bot traffic *)

Definition answer (text : string) : M unit :=
  λ w, (Normal tt, emit (Answered text) w).
Definition edit_message_text (text : string) : M unit :=
  λ w, (Normal tt, emit (EditMessage text) w).

Section Platform.
Context (pf : Platform).

Definition send_message (chat_id : Z) (text : string) : M unit :=
  λ w, if send_ok pf chat_id text
       then (Normal tt, emit (SendMessage chat_id text) w)
       else (Raised TelegramError, emit (SendFailed chat_id text) w).

End Platform.

(** ** Query results *)

Definition load_user (db : DB) (id : Z) : option UserObj :=
  (λ r, {| u_id := id; u_row := r |}) <$> users db !! id.
Definition load_chat (db : DB) (id : Z) : option ChatObj :=
  (λ r, {| c_id := id; c_row := r |}) <$> chats db !! id.
Definition load_sub (db : DB) (kv : Z * Subscription.t) : SubObj :=
  {| s_id := kv.1; s_row := kv.2;
     s_user := load_user db (Subscription.user_id kv.2);
     s_chat := load_chat db (Subscription.chat_id kv.2) |}.

(** [result.scalar_one_or_none()] *)
Definition scalar_one_or_none {A} (rows : list A) : M (option A) :=
  match rows with
  | [] => ret None
  | [x] => ret (Some x)
  | _ => raise MultipleResultsFound
  end.

(** [select(T).filter(P)] *)
Definition select_where {A} (P : Z * A → Prop) `{∀ x, Decision (P x)}
    (table : gmap Z A) : list (Z * A) :=
  map_to_list (filter P table).

(** Attribute access on a relationship that may have loaded [None]. *)
Definition attr {A B} (o : option A) (name : string) (f : A → B) : M B :=
  match o with
  | Some a => ret (f a)
  | None => raise (AttributeError name)
  end.

(** ** Repository operations ([db_utils.py])

    Every function there wraps its body in [try: ... except SQLAlchemyError:
    log; raise]; logging has no modelled effect, so such a handler is the
    identity and is left out.  [get_user_by_telegram_id] is the one whose
    handler does more.  *)

Definition seconds_per_day : Z := 86400.

Definition user_obj (kv : Z * User.t) : UserObj := {| u_id := kv.1; u_row := kv.2 |}.
Definition chat_obj (kv : Z * Chat.t) : ChatObj := {| c_id := kv.1; c_row := kv.2 |}.

(** Lines 19-20: the lookup. *)
Definition get_user_select (telegram_id : Z) : M (option UserObj) :=
  let* db := view in
  let* row := scalar_one_or_none
                (select_where (λ kv, User.telegram_id kv.2 = telegram_id)
                              (users db)) in
  ret (user_obj <$> row).

(** [await session.refresh(obj)] on an object inserted at position [h] of the
    unit of work that [keys] answers for. *)
Definition refresh_user (h : nat) (keys : list (option Z)) : M UserObj :=
  match keys !! h with
  | Some (Some k) =>
      let* db := view in
      match load_user db k with
      | Some u => ret u
      | None => raise InvalidRequestError
      end
  | _ => raise InvalidRequestError
  end.

(** Lines 22-27: no row, so add one, commit, refresh. *)
Definition get_user_create (telegram_id : Z) : M UserObj :=
  let* h := stage (InsertUser (User.new telegram_id)) in
  let* keys := commit in
  refresh_user h keys.

Definition get_user_resume (found : option UserObj) (telegram_id : Z)
    : M UserObj :=
  match found with
  | None => get_user_create telegram_id
  | Some user => ret user
  end.

(** Lines 30-33: [except SQLAlchemyError: rollback; raise]. *)
Definition get_user_failed {A} (e : Exn) : M A :=
  if is_SQLAlchemyError e then let* _ := rollback in raise e else raise e.

Definition get_user_by_telegram_id (telegram_id : Z) : M UserObj :=
  try_except
    (let* found := get_user_select telegram_id in
     get_user_resume found telegram_id)
    get_user_failed.

Definition create_subscription (user_id chat_id duration_days : Z)
    (status : string) (payment_id : option string)
    (payment_details : option (gmap string (option string)))
    : M (nat * Subscription.t) :=
  let* start_date := utcnow in
  let end_date := start_date + duration_days * seconds_per_day in
  let new_subscription :=
    Subscription.mk user_id chat_id start_date end_date status
                    payment_id payment_details in
  let* h := stage (InsertSubscription new_subscription) in
  ret (h, new_subscription).

Definition get_active_subscriptions (user_telegram_id : Z) : M (list SubObj) :=
  let* now := utcnow in
  let* db := view in
  ret (load_sub db <$>
       select_where
         (λ kv, User.telegram_id <$> users db !! Subscription.user_id kv.2
                  = Some user_telegram_id
                ∧ Subscription.status kv.2 = "active"
                ∧ now < Subscription.end_date kv.2)
         (subscriptions db)).

Definition get_subscriptions_ending_soon (days_ahead : Z) : M (list SubObj) :=
  let* now := utcnow in
  let target_date := now + days_ahead * seconds_per_day in
  let* db := view in
  ret (load_sub db <$>
       select_where
         (λ kv, Subscription.status kv.2 = "active"
                ∧ now < Subscription.end_date kv.2
                ∧ Subscription.end_date kv.2 ≤ target_date)
         (subscriptions db)).

(** The filter of [get_expired_subscriptions]. *)
Definition due (now : Z) (s : Subscription.t) : Prop :=
  Subscription.status s = "active" ∧ Subscription.end_date s ≤ now.

Global Instance due_dec now s : Decision (due now s).
Proof. unfold due. apply _. Defined.

Definition get_expired_subscriptions : M (list SubObj) :=
  let* now := utcnow in
  let* db := view in
  ret (load_sub db <$> select_where (λ kv, due now kv.2) (subscriptions db)).

Definition update_subscription_status (subscription_id : Z)
    (new_status : string) : M (option SubObj) :=
  let* db := view in
  let* subscription :=
    scalar_one_or_none
      (select_where (λ kv, kv.1 = subscription_id) (subscriptions db)) in
  match subscription with
  | Some kv =>
      let* _ := stage (SetSubscriptionStatus kv.1 new_status) in
      ret (Some (load_sub db (kv.1, Subscription.set_status new_status kv.2)))
  | None => ret None
  end.

Definition get_chat_by_id (chat_id : Z) : M (option ChatObj) :=
  let* db := view in
  let* chat := scalar_one_or_none
                 (select_where (λ kv, kv.1 = chat_id) (chats db)) in
  ret (chat_obj <$> chat).

Definition get_all_managed_chats : M (list ChatObj) :=
  let* db := view in
  ret (chat_obj <$> select_where (λ kv, Chat.is_active kv.2 = true) (chats db)).

Definition get_subscription_by_id (subscription_id : Z) : M (option SubObj) :=
  let* db := view in
  let* subscription :=
    scalar_one_or_none
      (select_where (λ kv, kv.1 = subscription_id) (subscriptions db)) in
  ret (load_sub db <$> subscription).

(** [create_chat]: update the row with this [telegram_chat_id] when there is
    one, else stage a new one.  The key of a new chat is not known yet. *)
Definition create_chat (telegram_chat_id : Z) (title : string)
    (price_amount : Z) (price_currency : string)
    (crypto_wallet_address crypto_network : option string) (is_active : bool)
    : M (option Z * Chat.t) :=
  let chat := Chat.mk telegram_chat_id title price_amount price_currency
                      crypto_wallet_address crypto_network is_active in
  let* db := view in
  let* existing_chat :=
    scalar_one_or_none
      (select_where (λ kv, Chat.telegram_chat_id kv.2 = telegram_chat_id)
                    (chats db)) in
  match existing_chat with
  | Some kv =>
      let* _ := stage (SetChatField kv.1 (Title title)) in
      let* _ := stage (SetChatField kv.1 (PriceAmount price_amount)) in
      let* _ := stage (SetChatField kv.1 (PriceCurrency price_currency)) in
      let* _ := stage (SetChatField kv.1
                         (CryptoWalletAddress crypto_wallet_address)) in
      let* _ := stage (SetChatField kv.1 (CryptoNetwork crypto_network)) in
      let* _ := stage (SetChatField kv.1 (IsActive is_active)) in
      ret (Some kv.1, chat)
  | None =>
      let* _ := stage (InsertChat chat) in
      ret (None, chat)
  end.

(** [hasattr(chat, key)] *)
Definition hasattr_chat (f : ChatField) : bool :=
  match f with
  | NoSuchAttribute _ => false
  | _ => true
  end.

Definition update_chat_details (chat_id : Z) (kwargs : list ChatField)
    : M (option ChatObj) :=
  let* chat := get_chat_by_id chat_id in
  match chat with
  | Some c =>
      let* _ := for_each kwargs (λ f,
                  if hasattr_chat f
                  then let* _ := stage (SetChatField chat_id f) in ret tt
                  else ret tt) in
      ret (Some {| c_id := c_id c;
                   c_row := foldl (λ r f, set_chat_field f r) (c_row c) kwargs |})
  | None => ret None
  end.

(** [delete_chat_by_id]: marks the chat for deletion and answers [True];
    answers [False] when there is no such chat. *)
Definition delete_chat_by_id (chat_id : Z) : M bool :=
  let* chat := get_chat_by_id chat_id in
  match chat with
  | Some c =>
      let* _ := stage (DeleteChat (c_id c)) in
      ret true
  | None => ret false
  end.

(** [await session.refresh(obj)] for a subscription: the row is read again
    by its key. *)
Definition refresh_subscription (key : option Z) : M SubObj :=
  match key with
  | Some k =>
      let* db := view in
      match subscriptions db !! k with
      | Some r => ret (load_sub db (k, r))
      | None => raise InvalidRequestError
      end
  | None => raise InvalidRequestError
  end.

(** ** Name resolution in [handlers.py]

    A name that is read in a function body is looked up among the function's
    bound locals, then among the module's globals, then among the builtins. *)

Inductive PyVal :=
| PyNone
| PyInt (z : Z)
| PyStr (s : string)
| PyUser (u : UserObj)
| PySub (s : SubObj)
| PyOther.               (* modules, classes, functions, bot objects *)

(** Everything [handlers.py] binds at module level: its imports, [logger]
    and its functions. *)
Definition handlers_globals : list string :=
  [ "uuid"; "datetime"; "logging";
    "Update"; "InlineKeyboardButton"; "InlineKeyboardMarkup"; "ContextTypes";
    "AsyncSession"; "Chat"; "Subscription"; "User";
    "get_user_by_telegram_id"; "create_subscription";
    "get_active_subscriptions"; "get_subscriptions_ending_soon";
    "get_expired_subscriptions"; "update_subscription_status";
    "get_chat_by_id"; "get_all_managed_chats"; "get_subscription_by_id";
    "SQLAlchemyError"; "logger";
    "start"; "help_command"; "user_panel"; "user_subscribe_callback";
    "select_chat_callback"; "confirm_payment_callback";
    "user_my_subscriptions_callback"; "user_renew_callback";
    "user_panel_return_callback"; "send_renewal_reminders";
    "process_expired_subscriptions" ].

(** The builtin names the module uses.  No builtin is called [user]. *)
Definition builtins : list string := [ "Exception"; "len"; "int"; "str" ].

Fixpoint assoc (x : string) (env : list (string * PyVal)) : option PyVal :=
  match env with
  | [] => None
  | (y, v) :: env' => if String.eqb x y then Some v else assoc x env'
  end.

Definition load_name (locals : list (string * PyVal)) (x : string) : M PyVal :=
  match assoc x locals with
  | Some v => ret v
  | None =>
      if bool_decide (x ∈ handlers_globals) || bool_decide (x ∈ builtins)
      then ret PyOther
      else raise (NameError x)
  end.

(** [obj.id] *)
Definition getattr_id (v : PyVal) : M Z :=
  match v with
  | PyUser u => ret (u_id u)
  | PySub s => ret (s_id s)
  | _ => raise (AttributeError "id")
  end.

(** ** Handlers ([handlers.py]) *)

Record TgUser := {
  tg_id : Z;
  tg_username : option string;
  tg_first_name : option string;
  tg_last_name : option string
}.

Record CallbackQuery := {
  from_user : TgUser;
  data : string;
  has_message : bool      (* [query.message] is there to be edited *)
}.

(** [if new and old != new: user.field = new] *)
Definition refresh_field (new old : option string) (id : Z)
    (field : string → UserField) : M unit :=
  match new with
  | Some v =>
      if negb (String.eqb v EmptyString) && negb (bool_decide (old = Some v))
      then let* _ := stage (SetUserField id (field v)) in ret tt
      else ret tt
  | None => ret tt
  end.

Definition str_opt (o : option string) : string := default "None" o.

Definition nl : string := String (ascii_of_nat 10) EmptyString.

(** [f"PAYREF-{uuid.uuid4().hex[:10].upper()}"] *)
Definition payment_reference_of (u : Z) : string :=
  "PAYREF-" +:+ Py.upper (Py.slice_to 10 (Py.uuid_hex u)).

Definition payment_details_of (chat : ChatObj) (payment_reference : string)
    : gmap string (option string) :=
  <["generated_wallet" := Chat.crypto_wallet_address (c_row chat)]>
  (<["network" := Chat.crypto_network (c_row chat)]>
  (<["reference" := Some payment_reference]> ∅)).

Section Handlers.
Context (pf : Platform).

Definition payment_info_text (chat : ChatObj) (duration_days : Z)
    (payment_reference : string) : string :=
  "To subscribe to **" +:+ Chat.title (c_row chat) +:+ "** for **" +:+
  format_2f pf (Chat.price_amount (c_row chat)) +:+ " " +:+
  Chat.price_currency (c_row chat) +:+ "** (for " +:+ Py.str duration_days +:+
  " days):" +:+ nl +:+ nl +:+
  "Please send the payment to:" +:+ nl +:+
  "**Wallet Address:** `" +:+
  str_opt (Chat.crypto_wallet_address (c_row chat)) +:+ "`" +:+ nl +:+
  "**Network:** " +:+ str_opt (Chat.crypto_network (c_row chat)) +:+
  nl +:+ nl +:+
  "Your unique payment reference is: `" +:+ payment_reference +:+ "`" +:+ nl +:+
  "_(Ensure this reference is used if possible, or keep it for your records.)_"
  +:+ nl +:+ nl +:+
  "After making the payment, click the button below.".

(** Lines 151-188: the chat is there; resolve the user, stage the
    subscription, commit. *)
Definition select_chat_subscribe (query : CallbackQuery) (chat : ChatObj)
    : M (ChatObj * option Z * string) :=
  let user_id := tg_id (from_user query) in
  let* user := get_user_by_telegram_id user_id in
  let* _ := refresh_field (tg_username (from_user query))
              (User.username (u_row user)) (u_id user) Username in
  let* _ := refresh_field (tg_first_name (from_user query))
              (User.first_name (u_row user)) (u_id user) FirstName in
  let* _ := refresh_field (tg_last_name (from_user query))
              (User.last_name (u_row user)) (u_id user) LastName in
  let* _ := add_known in
  let duration_days := 30 in
  let* u := uuid4 in
  let payment_reference := payment_reference_of u in
  let* new_subscription :=
    create_subscription (u_id user) (c_id chat) duration_days
      "pending_payment" (Some payment_reference)
      (Some (payment_details_of chat payment_reference)) in
  let* _ := add_known in
  let* keys := commit in
  ret (chat, mjoin (keys !! new_subscription.1), payment_reference).

(** Lines 145-188, the body of the [session.begin()] block. *)
Definition select_chat_tx (query : CallbackQuery) (chat_id : Z)
    : M (ChatObj * option Z * string) :=
  let* chat := get_chat_by_id chat_id in
  match chat with
  | None =>
      let* _ := edit_message_text "Selected chat not found. Please try again." in
      return_
  | Some chat => select_chat_subscribe query chat
  end.

Definition select_chat_callback (query : CallbackQuery) : M unit :=
  let chat_id_str := Py.last_field (data query) in
  def_ (try_except
    (let* _ := answer EmptyString in
     let* _ := when (negb (Py.isdigit chat_id_str))
                 (let* _ := edit_message_text "Invalid chat selection." in
                  return_) in
     let chat_id := Py.int chat_id_str in
     let* '(chat, key, payment_reference) :=
       with_session (with_begin (select_chat_tx query chat_id)) in
     let* new_subscription := refresh_subscription key in
     edit_message_text (payment_info_text chat 30 payment_reference))
    (λ e,
       if is_SQLAlchemyError e
       then edit_message_text
              "An error occurred while processing your selection. Please try again later."
       else when (has_message query)
              (edit_message_text
                 "An unexpected error occurred. Please try again."))).

Definition date_time_format : string := "%Y-%m-%d %H:%M UTC".

Definition unexpected_error : string :=
  "An unexpected error occurred. Please contact support.".
Definition not_yours : string :=
  "Error: This subscription does not belong to you.".
Definition not_found : string :=
  "Subscription not found. Please contact support.".

Definition already_active (title : string) (end_date : Z) : string :=
  "Your subscription to " +:+ title +:+ " is already active until " +:+
  strftime pf date_time_format end_date +:+ ".".

(** The names bound when line 250 of [confirm_payment_callback] runs. *)
Definition confirm_payment_locals (query : CallbackQuery)
    (subscription_id_str : string) (subscription_id : Z)
    (subscription_to_update : SubObj) : list (string * PyVal) :=
  [ ("update", PyOther); ("context", PyOther); ("query", PyOther);
    ("user_id", PyInt (tg_id (from_user query)));
    ("subscription_id_str", PyStr subscription_id_str);
    ("subscription_id", PyInt subscription_id);
    ("async_session_factory", PyOther);
    ("updated_subscription", PyNone);
    ("session", PyOther);
    ("subscription_to_update", PySub subscription_to_update) ].

(** Lines 243-268, the body of the [session.begin()] block. *)
Definition confirm_payment_tx (query : CallbackQuery)
    (subscription_id_str : string) (subscription_id : Z) : M SubObj :=
  let* subscription_to_update := get_subscription_by_id subscription_id in
  match subscription_to_update with
  | None =>
      let* _ := edit_message_text not_found in
      return_
  | Some sub =>
      let* user := load_name (confirm_payment_locals query
                                subscription_id_str subscription_id sub)
                             "user" in
      let* user_dot_id := getattr_id user in
      if negb (bool_decide (Subscription.user_id (s_row sub) = user_dot_id))
      then
        let* _ := edit_message_text not_yours in
        return_
      else if String.eqb (Subscription.status (s_row sub)) "active"
      then
        let* title := attr (s_chat sub) "title" (λ c, Chat.title (c_row c)) in
        let* _ := edit_message_text
                    (already_active title
                       (Subscription.end_date (s_row sub))) in
        return_
      else
        let* updated_subscription :=
          update_subscription_status subscription_id "active" in
        match updated_subscription with
        | None =>
            let* _ := edit_message_text
                        "Could not update subscription. Please contact support." in
            return_
        | Some updated =>
            let* _ := commit in
            ret updated
        end
  end.

Definition confirm_payment_callback (query : CallbackQuery) : M unit :=
  let subscription_id_str := Py.last_field (data query) in
  def_ (try_except
    (let* _ := answer EmptyString in
     let* _ := when (negb (Py.isdigit subscription_id_str))
                 (let* _ := edit_message_text
                              "Invalid subscription reference." in
                  return_) in
     let subscription_id := Py.int subscription_id_str in
     let* updated_subscription :=
       with_session (with_begin
         (confirm_payment_tx query subscription_id_str subscription_id)) in
     let* updated_subscription :=
       refresh_subscription (Some (s_id updated_subscription)) in
     let end_date_str :=
       strftime pf date_time_format
                (Subscription.end_date (s_row updated_subscription)) in
     let* title := attr (s_chat updated_subscription) "title"
                        (λ c, Chat.title (c_row c)) in
     let* _ := edit_message_text
                 ("Thank you! Your payment is confirmed and your subscription to **"
                  +:+ title +:+ "** is now active until **" +:+
                  end_date_str +:+ "**!") in
     try_except
       (let* tid := attr (s_user updated_subscription) "telegram_id"
                         (λ u, User.telegram_id (u_row u)) in
        send_message pf tid
          ("Placeholder: You would now be added to the chat '" +:+ title +:+
           "'. (This is a simulated action)"))
       (λ _, ret tt))
    (λ e,
       if is_SQLAlchemyError e
       then edit_message_text
              "An error occurred while confirming your payment with the database. Please contact support."
       else when (has_message query) (edit_message_text unexpected_error))).

Definition expired_text (title : string) : string :=
  "Your subscription to **" +:+ title +:+ "** has expired.".
Definition removed_text (title : string) : string :=
  "Placeholder: You would now be removed from the chat '" +:+ title +:+
  "'. (This is a simulated action)".

(** Lines 447-469, one turn of the loop.  The log line at its head reads
    [sub.user.telegram_id] and [sub.chat.title]; the later log lines read
    the same two attributes again and cannot fail where the first did
    not. *)
Definition expire_one (sub : SubObj) : M unit :=
  let* tid := attr (s_user sub) "telegram_id"
                   (λ u, User.telegram_id (u_row u)) in
  let* title := attr (s_chat sub) "title" (λ c, Chat.title (c_row c)) in
  let* updated_sub := update_subscription_status (s_id sub) "expired" in
  match updated_sub with
  | Some _ =>
      try_except
        (let* _ := send_message pf tid (expired_text title) in
         send_message pf tid (removed_text title))
        (λ _, ret tt)
  | None => ret tt
  end.

Definition process_expired_subscriptions : M unit :=
  def_ (try_except
    (with_session (with_begin
       (let* expired_subs := get_expired_subscriptions in
        let* _ := for_each expired_subs expire_one in
        let* _ := commit in
        ret tt)))
    (λ _, ret tt)).

(** [user_subscribe_callback]: lists the chats on offer. *)
Definition user_subscribe_callback (query : CallbackQuery) : M unit :=
  def_ (try_except
    (let* _ := answer EmptyString in
     let* available_chats := with_session get_all_managed_chats in
     match available_chats with
     | [] =>
         let* _ := edit_message_text
                     "No chats available for subscription at the moment." in
         return_
     | _ => edit_message_text "Please select a chat to subscribe to:"
     end)
    (λ e,
       if is_SQLAlchemyError e
       then edit_message_text
              "Could not retrieve chat list due to a database issue. Please try again later."
       else when (has_message query)
              (edit_message_text
                 "An unexpected error occurred. Please try again later."))).

Fixpoint subscription_lines (subs : list SubObj) (text : string) : M string :=
  match subs with
  | [] => ret text
  | sub :: rest =>
      let* title := attr (s_chat sub) "title" (λ c, Chat.title (c_row c)) in
      subscription_lines rest
        (text +:+ "- **" +:+ title +:+ "**: Expires on " +:+
         strftime pf date_time_format (Subscription.end_date (s_row sub))
         +:+ nl)
  end.

Definition user_my_subscriptions_callback (query : CallbackQuery) : M unit :=
  let user_id := tg_id (from_user query) in
  def_ (try_except
    (let* _ := answer EmptyString in
     let* active_subscriptions :=
       with_session
         (let* user := get_user_by_telegram_id user_id in
          get_active_subscriptions (User.telegram_id (u_row user))) in
     let* message_text :=
       match active_subscriptions with
       | [] => ret "You have no active subscriptions."
       | _ => subscription_lines active_subscriptions
                ("Your active subscriptions:" +:+ nl)
       end in
     edit_message_text message_text)
    (λ e,
       if is_SQLAlchemyError e
       then edit_message_text
              "Could not retrieve your subscriptions due to a database issue. Please try again later."
       else when (has_message query)
              (edit_message_text
                 "An unexpected error occurred. Please try again later."))).

Definition reminder_text (title end_date_str : string) : string :=
  "Friendly reminder! Your subscription to **" +:+ title +:+
  "** is ending on **" +:+ end_date_str +:+
  "**. Use the /panel command to renew.".

Definition remind_one (sub : SubObj) : M unit :=
  try_except
    (let end_date_str :=
       strftime pf "%Y-%m-%d" (Subscription.end_date (s_row sub)) in
     let* title := attr (s_chat sub) "title" (λ c, Chat.title (c_row c)) in
     let* tid := attr (s_user sub) "telegram_id"
                      (λ u, User.telegram_id (u_row u)) in
     send_message pf tid (reminder_text title end_date_str))
    (λ _,
       (* the log line reads [sub.user.telegram_id] again *)
       let* _ := attr (s_user sub) "telegram_id"
                      (λ u, User.telegram_id (u_row u)) in
       ret tt).

Definition send_renewal_reminders : M unit :=
  def_ (
    let* subscriptions_ending_soon :=
      try_except
        (with_session
           (get_subscriptions_ending_soon (reminder_days_ahead pf)))
        (λ _, return_) in
    for_each subscriptions_ending_soon remind_one).

(** ** Chat removal ([admin_handlers.py])

    The body of [execute_remove_chat_callback]; the [is_admin] gate in
    front of it is not part of the model. *)
Definition execute_remove_chat_callback (query : CallbackQuery) : M unit :=
  let chat_db_id_str := Py.last_field (data query) in
  def_ (
    let* _ := when (negb (Py.isdigit chat_db_id_str))
                (let* _ := answer "Invalid chat ID." in return_) in
    let chat_db_id := Py.int chat_db_id_str in
    try_except
      (let* _ := answer "Attempting to remove chat..." in
       with_session (with_begin
         (let* success := delete_chat_by_id chat_db_id in
          if success then
            let* _ := commit in
            edit_message_text
              ("Chat DB ID " +:+ Py.str chat_db_id +:+ " has been removed.")
          else
            edit_message_text
              ("Chat DB ID " +:+ Py.str chat_db_id +:+
               " not found. It might have been already removed."))))
      (λ e,
         if is_SQLAlchemyError e
         then edit_message_text
                (if Py.contains "foreign key constraint"
                      (Py.lower (str_exn pf e))
                 then "Cannot remove chat: It is still referenced by existing subscriptions. Please ensure no subscriptions are linked to this chat."
                 else "Database error removing chat. It might be in use (e.g., active subscriptions).")
         else if has_message query
         then edit_message_text
                "An unexpected error occurred while removing the chat."
         else answer "An error occurred removing chat.")).

End Handlers.

(** ** Entry points *)

(** The handlers and jobs that open a session. *)
Inductive Request :=
| UserSubscribe (query : CallbackQuery)
| SelectChat (query : CallbackQuery)
| ConfirmPayment (query : CallbackQuery)
| MySubscriptions (query : CallbackQuery)
| SendRenewalReminders
| ProcessExpiredSubscriptions
| ExecuteRemoveChat (query : CallbackQuery).

Definition handle (pf : Platform) (r : Request) : M unit :=
  match r with
  | UserSubscribe q => user_subscribe_callback q
  | SelectChat q => select_chat_callback pf q
  | ConfirmPayment q => confirm_payment_callback pf q
  | MySubscriptions q => user_my_subscriptions_callback pf q
  | SendRenewalReminders => send_renewal_reminders pf
  | ProcessExpiredSubscriptions => process_expired_subscriptions pf
  | ExecuteRemoveChat q => execute_remove_chat_callback pf q
  end.

(** The functions of [db_utils.py], each with its arguments. *)
Inductive RepoCall :=
| GetUserByTelegramId (telegram_id : Z)
| CreateSubscription (user_id chat_id duration_days : Z) (status : string)
    (payment_id : option string)
    (payment_details : option (gmap string (option string)))
| GetActiveSubscriptions (user_telegram_id : Z)
| GetSubscriptionsEndingSoon (days_ahead : Z)
| GetExpiredSubscriptions
| UpdateSubscriptionStatus (subscription_id : Z) (new_status : string)
| GetChatById (chat_id : Z)
| GetAllManagedChats
| GetSubscriptionById (subscription_id : Z)
| CreateChat (telegram_chat_id : Z) (title : string) (price_amount : Z)
    (price_currency : string)
    (crypto_wallet_address crypto_network : option string) (is_active : bool)
| UpdateChatDetails (chat_id : Z) (kwargs : list ChatField)
| DeleteChatById (chat_id : Z).

Definition discard {A} (m : M A) : M unit := let* _ := m in ret tt.

Definition repo (c : RepoCall) : M unit :=
  match c with
  | GetUserByTelegramId t => discard (get_user_by_telegram_id t)
  | CreateSubscription u c d st p pd => discard (create_subscription u c d st p pd)
  | GetActiveSubscriptions t => discard (get_active_subscriptions t)
  | GetSubscriptionsEndingSoon d => discard (get_subscriptions_ending_soon d)
  | GetExpiredSubscriptions => discard get_expired_subscriptions
  | UpdateSubscriptionStatus i st => discard (update_subscription_status i st)
  | GetChatById i => discard (get_chat_by_id i)
  | GetAllManagedChats => discard get_all_managed_chats
  | GetSubscriptionById i => discard (get_subscription_by_id i)
  | CreateChat t ti pa pc wa nw ac => discard (create_chat t ti pa pc wa nw ac)
  | UpdateChatDetails i kw => discard (update_chat_details i kw)
  | DeleteChatById i => discard (delete_chat_by_id i)
  end.

Definition is_lookup_or_create (c : RepoCall) : bool :=
  match c with
  | GetUserByTelegramId _ => true
  | _ => false
  end.

(** ** Two first contacts at once

    A coroutine gives up control at each [await].  In
    [get_user_by_telegram_id] these are the query, the commit and the
    refresh; a task is at one of them or has finished.  Each task has its own
    session; the store is shared. *)

Inductive Pc :=
| AtSelect
| AtCreate
| AtRefresh (h : nat) (keys : list (option Z))
| Finished (r : Outcome UserObj).

Record Task := { t_session : Session; t_pc : Pc }.

Definition new_task : Task := {| t_session := fresh_session; t_pc := AtSelect |}.

(** The stretch of [get_user_by_telegram_id] from one [await] to the next. *)
Definition phase (telegram_id : Z) (pc : Pc) : M Pc :=
  match pc with
  | AtSelect =>
      let* found := get_user_select telegram_id in
      ret (match found with
           | Some user => Finished (Normal user)
           | None => AtCreate
           end)
  | AtCreate =>
      let* h := stage (InsertUser (User.new telegram_id)) in
      let* keys := commit in
      ret (AtRefresh h keys)
  | AtRefresh h keys =>
      let* user := refresh_user h keys in
      ret (Finished (Normal user))
  | Finished r => ret (Finished r)
  end.

Definition task_step (telegram_id : Z) (t : Task) (w : World) : Task * World :=
  match t_pc t with
  | Finished _ => (t, w)
  | pc =>
      let '(r, w') := try_except (phase telegram_id pc) get_user_failed
                                 (set_session (t_session t) w) in
      ({| t_session := session w';
          t_pc := match r with
                  | Normal pc' => pc'
                  | Returned => Finished Returned
                  | Raised e => Finished (Raised e)
                  end |}, w')
  end.

(** A schedule says whose turn it is: [true] for the first task. *)
Fixpoint run_tasks (telegram_id : Z) (schedule : list bool) (a b : Task)
    (w : World) : Task * Task * World :=
  match schedule with
  | [] => (a, b, w)
  | true :: rest =>
      let '(a', w') := task_step telegram_id a w in
      run_tasks telegram_id rest a' b w'
  | false :: rest =>
      let '(b', w') := task_step telegram_id b w in
      run_tasks telegram_id rest a b' w'
  end.

(** ** Predicates the statements use *)

Definition rows_for (telegram_id : Z) (db : DB) : list (Z * User.t) :=
  select_where (λ kv, User.telegram_id kv.2 = telegram_id) (users db).

(** The [unique=True] of [users.telegram_id]. *)
Definition unique_telegram_ids (db : DB) : Prop :=
  map_Forall (λ k1 r1,
    map_Forall (λ k2 r2,
      User.telegram_id r1 = User.telegram_id r2 → k1 = k2) (users db))
    (users db).

(** The two foreign keys of [subscriptions]. *)
Definition foreign_keys_hold (db : DB) : Prop :=
  map_Forall (λ _ s,
    is_Some (users db !! Subscription.user_id s) ∧
    is_Some (chats db !! Subscription.chat_id s)) (subscriptions db).

Definition dead (s : Subscription.t) : Prop :=
  Subscription.status s = "expired" ∨ Subscription.status s = "cancelled".

(** What the sweep is to do to one row. *)
Definition expire (now : Z) (s : Subscription.t) : Subscription.t :=
  if decide (due now s) then Subscription.set_status "expired" s else s.

(** The bot traffic one due subscription causes in the sweep. *)
Definition expiry_events (pf : Platform) (sub : SubObj) : list Event :=
  match s_user sub, s_chat sub with
  | Some u, Some c =>
      let tid := User.telegram_id (u_row u) in
      let title := Chat.title (c_row c) in
      if send_ok pf tid (expired_text title) then
        if send_ok pf tid (removed_text title)
        then [SendMessage tid (expired_text title);
              SendMessage tid (removed_text title)]
        else [SendMessage tid (expired_text title);
              SendFailed tid (removed_text title)]
      else [SendFailed tid (expired_text title)]
  | _, _ => []
  end.

Definition due_subscriptions (w : World) : list SubObj :=
  load_sub (store w) <$>
    select_where (λ kv, due (clock w) kv.2) (subscriptions (store w)).

Definition is_send (e : Event) : bool :=
  match e with
  | SendMessage _ _ | SendFailed _ _ => true
  | _ => false
  end.

(** Every send comes after a commit and none falls between a begin and the
    commit that ends it. *)
Definition notified_after_commit (t : list Event) : Prop :=
  ∀ i e, t !! i = Some e → is_send e = true →
    (∃ j, (j < i)%nat ∧ t !! j = Some TxCommit) ∧
    ∀ b, (b < i)%nat → t !! b = Some TxBegin →
         ∃ c, (b < c < i)%nat ∧ t !! c = Some TxCommit.

(** [w] with more staged and more said. *)
Definition advance (w : World) (cs : list Change) (evs : list Event) : World :=
  {| store := store w;
     session := {| pending := pending (session w) ++ cs;
                   tx_active := tx_active (session w) |};
     clock := clock w; entropy := entropy w; drawn := drawn w;
     trace := trace w ++ evs |}.

Definition set_to (st : string) (id : Z) : Change := SetSubscriptionStatus id st.
Definition set_expired : Z → Change := set_to "expired".

(** The database with the rows [ids] of [subscriptions] set to [st]. *)
Definition with_statuses (st : string) (ids : list Z) (db : DB) : DB :=
  {| users := users db; chats := chats db;
     subscriptions :=
       foldl (λ m id, alter (Subscription.set_status st) id m)
             (subscriptions db) ids |}.

(** Staged changes all satisfy [ok]; running [m] keeps that and moves the
    durable store along [Rdb]. *)
Definition staged_ok (ok : Change → Prop) (w : World) : Prop :=
  Forall ok (pending (session w)).

Definition preserves (ok : Change → Prop) (Rdb : DB → DB → Prop) {A}
    (m : M A) : Prop :=
  ∀ w, staged_ok ok w →
       staged_ok ok (m w).2 ∧ Rdb (store w) (store (m w).2).

(** Running [m] from [w] moves the durable store along [Rdb], whatever the
    session held. *)
Definition steps_at (Rdb : DB → DB → Prop) {A} (m : M A) (w : World) : Prop :=
  Rdb (store w) (store (m w).2).
Definition steps (Rdb : DB → DB → Prop) {A} (m : M A) : Prop :=
  ∀ w, steps_at Rdb m w.

(** The last thing the bot showed in the chat. *)
Definition last_edit (t : list Event) : option string :=
  last (omap (λ e, match e with EditMessage s => Some s | _ => None end) t).

(** ** Relations and invariants the proofs use *)

Definition never_revives (c : Change) : Prop :=
  match c with
  | SetSubscriptionStatus _ st => st = "expired"
  | _ => True
  end.

Definition dead_stay_dead (db db' : DB) : Prop :=
  ∀ k s, subscriptions db !! k = Some s → dead s →
         ∃ s', subscriptions db' !! k = Some s' ∧ dead s'.

Definition pending_for (chat : ChatObj) (s : Subscription.t) : Prop :=
  ∃ uid now u,
    s = Subscription.mk uid (c_id chat) now (now + 30 * seconds_per_day)
          "pending_payment" (Some (payment_reference_of u))
          (Some (payment_details_of chat (payment_reference_of u))).

Definition adds_only (P : Subscription.t → Prop) (c : Change) : Prop :=
  match c with
  | InsertSubscription s => P s
  | SetSubscriptionStatus _ _ => False
  | _ => True
  end.

Definition only_adds (P : Subscription.t → Prop) (db db' : DB) : Prop :=
  ∀ k s, subscriptions db' !! k = Some s →
         subscriptions db !! k = Some s ∨ P s.

Definition selected (q : CallbackQuery) (db : DB) (s : Subscription.t) : Prop :=
  Py.isdigit (Py.last_field (data q)) = true ∧
  ∃ c, chats db !! Py.int (Py.last_field (data q)) = Some c ∧
       pending_for {| c_id := Py.int (Py.last_field (data q)); c_row := c |} s.

Definition referenced (db : DB) (chat_id : Z) : Prop :=
  ∃ k s, subscriptions db !! k = Some s ∧ Subscription.chat_id s = chat_id.


Definition with_user (db : DB) (u : User.t) : DB :=
  {| users := <[next_id (users db) := u]> (users db);
     chats := chats db; subscriptions := subscriptions db |}.

Definition users_grow (db db' : DB) : Prop :=
  (∀ k r, users db !! k = Some r → users db' !! k = Some r) ∧
  chats db' = chats db ∧ subscriptions db' = subscriptions db.

Definition won (task : Task) : Prop :=
  match t_pc task with
  | AtRefresh _ _ | Finished (Normal _) => True
  | _ => False
  end.

Definition waiting (task : Task) : Prop :=
  match t_pc task with
  | AtCreate | Finished (Raised _) => True
  | _ => False
  end.

Definition task_ok (t : Z) (db : DB) (task : Task) : Prop :=
  pending (t_session task) = [] ∧
  match t_pc task with
  | AtSelect | AtCreate => True
  | AtRefresh h keys =>
      ∃ k, keys !! h = Some (Some k) ∧ users db !! k = Some (User.new t)
  | Finished (Normal u) =>
      users db !! u_id u = Some (u_row u) ∧ User.telegram_id (u_row u) = t
  | Finished Returned => False
  | Finished (Raised e) =>
      e = IntegrityError users_telegram_id_key ∧ rows_for t db ≠ []
  end.

Definition tasks_ok (t : Z) (db : DB) (a b : Task) : Prop :=
  unique_telegram_ids db ∧ task_ok t db a ∧ task_ok t db b ∧
  (waiting a ∨ waiting b → rows_for t db ≠ [] → won a ∨ won b).

Definition turns_left (task : Task) : nat :=
  match t_pc task with
  | AtSelect => 3
  | AtCreate => 2
  | AtRefresh _ _ => 1
  | Finished _ => 0
  end.

Fixpoint turns (who : bool) (schedule : list bool) : nat :=
  match schedule with
  | [] => 0
  | b :: rest => (if Bool.eqb b who then 1 else 0) + turns who rest
  end.

(** ** Sample data *)

Module Sample.

Definition pf : Platform :=
  {| strftime := λ _ t, Py.str t;
     format_2f := Py.str;
     str_exn := λ _, "update or delete on table chats violates foreign key constraint";
     send_ok := λ _ _, true;
     reminder_days_ahead := 3 |}.

(** As [pf], but no message reaches user 555. *)
Definition pf_555_unreachable : Platform :=
  {| strftime := strftime pf; format_2f := format_2f pf;
     str_exn := str_exn pf;
     send_ok := λ chat_id _, negb (chat_id =? 555);
     reminder_days_ahead := 3 |}.

Definition vip : Chat.t :=
  Chat.mk (-1001) "VIP" 1000 "USD" (Some "0xabc") (Some "ERC20") true.
Definition closed_room : Chat.t :=
  Chat.mk (-1002) "Closed" 500 "USD" None None false.

Definition world (db : DB) (now : Z) : World :=
  {| store := db; session := fresh_session; clock := now;
     entropy := λ n, 0x0123456789abcdef0123456789abcdef + Z.of_nat n;
     drawn := 0; trace := [] |}.

Definition sub (user chat ends : Z) (st : string) : Subscription.t :=
  Subscription.mk user chat 0 ends st None None.

Definition db0 : DB :=
  {| users := {[ 1 := User.new 555; 2 := User.new 777 ]};
     chats := {[ 1 := vip; 2 := closed_room ]};
     subscriptions := {[ 1 := sub 1 1 100 "active";
                         2 := sub 2 1 100 "active";
                         3 := sub 1 1 900 "active";
                         4 := sub 2 1 100 "pending_payment";
                         5 := sub 1 1 100 "expired" ]} |}.

Definition query (uid : Z) (d : string) : CallbackQuery :=
  {| from_user := {| tg_id := uid; tg_username := None;
                     tg_first_name := Some "Bob"; tg_last_name := None |};
     data := d; has_message := true |}.

Definition w0 : World := world db0 1000.


Definition w_select_closed : World :=
  (select_chat_callback pf (query 555 "select_chat_2") w0).2.
Definition w_select_vip : World :=
  (select_chat_callback pf (query 555 "select_chat_1") w0).2.

End Sample.

(** ** Keyboards ([handlers.py])

    The inline keyboards the handlers attach to their messages: rows of
    buttons, each with its label and the callback data that comes back when
    it is pressed. *)

Record Button := { label : string; callback_data : string }.

(** Lines 100-105 of [user_subscribe_callback]. *)
Definition subscribe_keyboard (pf : Platform) (available_chats : list ChatObj)
    : list (list Button) :=
  foldl (λ keyboard chat,
           keyboard ++
           [[ {| label := Chat.title (c_row chat) +:+ " - " +:+
                          format_2f pf (Chat.price_amount (c_row chat)) +:+ " " +:+
                          Chat.price_currency (c_row chat);
                 callback_data := "select_chat_" +:+ Py.str (c_id chat) |} ]])
        [] available_chats
  ++ [[ {| label := "<< Back to User Panel";
           callback_data := "user_panel_return" |} ]].

(** Lines 203-206 of [select_chat_callback]. *)
Definition payment_keyboard (new_subscription_id : Z) : list (list Button) :=
  [ [ {| label := "I have made the payment";
         callback_data := "confirm_payment_" +:+ Py.str new_subscription_id |} ];
    [ {| label := "<< Back to Chat Selection";
         callback_data := "user_subscribe" |} ] ].

(** ** What the statements about the queries and the jobs use *)

(** The chats [get_all_managed_chats] answers with on a database. *)
Definition on_offer (db : DB) : list ChatObj :=
  chat_obj <$> select_where (λ kv, Chat.is_active kv.2 = true) (chats db).

(** The filter of [get_subscriptions_ending_soon]. *)
Definition ends_soon (now days_ahead : Z) (s : Subscription.t) : Prop :=
  Subscription.status s = "active" ∧ now < Subscription.end_date s ∧
  Subscription.end_date s ≤ now + days_ahead * seconds_per_day.

Global Instance ends_soon_dec now d s : Decision (ends_soon now d s).
Proof. unfold ends_soon. apply _. Defined.

Definition ending_soon (days_ahead : Z) (w : World) : list SubObj :=
  load_sub (store w) <$>
    select_where (λ kv, ends_soon (clock w) days_ahead kv.2)
                 (subscriptions (store w)).

(** The bot traffic one subscription causes in the reminder job. *)
Definition reminder_events (pf : Platform) (sub : SubObj) : list Event :=
  match s_user sub, s_chat sub with
  | Some u, Some c =>
      let tid := User.telegram_id (u_row u) in
      let text := reminder_text (Chat.title (c_row c))
                    (strftime pf "%Y-%m-%d" (Subscription.end_date (s_row sub))) in
      [if send_ok pf tid text then SendMessage tid text else SendFailed tid text]
  | _, _ => []
  end.

(** The filter of [get_active_subscriptions], on a database. *)
Definition active_of (db : DB) (now user_telegram_id : Z)
    (s : Subscription.t) : Prop :=
  User.telegram_id <$> users db !! Subscription.user_id s = Some user_telegram_id
  ∧ Subscription.status s = "active" ∧ now < Subscription.end_date s.

Definition active_for (user_telegram_id : Z) (w : World) : list SubObj :=
  load_sub (store w) <$>
    select_where (λ kv, active_of (store w) (clock w) user_telegram_id kv.2)
                 (subscriptions (store w)).

(** The text [user_my_subscriptions_callback] builds from the subscriptions
    it was given, each with its chat loaded. *)
Definition subscription_line (pf : Platform) (sub : SubObj) : string :=
  "- **" +:+ from_option (λ c, Chat.title (c_row c)) EmptyString (s_chat sub) +:+
  "**: Expires on " +:+
  strftime pf date_time_format (Subscription.end_date (s_row sub)) +:+ nl.

Definition my_subscriptions_text (pf : Platform) (subs : list SubObj) : string :=
  match subs with
  | [] => "You have no active subscriptions."
  | _ => foldl (λ text sub, text +:+ subscription_line pf sub)
               ("Your active subscriptions:" +:+ nl) subs
  end.




(** The events a run added to the trace. *)
Definition said (w w' : World) : list Event := drop (length (trace w)) (trace w').
(** ** More sample data *)

Module Cases.

(** As [Sample.pf], with [REMINDER_DAYS_AHEAD = 0]. *)
Definition pf_no_window : Platform :=
  {| strftime := strftime Sample.pf; format_2f := format_2f Sample.pf;
     str_exn := str_exn Sample.pf; send_ok := send_ok Sample.pf;
     reminder_days_ahead := 0 |}.

(** The sample store at an earlier hour, when subscription 3 is still
    running and subscriptions 1 and 2 are already over. *)
Definition w_early : World := Sample.world Sample.db0 500.

End Cases.

(** ** The admin gate and the chat administration ([admin_handlers.py]) *)

(** What the admin handlers read of an update. *)
Record Update := {
  effective_user : option TgUser;
  callback_query : option CallbackQuery;
  message : option Z;        (* [update.message], as the chat a reply goes to *)
  effective_message : bool   (* [update.effective_message] is there to be edited *)
}.

(** What [bot_data.get('settings', {})] finds: nothing, so the default
    [{}]; a dict, which may hold [ADMIN_USER_IDS]; or the [Settings] object
    of [config.py], which is what [main.py] stores there and which has its
    fields as attributes and no method [get]. *)
Inductive StoredSettings :=
| NotStored
| AsDict (ADMIN_USER_IDS : option (list Z))
| AsSettings (ADMIN_USER_IDS : list Z).

(** [bot_data.get('settings', {}).get('ADMIN_USER_IDS', [])] *)
Definition get_admin_user_ids (settings : StoredSettings) : M (list Z) :=
  match settings with
  | NotStored => ret []
  | AsDict ids => ret (default [] ids)
  | AsSettings _ => raise (AttributeError "get")
  end.

(** The three rows [list_chats_callback] gives a chat, and its two
    keyboards. *)
Definition chat_buttons (chat_item : ChatObj) : list Button :=
  [ {| label := "Edit: " +:+ Py.slice_to 20 (Chat.title (c_row chat_item)) +:+ "...";
       callback_data := "admin_edit_chat_" +:+ Py.str (c_id chat_item) |};
    {| label := "Toggle Active: " +:+
                (if Chat.is_active (c_row chat_item) then "Deactivate" else "Activate");
       callback_data := "admin_toggle_chat_" +:+ Py.str (c_id chat_item) |};
    {| label := "Remove: " +:+ Py.slice_to 10 (Chat.title (c_row chat_item)) +:+ "...";
       callback_data := "admin_confirm_remove_chat_" +:+ Py.str (c_id chat_item) |} ].

Definition back_to_chat_management : Button :=
  {| label := "<< Back to Chat Management"; callback_data := "admin_manage_chats" |}.

(** Lines 135-149: the text and the keyboard of the list. *)
Definition list_chats_view (all_chats : list ChatObj)
    : string * list (list Button) :=
  match all_chats with
  | [] =>
      ("No chats are currently managed.",
       [ [ {| label := "Add New Chat"; callback_data := "admin_add_chat_start" |} ];
         [ back_to_chat_management ] ])
  | _ =>
      let '(message_text, keyboard) :=
        foldl (λ '(message_text, keyboard) chat_item,
                 (message_text +:+
                    ("- " +:+ Chat.title (c_row chat_item) +:+ " (ID: " +:+
                     Py.str (Chat.telegram_chat_id (c_row chat_item)) +:+
                     ", DB_ID: " +:+ Py.str (c_id chat_item) +:+ ")" +:+ nl),
                  keyboard ++ [chat_buttons chat_item]))
              ("Managed Chats:" +:+ nl, []) all_chats in
      (message_text, keyboard ++ [ [ back_to_chat_management ] ])
  end.

(** What the conversation has collected when it asks for confirmation:
    [receive_network] reads the first four keys to build its question, the
    last two are read with [get]. *)
Record NewChatInfo := {
  telegram_chat_id : Z;
  title : string;
  price_amount : Z;
  price_currency : string;
  crypto_wallet_address : option string;
  crypto_network : option string
}.

Section Admin.
Context (pf : Platform) (settings : StoredSettings).

(** [update.message.reply_text(text)] *)
Definition reply_text (chat_id : Z) (text : string) : M unit :=
  send_message pf chat_id text.

(** The refusal of the gate: an answer to the callback query when there is
    one, else a reply to the message when there is one. *)
Definition deny (update : Update) (alert reply : string) : M unit :=
  match callback_query update, message update with
  | Some _, _ => answer alert
  | None, Some chat_id => reply_text chat_id reply
  | None, None => ret tt
  end.

(** [is_admin]: the wrapper answers [None] of its own when it refuses, and
    with what [func] returned otherwise. *)
Definition is_admin {A} (func : Update → M A) (update : Update) : M (option A) :=
  match effective_user update with
  | None =>
      let* _ := match callback_query update with
                | Some _ => answer "Error: Could not identify user."
                | None => ret tt
                end in
      ret None
  | Some user =>
      let user_id := tg_id user in
      let* admin_ids := get_admin_user_ids settings in
      if bool_decide (admin_ids = []) then
        let* _ := deny update "Admin IDs not configured."
                    "Access Denied: Admin functionality is not configured." in
        ret None
      else if bool_decide (user_id ∉ admin_ids) then
        let* _ := deny update "Access Denied."
                    "Access Denied. You are not authorized for this command." in
        ret None
      else
        let* r := func update in
        ret (Some r)
  end.

(** The function [list_chats_callback] is before it is wrapped. *)
Definition list_chats_callback_func (update : Update) : M unit :=
  match callback_query update with
  | None => raise (AttributeError "from_user")
  | Some query =>
      def_ (try_except
        (let* _ := answer EmptyString in
         let* all_chats := with_session get_all_managed_chats in
         when (effective_message update)
              (edit_message_text (list_chats_view all_chats).1))
        (λ e,
           if is_SQLAlchemyError e
           then when (effective_message update)
                  (edit_message_text
                     "Could not retrieve chat list due to a database issue.")
           else when (effective_message update)
                  (edit_message_text
                     "An unexpected error occurred listing chats.")))
  end.

Definition list_chats_callback : Update → M (option unit) :=
  is_admin list_chats_callback_func.

(** The function [toggle_chat_status_callback] is before it is wrapped. *)
Definition toggle_chat_status_callback_func (update : Update) : M unit :=
  match callback_query update with
  | None => raise (AttributeError "from_user")
  | Some query =>
      let chat_db_id_str := Py.last_field (data query) in
      def_ (
        let* _ := when (negb (Py.isdigit chat_db_id_str))
                    (let* _ := answer "Invalid chat ID." in return_) in
        let chat_db_id := Py.int chat_db_id_str in
        try_except
          (let* _ := answer EmptyString in
           let* updated_chat :=
             with_session (with_begin
               (let* chat_to_toggle := get_chat_by_id chat_db_id in
                match chat_to_toggle with
                | None =>
                    let* _ := edit_message_text "Chat not found." in
                    return_
                | Some c =>
                    let new_status := negb (Chat.is_active (c_row c)) in
                    let* updated_chat :=
                      update_chat_details chat_db_id [IsActive new_status] in
                    let* _ := commit in
                    ret updated_chat
                end)) in
           match updated_chat with
           | Some _ =>
               let* _ := list_chats_callback update in
               ret tt
           | None => edit_message_text "Failed to toggle chat status."
           end)
          (λ e,
             if is_SQLAlchemyError e
             then edit_message_text "Database error updating chat status."
             else if has_message query
             then edit_message_text "An error occurred toggling chat status."
             else answer "An error occurred.")
      )
  end.

Definition toggle_chat_status_callback : Update → M (option unit) :=
  is_admin toggle_chat_status_callback_func.

(** The function [confirm_create_chat_callback] is before it is wrapped,
    with [context.chat_data.get('new_chat_info')] as an argument.  Every
    path through it returns [ConversationHandler.END]. *)
Definition confirm_create_chat_callback_func (chat_info : option NewChatInfo)
    (update : Update) : M unit :=
  match callback_query update with
  | None => raise (AttributeError "from_user")
  | Some query =>
      def_ (try_except
        (let* _ := answer EmptyString in
         match chat_info with
         | None =>
             let* _ := when (effective_message update)
                         (edit_message_text
                            "Error: Chat information not found. Please start over.") in
             return_
         | Some info =>
             let* new_chat :=
               with_session (with_begin
                 (let* new_chat :=
                    create_chat (telegram_chat_id info) (title info)
                                (price_amount info) (price_currency info)
                                (crypto_wallet_address info) (crypto_network info)
                                true in
                  let* _ := commit in
                  ret new_chat)) in
             when (effective_message update)
                  (edit_message_text
                     ("Successfully created/updated chat: " +:+
                      Chat.title new_chat.2 +:+ " (TG ID: " +:+
                      Py.str (Chat.telegram_chat_id new_chat.2) +:+ ")"))
         end)
        (λ e,
           if is_SQLAlchemyError e
           then when (effective_message update)
                  (edit_message_text
                     "Failed to create/update chat due to a database error. Please check logs.")
           else when (effective_message update)
                  (edit_message_text
                     "An unexpected error occurred. Failed to create/update chat.")))
  end.

Definition confirm_create_chat_callback (chat_info : option NewChatInfo)
    : Update → M (option unit) :=
  is_admin (confirm_create_chat_callback_func chat_info).

(** [execute_remove_chat_callback] with its gate. *)
Definition execute_remove_chat_callback_gated (update : Update) : M (option unit) :=
  is_admin (λ update,
              match callback_query update with
              | None => raise (AttributeError "from_user")
              | Some query => execute_remove_chat_callback pf query
              end) update.

End Admin.

(** ** What the statements about the admin handlers use *)

(** A callback query as Telegram delivers it: the caller is the user of the
    query and the message of the query is the one to edit. *)
Definition callback_update (query : CallbackQuery) : Update :=
  {| effective_user := Some (from_user query);
     callback_query := Some query;
     message := None;
     effective_message := has_message query |}.


(** An answer to a callback query or a message to a chat: what a refusal
    of the gate may say. *)
Definition is_notice (e : Event) : bool :=
  match e with
  | Answered _ | SendMessage _ _ | SendFailed _ _ => true
  | _ => false
  end.

(** A chat with its flag turned. *)
Definition toggled (c : Chat.t) : Chat.t :=
  set_chat_field (IsActive (negb (Chat.is_active c))) c.

(** ** Start-up ([main.py])

    [main] is a sequence of calls into the libraries (the engine, the
    application, the scheduler).  Between them it reads functions out of
    the two handler modules by name, [user_handlers.start],
    [admin_handlers.admin_panel] and so on; a module gives what it binds at
    module level and raises [AttributeError] for any other name. *)

(** Everything [admin_handlers.py] binds at module level: its imports,
    [logger], the seven conversation states and its functions. *)
Definition admin_handlers_globals : list string :=
  [ "functools"; "logging"; "Callable"; "Any"; "Coroutine";
    "Update"; "InlineKeyboardButton"; "InlineKeyboardMarkup";
    "ContextTypes"; "ConversationHandler";
    "traceback"; "html"; "json"; "telegram_constants"; "SQLAlchemyError";
    "db_utils"; "Chat"; "logger";
    "CHAT_ID"; "TITLE"; "PRICE_AMOUNT"; "PRICE_CURRENCY"; "WALLET_ADDRESS";
    "NETWORK"; "CONFIRM_CHAT_CREATION";
    "is_admin"; "admin_panel"; "manage_chats_callback"; "list_chats_callback";
    "edit_chat_callback"; "toggle_chat_status_callback";
    "confirm_remove_chat_callback"; "execute_remove_chat_callback";
    "view_users_callback"; "configure_wallet_callback";
    "admin_panel_return_callback"; "add_chat_start_callback";
    "receive_chat_id"; "receive_title"; "receive_price_amount";
    "receive_price_currency"; "receive_wallet_address"; "receive_network";
    "confirm_create_chat_callback"; "cancel_chat_creation"; "conv_fallback";
    "error_handler" ].

Inductive HandlerModule := user_handlers | admin_handlers.

Definition module_globals (m : HandlerModule) : list string :=
  match m with
  | user_handlers => handlers_globals
  | admin_handlers => admin_handlers_globals
  end.

(** A function of a handler module. *)
Record Callback := { cb_module : HandlerModule; cb_name : string }.

(** The library calls of [main] up to the last admin callback handler, each
    with what matters of its arguments. *)
Inductive Call :=
| create_async_engine
| async_sessionmaker
| create_all                     (* [engine.begin()] and [Base.metadata.create_all] *)
| build_application
| add_error_handler (callback : Callback)
| add_command_handler (command : string) (callback : Callback)
| add_callback_query_handler (pattern : string) (callback : Callback).

Inductive Thrown :=
| NoAttribute (name : string)    (* [AttributeError] of a module *)
| FromLibrary.                   (* whatever a library call raises *)

Inductive Ended (A : Type) :=
| Went (a : A)
| Left                           (* a bare [return] *)
| Threw (e : Thrown).
Arguments Went {A} a.
Arguments Left {A}.
Arguments Threw {A} e.

(** The state is the list of the library calls that went through. *)
Definition Boot (A : Type) : Type := list Call → Ended A * list Call.

Definition boot_ret {A} (a : A) : Boot A := λ log, (Went a, log).

Definition boot_bind {A B} (m : Boot A) (k : A → Boot B) : Boot B :=
  λ log, match m log with
         | (Went a, log') => k a log'
         | (Left, log') => (Left, log')
         | (Threw e, log') => (Threw e, log')
         end.

Notation "'do*' x ':=' m 'in' k" := (boot_bind m (λ x, k))
  (at level 10, x binder, m at level 100, k at level 200).

(** [module.name] *)
Definition getattr (m : HandlerModule) (name : string) : Boot Callback :=
  λ log, if bool_decide (name ∈ module_globals m)
         then (Went {| cb_module := m; cb_name := name |}, log)
         else (Threw (NoAttribute name), log).

Section Main.
(** Which library calls fail, by their position among the calls made; and
    lines 77-138 of [main]: the conversation handler, the scheduler and the
    serving loop. *)
Context (fails : nat → bool) (rest : Boot unit).

Definition call (c : Call) : Boot unit :=
  λ log, if fails (length log)
         then (Threw FromLibrary, log)
         else (Went tt, log ++ [c]).

Definition add_command (command : string) (m : HandlerModule) (name : string)
    : Boot unit :=
  do* callback := getattr m name in
  call (add_command_handler command callback).

Definition add_callback (m : HandlerModule) (name pattern : string) : Boot unit :=
  do* callback := getattr m name in
  call (add_callback_query_handler pattern callback).

(** Lines 22-138, with [token] and [url] for the truth of
    [settings.TELEGRAM_BOT_TOKEN] and [settings.DATABASE_URL]. *)
Definition main (token url : bool) : Boot unit :=
  λ log,
    match
      (do* _ := (if negb token || negb url then λ log, (Left, log)
                 else boot_ret tt) in
       do* _ := call create_async_engine in
       do* _ := call async_sessionmaker in
       do* _ := call create_all in
       do* _ := call build_application in
       do* error_handler := getattr admin_handlers "error_handler" in
       do* _ := call (add_error_handler error_handler) in
       do* _ := add_command "start" user_handlers "start" in
       do* _ := add_command "help" user_handlers "help_command" in
       do* _ := add_command "panel" user_handlers "user_panel" in
       do* _ := add_callback user_handlers "user_subscribe_callback"
                  "^user_subscribe$" in
       do* _ := add_callback user_handlers "user_my_subscriptions_callback"
                  "^user_my_subscriptions$" in
       do* _ := add_callback user_handlers "user_renew_callback"
                  "^user_renew$" in
       do* _ := add_callback user_handlers "select_chat_callback"
                  "^select_chat_\d+$" in
       do* _ := add_callback user_handlers "confirm_payment_callback"
                  "^confirm_payment_\d+$" in
       do* _ := add_callback user_handlers "user_panel_return_callback"
                  "^user_panel_return$" in
       do* _ := add_command "admin" admin_handlers "admin_panel" in
       do* _ := add_callback admin_handlers "admin_panel_callback"
                  "^admin_panel_return$" in
       do* _ := add_callback admin_handlers "manage_chats_callback"
                  "^admin_manage_chats$" in
       do* _ := add_callback admin_handlers "list_chats_callback"
                  "^admin_list_chats$" in
       do* _ := add_callback admin_handlers "view_users_callback"
                  "^admin_view_users$" in
       do* _ := add_callback admin_handlers "configure_wallet_callback"
                  "^admin_configure_wallet$" in
       do* _ := add_callback admin_handlers "edit_chat_callback"
                  "^admin_edit_chat_\d+$" in
       do* _ := add_callback admin_handlers "remove_chat_callback"
                  "^admin_remove_chat_\d+$" in
       rest) log
    with
    | (Left, log') => (Went tt, log')
    | r => r
    end.

End Main.

(** The calls that went through when nothing failed before
    [admin_handlers.admin_panel_callback] was read. *)
Definition registered_before_the_stop : list Call :=
  let user := λ name, {| cb_module := user_handlers; cb_name := name |} in
  [ create_async_engine; async_sessionmaker; create_all; build_application;
    add_error_handler {| cb_module := admin_handlers; cb_name := "error_handler" |};
    add_command_handler "start" (user "start");
    add_command_handler "help" (user "help_command");
    add_command_handler "panel" (user "user_panel");
    add_callback_query_handler "^user_subscribe$" (user "user_subscribe_callback");
    add_callback_query_handler "^user_my_subscriptions$"
      (user "user_my_subscriptions_callback");
    add_callback_query_handler "^user_renew$" (user "user_renew_callback");
    add_callback_query_handler "^select_chat_\d+$" (user "select_chat_callback");
    add_callback_query_handler "^confirm_payment_\d+$"
      (user "confirm_payment_callback");
    add_callback_query_handler "^user_panel_return$"
      (user "user_panel_return_callback");
    add_command_handler "admin"
      {| cb_module := admin_handlers; cb_name := "admin_panel" |} ].

(** A callback query handler for a function of [admin_handlers.py]. *)
Definition is_admin_callback_handler (c : Call) : bool :=
  match c with
  | add_callback_query_handler _ {| cb_module := admin_handlers |} => true
  | _ => false
  end.

(** * Proofs

    ** Tables *)

Section Tables.
Context {A : Type}.
Implicit Types (m : gmap Z A).

Lemma max_key_ge m k : is_Some (m !! k) → k ≤ max_key m.
Proof.
  unfold max_key. revert k.
  apply (map_fold_weak_ind (λ r m, ∀ k, is_Some (m !! k) → k ≤ r)).
  - intros k [x Hx]. by rewrite lookup_empty in Hx.
  - intros i x m' r Hi IH k [y Hy].
    destruct (decide (i = k)) as [->|Hne]; [lia|].
    rewrite lookup_insert_ne in Hy by done.
    specialize (IH k (ex_intro _ y Hy)). lia.
Qed.

Lemma next_id_fresh m : m !! next_id m = None.
Proof.
  destruct (m !! next_id m) eqn:E; [|done].
  assert (next_id m ≤ max_key m) by (apply max_key_ge; eauto).
  unfold next_id in *. lia.
Qed.

Lemma select_where_pk m id :
  select_where (λ kv : Z * A, kv.1 = id) m =
  match m !! id with Some r => [(id, r)] | None => [] end.
Proof.
  unfold select_where.
  assert (filter (λ kv : Z * A, kv.1 = id) m =
          match m !! id with Some r => {[id := r]} | None => ∅ end) as ->.
  { apply map_eq. intros k. apply option_eq. intros x.
    rewrite map_lookup_filter_Some. simpl.
    destruct (m !! id) eqn:E.
    - rewrite lookup_singleton_Some. split.
      + intros [H ->]. split; [done|congruence].
      + intros [<- <-]. done.
    - rewrite lookup_empty. split; [|done]. intros [H ->]. congruence. }
  destruct (m !! id).
  - apply map_to_list_singleton.
  - apply map_to_list_empty.
Qed.

Lemma has_row_true (P : A → Prop) `{∀ x, Decision (P x)} m :
  has_row P m = true ↔ ∃ k r, m !! k = Some r ∧ P r.
Proof.
  unfold has_row. rewrite bool_decide_eq_true. split.
  - intros Hne. apply map_choose in Hne as (k & r & Hkr).
    apply map_lookup_filter_Some in Hkr as [? ?]. eauto.
  - intros (k & r & Hk & HP) Hempty.
    assert (filter (λ kv : Z * A, P kv.2) m !! k = Some r) as Hf
      by (apply map_lookup_filter_Some; done).
    rewrite Hempty, lookup_empty in Hf. done.
Qed.

Lemma has_row_false (P : A → Prop) `{∀ x, Decision (P x)} m :
  has_row P m = false ↔ ∀ k r, m !! k = Some r → ¬ P r.
Proof.
  rewrite <- not_true_iff_false, has_row_true. split.
  - intros Hno k r Hk HP. apply Hno. eauto.
  - intros Hall (k & r & Hk & HP). by apply (Hall k r).
Qed.

Lemma select_where_nil (P : Z * A → Prop) `{∀ x, Decision (P x)} m :
  select_where P m = [] ↔ ∀ k r, m !! k = Some r → ¬ P (k, r).
Proof.
  unfold select_where. rewrite map_to_list_empty_iff. split.
  - intros He k r Hk HP.
    assert (filter P m !! k = Some r) as Hf by (by apply map_lookup_filter_Some).
    by rewrite He, lookup_empty in Hf.
  - intros Hall. apply map_eq. intros k. rewrite lookup_empty.
    apply eq_None_not_Some. intros [r Hr].
    apply map_lookup_filter_Some in Hr as [? ?]. naive_solver.
Qed.

Lemma elem_of_select_where (P : Z * A → Prop) `{∀ x, Decision (P x)} m k r :
  (k, r) ∈ select_where P m ↔ m !! k = Some r ∧ P (k, r).
Proof.
  unfold select_where. rewrite elem_of_map_to_list.
  apply map_lookup_filter_Some.
Qed.
End Tables.

(** ** Invariants of the unit of work *)

Lemma flush_app cs1 cs2 db :
  flush (cs1 ++ cs2) db =
  match flush cs1 db with
  | Err e => Err e
  | Ok (db1, ks1) =>
      match flush cs2 db1 with
      | Err e => Err e
      | Ok (db2, ks2) => Ok (db2, ks1 ++ ks2)
      end
  end.
Proof.
  revert db. induction cs1 as [|c cs1 IH]; intros db; simpl.
  - destruct (flush cs2 db) as [[? ?]|]; done.
  - destruct (flush1 c db) as [[db1 k]|]; [|done].
    rewrite IH. destruct (flush cs1 db1) as [[? ?]|]; [|done].
    destruct (flush cs2 d) as [[? ?]|]; done.
Qed.

Section Invariant.
Context (ok : Change → Prop) (Rdb : DB → DB → Prop).
Hypothesis Rdb_refl : ∀ db, Rdb db db.
Hypothesis Rdb_trans : ∀ a b c, Rdb a b → Rdb b c → Rdb a c.
Hypothesis flush1_sound :
  ∀ c db db' k, ok c → flush1 c db = Ok (db', k) → Rdb db db'.

Local Abbreviation keeps := (preserves ok Rdb).

Lemma keeps_same {A} (m : M A) :
  (∀ w, session (m w).2 = session w ∧ store (m w).2 = store w) → keeps m.
Proof.
  intros H w Hw. destruct (H w) as [Hs Hd]. unfold staged_ok in *.
  rewrite Hs, Hd. auto.
Qed.

Lemma keeps_ret {A} (a : A) : keeps (ret a).
Proof. apply keeps_same. done. Qed.

Lemma keeps_raise {A} e : keeps (@raise A e).
Proof. apply keeps_same. done. Qed.

Lemma keeps_return {A} : keeps (@return_ A).
Proof. apply keeps_same. done. Qed.

Lemma keeps_bind {A B} (m : M A) (k : A → M B) :
  keeps m → (∀ a, keeps (k a)) → keeps (bind m k).
Proof.
  intros Hm Hk w Hw. unfold bind. destruct (Hm w Hw) as [H1 H2].
  destruct (m w) as [[a| |e] w1]; simpl in *; auto.
  destruct (Hk a w1 H1) as [H3 H4]. eauto.
Qed.

Lemma keeps_try_except {A} (m : M A) h :
  keeps m → (∀ e, keeps (h e)) → keeps (try_except m h).
Proof.
  intros Hm Hh w Hw. unfold try_except. destruct (Hm w Hw) as [H1 H2].
  destruct (m w) as [[a| |e] w1]; simpl in *; auto.
  destruct (Hh e w1 H1) as [H3 H4]. eauto.
Qed.

Lemma keeps_def m : keeps m → keeps (def_ m).
Proof.
  intros Hm w Hw. unfold def_. destruct (Hm w Hw) as [H1 H2].
  destruct (m w) as [[a| |e] w1]; simpl in *; auto.
Qed.

Lemma keeps_for_each {A} (l : list A) body :
  (∀ x, keeps (body x)) → keeps (for_each l body).
Proof.
  intros Hb. induction l as [|x l IH]; simpl.
  - apply keeps_ret.
  - apply keeps_bind; auto.
Qed.

Lemma keeps_when b m : keeps m → keeps (when b m).
Proof. destruct b; simpl; auto using keeps_ret. Qed.

Lemma keeps_utcnow : keeps utcnow.
Proof. apply keeps_same. done. Qed.

Lemma keeps_uuid4 : keeps uuid4.
Proof. apply keeps_same. done. Qed.

Lemma keeps_answer t : keeps (answer t).
Proof. apply keeps_same. done. Qed.

Lemma keeps_edit_message_text t : keeps (edit_message_text t).
Proof. apply keeps_same. done. Qed.

Lemma keeps_send_message pf c t : keeps (send_message pf c t).
Proof.
  apply keeps_same. intros w. unfold send_message.
  destruct (send_ok pf c t); done.
Qed.

Lemma keeps_view : keeps view.
Proof.
  apply keeps_same. intros w. unfold view.
  destruct (flush _ _) as [[? ?]|]; done.
Qed.

Lemma keeps_add_known : keeps add_known.
Proof. apply keeps_ret. Qed.

Lemma keeps_scalar_one_or_none {A} (l : list A) : keeps (scalar_one_or_none l).
Proof.
  destruct l as [|? [|? ?]]; simpl; auto using keeps_ret, keeps_raise.
Qed.

Lemma keeps_attr {A B} (o : option A) n (f : A → B) : keeps (attr o n f).
Proof. destruct o; simpl; auto using keeps_ret, keeps_raise. Qed.

Lemma keeps_stage c : ok c → keeps (stage c).
Proof.
  intros Hc w Hw. unfold stage, staged_ok in *. simpl. split; [|done].
  apply Forall_app. split; [done|]. by constructor.
Qed.

Lemma flush_sound cs db db' ks :
  Forall ok cs → flush cs db = Ok (db', ks) → Rdb db db'.
Proof.
  revert db ks. induction cs as [|c cs IH]; intros db ks Hok; simpl.
  - intros [= <- <-]. done.
  - apply Forall_cons in Hok as [Hc Hcs].
    destruct (flush1 c db) as [[db1 k]|] eqn:E1; [|done].
    destruct (flush cs db1) as [[db2 ks2]|] eqn:E2; [|done].
    intros [= <- <-]. eauto.
Qed.

Lemma keeps_commit : keeps commit.
Proof.
  intros w Hw. unfold commit.
  destruct (flush _ _) as [[db ks]|] eqn:E; simpl.
  - split; [by constructor|]. eapply flush_sound; eauto.
  - split; [by constructor|done].
Qed.

Lemma keeps_rollback : keeps rollback.
Proof. intros w Hw. simpl. split; [by constructor|done]. Qed.

Lemma keeps_with_begin {A} (m : M A) : keeps m → keeps (with_begin m).
Proof.
  intros Hm w Hw. unfold with_begin.
  match goal with |- context [m ?w0] => pose proof (Hm w0 Hw) as [H1 H2] end.
  destruct (m _) as [r w1]. simpl in H1, H2.
  pose proof (keeps_commit w1 H1) as [H3 H4].
  pose proof (keeps_rollback w1 H1) as [H5 H6].
  destruct r, (tx_active (session w1)); simpl; auto;
    destruct (commit w1) as [[?| |?] ?]; simpl in *; eauto.
Qed.

Lemma keeps_with_session {A} (m : M A) : keeps m → keeps (with_session m).
Proof.
  intros Hm w _. unfold with_session.
  assert (staged_ok ok (set_session fresh_session w)) as H0 by constructor.
  destruct (Hm _ H0) as [H1 H2]. destruct (m _) as [r w1]. simpl in *.
  split; [constructor|done].
Qed.

Create HintDb keeps discriminated.

Ltac keeps_step :=
  first
    [ solve [eauto 3 with keeps nocore]
    | apply keeps_bind; [|intros ?]
    | apply keeps_try_except; [|intros ?]
    | apply keeps_def
    | apply keeps_with_session
    | apply keeps_with_begin
    | apply keeps_for_each; intros ?
    | apply keeps_when
    | apply keeps_ret | apply keeps_raise | apply keeps_return
    | apply keeps_utcnow | apply keeps_uuid4 | apply keeps_answer
    | apply keeps_edit_message_text | apply keeps_send_message
    | apply keeps_view | apply keeps_add_known | apply keeps_commit
    | apply keeps_rollback | apply keeps_scalar_one_or_none
    | apply keeps_attr
    | apply keeps_stage
    | match goal with
      | |- preserves _ _ (match ?x with _ => _ end) => destruct x
      | |- preserves _ _ (let '(_, _) := ?x in _) => destruct x
      end ].
Ltac keeps_auto := repeat keeps_step; eauto.

Lemma keeps_get_user_select t : keeps (get_user_select t).
Proof. unfold get_user_select. keeps_auto. Qed.
Hint Resolve keeps_get_user_select : keeps.

Lemma keeps_get_user_failed {A} e : keeps (@get_user_failed A e).
Proof. unfold get_user_failed. keeps_auto. Qed.
Hint Resolve keeps_get_user_failed : keeps.

Lemma keeps_refresh_user h keys : keeps (refresh_user h keys).
Proof. unfold refresh_user. keeps_auto. Qed.
Hint Resolve keeps_refresh_user : keeps.

Lemma keeps_get_user_by_telegram_id t :
  (∀ u, ok (InsertUser u)) → keeps (get_user_by_telegram_id t).
Proof.
  intros Hu. unfold get_user_by_telegram_id, get_user_resume, get_user_create.
  keeps_auto.
Qed.
Hint Resolve keeps_get_user_by_telegram_id : keeps.

Lemma keeps_create_subscription u c d st p pd :
  (∀ now, ok (InsertSubscription
                (Subscription.mk u c now (now + d * seconds_per_day) st p pd))) →
  keeps (create_subscription u c d st p pd).
Proof. intros H. unfold create_subscription. keeps_auto. Qed.
Hint Resolve keeps_create_subscription : keeps.

Lemma keeps_get_active_subscriptions t : keeps (get_active_subscriptions t).
Proof. unfold get_active_subscriptions. keeps_auto. Qed.
Hint Resolve keeps_get_active_subscriptions : keeps.

Lemma keeps_get_subscriptions_ending_soon d :
  keeps (get_subscriptions_ending_soon d).
Proof. unfold get_subscriptions_ending_soon. keeps_auto. Qed.
Hint Resolve keeps_get_subscriptions_ending_soon : keeps.

Lemma keeps_get_expired_subscriptions : keeps get_expired_subscriptions.
Proof. unfold get_expired_subscriptions. keeps_auto. Qed.
Hint Resolve keeps_get_expired_subscriptions : keeps.

Lemma keeps_update_subscription_status id st :
  (∀ k, ok (SetSubscriptionStatus k st)) →
  keeps (update_subscription_status id st).
Proof. intros H. unfold update_subscription_status. keeps_auto. Qed.
Hint Resolve keeps_update_subscription_status : keeps.

Lemma keeps_get_chat_by_id id : keeps (get_chat_by_id id).
Proof. unfold get_chat_by_id. keeps_auto. Qed.
Hint Resolve keeps_get_chat_by_id : keeps.

Lemma keeps_get_all_managed_chats : keeps get_all_managed_chats.
Proof. unfold get_all_managed_chats. keeps_auto. Qed.
Hint Resolve keeps_get_all_managed_chats : keeps.

Lemma keeps_get_subscription_by_id id : keeps (get_subscription_by_id id).
Proof. unfold get_subscription_by_id. keeps_auto. Qed.
Hint Resolve keeps_get_subscription_by_id : keeps.

Lemma keeps_create_chat t ti pa pc wa nw ac :
  (∀ c, ok (InsertChat c)) → (∀ k f, ok (SetChatField k f)) →
  keeps (create_chat t ti pa pc wa nw ac).
Proof. intros H1 H2. unfold create_chat. keeps_auto. Qed.
Hint Resolve keeps_create_chat : keeps.

Lemma keeps_update_chat_details id kw :
  (∀ k f, ok (SetChatField k f)) → keeps (update_chat_details id kw).
Proof.
  intros H. unfold update_chat_details.
  keeps_auto.
Qed.
Hint Resolve keeps_update_chat_details : keeps.

Lemma keeps_delete_chat_by_id id :
  (∀ k, ok (DeleteChat k)) → keeps (delete_chat_by_id id).
Proof.
  intros H. unfold delete_chat_by_id.
  keeps_auto.
Qed.
Hint Resolve keeps_delete_chat_by_id : keeps.

Lemma keeps_refresh_subscription key : keeps (refresh_subscription key).
Proof. unfold refresh_subscription. keeps_auto. Qed.
Hint Resolve keeps_refresh_subscription : keeps.

Lemma keeps_refresh_field new old id f :
  (∀ k g, ok (SetUserField k g)) → keeps (refresh_field new old id f).
Proof. intros H. unfold refresh_field. keeps_auto. Qed.
Hint Resolve keeps_refresh_field : keeps.

Lemma keeps_discard {A} (m : M A) : keeps m → keeps (discard m).
Proof. intros H. unfold discard. keeps_auto. Qed.
Hint Resolve keeps_discard : keeps.

Lemma keeps_user_subscribe_callback q : keeps (user_subscribe_callback q).
Proof.
  unfold user_subscribe_callback.
  keeps_auto.
Qed.
Hint Resolve keeps_user_subscribe_callback : keeps.

Lemma keeps_subscription_lines pf l t : keeps (subscription_lines pf l t).
Proof. revert t. induction l; intros t; simpl; keeps_auto. Qed.
Hint Resolve keeps_subscription_lines : keeps.

Lemma keeps_user_my_subscriptions_callback pf q :
  (∀ u, ok (InsertUser u)) → keeps (user_my_subscriptions_callback pf q).
Proof.
  intros H. unfold user_my_subscriptions_callback.
  keeps_auto.
Qed.
Hint Resolve keeps_user_my_subscriptions_callback : keeps.

Lemma keeps_send_renewal_reminders pf : keeps (send_renewal_reminders pf).
Proof.
  unfold send_renewal_reminders, remind_one.
  keeps_auto.
Qed.
Hint Resolve keeps_send_renewal_reminders : keeps.

Lemma keeps_process_expired_subscriptions pf :
  (∀ k, ok (SetSubscriptionStatus k "expired")) →
  keeps (process_expired_subscriptions pf).
Proof.
  intros H. unfold process_expired_subscriptions, expire_one.
  keeps_auto.
Qed.
Hint Resolve keeps_process_expired_subscriptions : keeps.

Lemma keeps_execute_remove_chat_callback pf q :
  (∀ k, ok (DeleteChat k)) → keeps (execute_remove_chat_callback pf q).
Proof.
  intros H. unfold execute_remove_chat_callback.
  keeps_auto.
Qed.
Hint Resolve keeps_execute_remove_chat_callback : keeps.

Lemma keeps_select_chat_subscribe q chat :
  (∀ u, ok (InsertUser u)) → (∀ k g, ok (SetUserField k g)) →
  (∀ uid now u,
     ok (InsertSubscription
           (Subscription.mk uid (c_id chat) now (now + 30 * seconds_per_day)
              "pending_payment" (Some (payment_reference_of u))
              (Some (payment_details_of chat (payment_reference_of u)))))) →
  keeps (select_chat_subscribe q chat).
Proof. intros H1 H2 H3. unfold select_chat_subscribe. keeps_auto. Qed.
Hint Resolve keeps_select_chat_subscribe : keeps.

Lemma keeps_select_chat_tx q id :
  (∀ u, ok (InsertUser u)) → (∀ k g, ok (SetUserField k g)) →
  (∀ s, ok (InsertSubscription s)) →
  keeps (select_chat_tx q id).
Proof. intros H1 H2 H3. unfold select_chat_tx. keeps_auto. Qed.
Hint Resolve keeps_select_chat_tx : keeps.

(** *** Whatever the session held *)

Local Abbreviation goes := (steps Rdb).

Lemma steps_same {A} (m : M A) : (∀ w, store (m w).2 = store w) → goes m.
Proof. intros H w. unfold steps_at. rewrite H. done. Qed.

Lemma steps_ret {A} (a : A) : goes (ret a).
Proof. by apply steps_same. Qed.
Lemma steps_raise {A} e : goes (@raise A e).
Proof. by apply steps_same. Qed.
Lemma steps_return {A} : goes (@return_ A).
Proof. by apply steps_same. Qed.
Lemma steps_answer t : goes (answer t).
Proof. by apply steps_same. Qed.
Lemma steps_edit_message_text t : goes (edit_message_text t).
Proof. by apply steps_same. Qed.
Lemma steps_utcnow : goes utcnow.
Proof. by apply steps_same. Qed.
Lemma steps_send_message pf c t : goes (send_message pf c t).
Proof.
  apply steps_same. intros w. unfold send_message. by destruct (send_ok pf c t).
Qed.
Lemma steps_view : goes view.
Proof.
  apply steps_same. intros w. unfold view. by destruct (flush _ _) as [[? ?]|].
Qed.
Lemma steps_attr {A B} (o : option A) n (f : A → B) : goes (attr o n f).
Proof. destruct o; simpl; auto using steps_ret, steps_raise. Qed.

Lemma steps_at_bind {A B} (m : M A) (k : A → M B) w :
  steps_at Rdb m w →
  (∀ a w', m w = (Normal a, w') → steps_at Rdb (k a) w') →
  steps_at Rdb (bind m k) w.
Proof.
  unfold steps_at, bind. intros Hm Hk.
  destruct (m w) as [[a| |e] w1] eqn:E; simpl in *; auto.
  specialize (Hk a w1 eq_refl). eauto.
Qed.

Lemma steps_at_try_except {A} (m : M A) h w :
  steps_at Rdb m w →
  (∀ e w', m w = (Raised e, w') → steps_at Rdb (h e) w') →
  steps_at Rdb (try_except m h) w.
Proof.
  unfold steps_at, try_except. intros Hm Hh.
  destruct (m w) as [[a| |e] w1] eqn:E; simpl in *; auto.
  specialize (Hh e w1 eq_refl). eauto.
Qed.

Lemma steps_at_def m w : steps_at Rdb m w → steps_at Rdb (def_ m) w.
Proof.
  unfold steps_at, def_. by destruct (m w) as [[a| |e] w1].
Qed.

Lemma steps_bind {A B} (m : M A) (k : A → M B) :
  goes m → (∀ a, goes (k a)) → goes (bind m k).
Proof. intros Hm Hk w. apply steps_at_bind; [apply Hm|]. intros. apply Hk. Qed.

Lemma steps_try_except {A} (m : M A) h :
  goes m → (∀ e, goes (h e)) → goes (try_except m h).
Proof.
  intros Hm Hh w. apply steps_at_try_except; [apply Hm|]. intros. apply Hh.
Qed.

Lemma steps_def m : goes m → goes (def_ m).
Proof. intros Hm w. apply steps_at_def, Hm. Qed.

Lemma steps_for_each {A} (l : list A) body :
  (∀ x, goes (body x)) → goes (for_each l body).
Proof.
  intros Hb. induction l as [|x l IH]; simpl.
  - apply steps_ret.
  - apply steps_bind; auto.
Qed.

Lemma steps_when b m : goes m → goes (when b m).
Proof. destruct b; simpl; auto using steps_ret. Qed.

(** A session block starts from nothing staged. *)
Lemma steps_at_with_session {A} (m : M A) w :
  (staged_ok ok (set_session fresh_session w) →
   staged_ok ok (m (set_session fresh_session w)).2 ∧
   Rdb (store w) (store (m (set_session fresh_session w)).2)) →
  steps_at Rdb (with_session m) w.
Proof.
  intros Hm. unfold steps_at, with_session.
  destruct Hm as [_ H]; [constructor|].
  destruct (m _) as [r w1]. done.
Qed.

Lemma steps_with_session {A} (m : M A) : keeps m → goes (with_session m).
Proof.
  intros Hm w. apply steps_at_with_session. intros H0.
  destruct (Hm _ H0). by split.
Qed.

(** Pointwise form of [keeps_with_begin]. *)
Lemma keeps_with_begin_at {A} (m : M A) w :
  staged_ok ok w →
  (∀ w0, pending (session w0) = pending (session w) →
         tx_active (session w0) = true → store w0 = store w →
         staged_ok ok (m w0).2 ∧ Rdb (store w0) (store (m w0).2)) →
  staged_ok ok (with_begin m w).2 ∧ Rdb (store w) (store (with_begin m w).2).
Proof.
  intros Hw Hm. unfold with_begin.
  match goal with |- context [m ?w0] =>
    destruct (Hm w0 eq_refl eq_refl eq_refl) as [H1 H2] end.
  destruct (m _) as [r w1]. simpl in H1, H2.
  pose proof (keeps_commit w1 H1) as [H3 H4].
  pose proof (keeps_rollback w1 H1) as [H5 H6].
  destruct r, (tx_active (session w1)); simpl; auto;
    destruct (commit w1) as [[?| |?] ?]; simpl in *; eauto.
Qed.

Create HintDb steps discriminated.

Ltac steps_step :=
  first
    [ solve [eauto 3 with steps nocore]
    | apply steps_bind; [|intros ?]
    | apply steps_try_except; [|intros ?]
    | apply steps_def
    | apply steps_with_session; solve [keeps_auto]
    | apply steps_for_each; intros ?
    | apply steps_when
    | apply steps_ret | apply steps_raise | apply steps_return
    | apply steps_utcnow | apply steps_answer
    | apply steps_edit_message_text | apply steps_send_message
    | apply steps_view | apply steps_attr
    | match goal with
      | |- steps _ (match ?x with _ => _ end) => destruct x
      | |- steps _ (let '(_, _) := ?x in _) => destruct x
      end ].
Ltac steps_auto := repeat steps_step; eauto.

Lemma steps_refresh_subscription key : goes (refresh_subscription key).
Proof. unfold refresh_subscription. steps_auto. Qed.
Hint Resolve steps_refresh_subscription : steps.

Lemma steps_subscription_lines pf l t : goes (subscription_lines pf l t).
Proof. revert t. induction l; intros t; simpl; steps_auto. Qed.
Hint Resolve steps_subscription_lines : steps.

Lemma steps_user_subscribe_callback q : goes (user_subscribe_callback q).
Proof. unfold user_subscribe_callback. steps_auto. Qed.

Lemma steps_select_chat_callback pf q :
  (∀ u, ok (InsertUser u)) → (∀ k g, ok (SetUserField k g)) →
  (∀ s, ok (InsertSubscription s)) →
  goes (select_chat_callback pf q).
Proof. intros H1 H2 H3. unfold select_chat_callback. steps_auto. Qed.

Lemma steps_user_my_subscriptions_callback pf q :
  (∀ u, ok (InsertUser u)) → goes (user_my_subscriptions_callback pf q).
Proof. intros H. unfold user_my_subscriptions_callback. steps_auto. Qed.

Lemma steps_send_renewal_reminders pf : goes (send_renewal_reminders pf).
Proof. unfold send_renewal_reminders, remind_one. steps_auto. Qed.

Lemma steps_process_expired_subscriptions pf :
  (∀ k, ok (SetSubscriptionStatus k "expired")) →
  goes (process_expired_subscriptions pf).
Proof.
  intros H. unfold process_expired_subscriptions. steps_auto.
Qed.

Lemma steps_execute_remove_chat_callback pf q :
  (∀ k, ok (DeleteChat k)) → goes (execute_remove_chat_callback pf q).
Proof. intros H. unfold execute_remove_chat_callback. steps_auto. Qed.

(** The repository functions other than the lookup-or-create of a user. *)
Lemma keeps_repo c :
  is_lookup_or_create c = false → (∀ c, ok c) → keeps (repo c).
Proof. intros Hc Hok. destruct c; try discriminate; simpl; keeps_auto. Qed.
End Invariant.

(** ** Payment confirmation *)

Lemma view_fresh w : pending (session w) = [] → view w = (Normal (store w), w).
Proof. intros H. unfold view. rewrite H. done. Qed.

Lemma get_subscription_by_id_fresh id w :
  pending (session w) = [] →
  get_subscription_by_id id w =
  (Normal (load_sub (store w) <$>
           ((λ r, (id, r)) <$> subscriptions (store w) !! id)), w).
Proof.
  intros H. unfold get_subscription_by_id, bind.
  rewrite (view_fresh w H), select_where_pk.
  destruct (subscriptions (store w) !! id); done.
Qed.

Lemma get_chat_by_id_fresh id w :
  pending (session w) = [] →
  get_chat_by_id id w = (Normal (load_chat (store w) id), w).
Proof.
  intros H. unfold get_chat_by_id, bind, load_chat.
  rewrite (view_fresh w H), select_where_pk.
  destruct (chats (store w) !! id); done.
Qed.

(** The name [user] is not bound where line 250 reads it. *)
Lemma load_name_user q s id sub :
  load_name (confirm_payment_locals q s id sub) "user" = raise (NameError "user").
Proof. reflexivity. Qed.

Lemma confirm_payment_tx_run pf q s id w :
  pending (session w) = [] →
  confirm_payment_tx pf q s id w =
  match subscriptions (store w) !! id with
  | Some _ => (Raised (NameError "user"), w)
  | None => (Returned,
             emit (EditMessage not_found) w)
  end.
Proof.
  intros H. unfold confirm_payment_tx. unfold bind at 1.
  rewrite (get_subscription_by_id_fresh id w H).
  destruct (subscriptions (store w) !! id); simpl; [|done].
  unfold bind at 1. rewrite load_name_user. done.
Qed.

Ltac run_monad :=
  cbv beta iota zeta delta
    [def_ try_except bind ret raise return_ when answer edit_message_text
     with_session with_begin discard fst snd].

Lemma confirm_payment_callback_run pf q w :
  let s := Py.last_field (data q) in
  ∃ w', confirm_payment_callback pf q w = (Normal tt, w') ∧
  store w' = store w ∧
  trace w' = trace w ++
    (if Py.isdigit s then
       match subscriptions (store w) !! Py.int s with
       | Some _ =>
           [Answered EmptyString; TxBegin; TxRollback] ++
           (if has_message q then [EditMessage unexpected_error] else [])
       | None =>
           [Answered EmptyString; TxBegin;
            EditMessage not_found;
            TxCommit]
       end
     else [Answered EmptyString; EditMessage "Invalid subscription reference."]).
Proof.
  intros s. unfold confirm_payment_callback. fold s. run_monad.
  destruct (Py.isdigit s) eqn:Hd; simpl (negb _); cbv beta iota.
  2: { eexists. split; [reflexivity|]. simpl. rewrite <- app_assoc. done. }
  rewrite confirm_payment_tx_run by done. simpl store.
  destruct (subscriptions (store w) !! Py.int s) eqn:Hs; simpl.
  - destruct (has_message q); eexists; (split; [reflexivity|]); simpl;
      rewrite <- !app_assoc; done.
  - eexists; (split; [reflexivity|]); simpl; rewrite <- !app_assoc; done.
Qed.

(** ** The expiry sweep *)

Lemma flush_set_status st ids db :
  flush (set_to st <$> ids) db =
  Ok (with_statuses st ids db, replicate (length ids) None).
Proof.
  revert db. induction ids as [|id ids IH]; intros db; simpl.
  - by destruct db.
  - rewrite IH. done.
Qed.

Lemma lookup_with_statuses st ids db k :
  subscriptions (with_statuses st ids db) !! k =
  if decide (k ∈ ids) then Subscription.set_status st <$> subscriptions db !! k
  else subscriptions db !! k.
Proof.
  unfold with_statuses. cbn [subscriptions]. generalize (subscriptions db) as m.
  induction ids as [|id ids IH]; intros m.
  - case_decide as H; [by apply elem_of_nil in H|done].
  - cbn [foldl]. rewrite IH. destruct (decide (k = id)) as [->|Hne].
    + rewrite lookup_alter_eq.
      repeat case_decide; try done.
      * by destruct (m !! id) as [[]|].
      * exfalso. rewrite elem_of_cons in *. tauto.
      * exfalso. rewrite elem_of_cons in *. tauto.
    + rewrite lookup_alter_ne by done.
      repeat case_decide; try done; exfalso; rewrite elem_of_cons in *; tauto.
Qed.

Lemma advance_advance w cs1 evs1 cs2 evs2 :
  advance (advance w cs1 evs1) cs2 evs2 = advance w (cs1 ++ cs2) (evs1 ++ evs2).
Proof. unfold advance. simpl. by rewrite !app_assoc. Qed.

Lemma advance_nil w : advance w [] [] = w.
Proof. unfold advance. destruct w as [? [] ? ? ? ?]. simpl. by rewrite !app_nil_r. Qed.

Lemma update_subscription_status_staged st ids w id row :
  pending (session w) = set_to st <$> ids →
  subscriptions (store w) !! id = Some row →
  ∃ o, update_subscription_status id st w =
       (Normal (Some o), advance w [SetSubscriptionStatus id st] []).
Proof.
  intros Hp Hrow. unfold update_subscription_status. unfold bind at 1.
  unfold view. rewrite Hp, flush_set_status. cbv beta iota.
  unfold bind at 1. rewrite select_where_pk, lookup_with_statuses, Hrow.
  eexists. destruct (decide (id ∈ ids)); simpl; unfold bind, stage, ret, advance;
    simpl; rewrite app_nil_r; reflexivity.
Qed.

Lemma expire_one_run pf st_ids w sub u c row :
  pending (session w) = set_expired <$> st_ids →
  s_user sub = Some u → s_chat sub = Some c →
  subscriptions (store w) !! s_id sub = Some row →
  expire_one pf sub w =
  (Normal tt, advance w [set_expired (s_id sub)] (expiry_events pf sub)).
Proof.
  intros Hp Hu Hc Hrow. unfold expire_one, expiry_events. rewrite Hu, Hc. simpl attr.
  unfold bind at 1. unfold ret at 1. cbv beta iota.
  unfold bind at 1. unfold ret at 1. cbv beta iota.
  unfold bind at 1.
  destruct (update_subscription_status_staged "expired" st_ids w (s_id sub) row Hp Hrow)
    as [o ->].
  cbv beta iota. unfold try_except, bind, send_message.
  destruct (send_ok pf _ (expired_text _)); simpl.
  - destruct (send_ok pf _ (removed_text _)); simpl;
      unfold ret, advance, set_expired, set_to, emit; simpl;
      rewrite <- ?app_assoc, ?app_nil_r; done.
  - unfold ret, advance, set_expired, set_to, emit; simpl;
      rewrite <- ?app_assoc, ?app_nil_r; done.
Qed.

Lemma for_each_expire pf L : ∀ w st_ids,
  pending (session w) = set_expired <$> st_ids →
  Forall (λ sub, is_Some (s_user sub) ∧ is_Some (s_chat sub) ∧
                 is_Some (subscriptions (store w) !! s_id sub)) L →
  for_each L (expire_one pf) w =
  (Normal tt, advance w (set_expired <$> (s_id <$> L)) (L ≫= expiry_events pf)).
Proof.
  induction L as [|sub L IH]; intros w st_ids Hp HL; simpl.
  - by rewrite advance_nil.
  - apply Forall_cons in HL as [([u Hu] & [c Hc] & [row Hrow]) HL].
    unfold bind. rewrite (expire_one_run pf st_ids w sub u c row) by done.
    rewrite (IH _ (st_ids ++ [s_id sub])).
    + by rewrite advance_advance.
    + simpl. rewrite Hp, fmap_app. done.
    + done.
Qed.

Lemma get_expired_subscriptions_fresh w :
  pending (session w) = [] →
  get_expired_subscriptions w = (Normal (due_subscriptions w), w).
Proof.
  intros H. unfold get_expired_subscriptions, bind, utcnow.
  rewrite (view_fresh w H). done.
Qed.

Lemma due_subscriptions_loaded w :
  foreign_keys_hold (store w) →
  Forall (λ sub, is_Some (s_user sub) ∧ is_Some (s_chat sub) ∧
                 is_Some (subscriptions (store w) !! s_id sub))
         (due_subscriptions w).
Proof.
  intros Hfk. unfold due_subscriptions. apply Forall_fmap, Forall_forall.
  intros [k row] Hin. apply elem_of_select_where in Hin as [Hrow _].
  destruct (Hfk k row Hrow) as [[u Hu] [c Hc]].
  simpl. unfold load_user, load_chat. rewrite Hu, Hc, Hrow. simpl. eauto.
Qed.

Lemma elem_of_due_ids w k :
  k ∈ s_id <$> due_subscriptions w ↔
  ∃ row, subscriptions (store w) !! k = Some row ∧ due (clock w) row.
Proof.
  unfold due_subscriptions. rewrite <- list_fmap_compose. rewrite list_elem_of_fmap.
  split.
  - intros ([k' row] & -> & Hin). apply elem_of_select_where in Hin. eauto.
  - intros (row & Hrow & Hdue). exists (k, row). split; [done|].
    by apply elem_of_select_where.
Qed.

(** What one run of the sweep does, in full. *)
Lemma process_expired_subscriptions_run pf w :
  foreign_keys_hold (store w) →
  ∃ w', process_expired_subscriptions pf w = (Normal tt, w') ∧
        store w' = with_statuses "expired" (s_id <$> due_subscriptions w) (store w) ∧
        clock w' = clock w ∧
        trace w' = trace w ++
          [TxBegin] ++ (due_subscriptions w ≫= expiry_events pf) ++ [TxCommit].
Proof.
  intros Hfk. unfold process_expired_subscriptions. run_monad.
  rewrite get_expired_subscriptions_fresh by done.
  match goal with |- context [for_each ?L _ ?w0] =>
    change L with (due_subscriptions w);
    rewrite (for_each_expire pf (due_subscriptions w) w0 [])
      by (try done; apply (due_subscriptions_loaded w Hfk))
  end.
  unfold commit. simpl pending. unfold set_expired. rewrite flush_set_status.
  simpl. eexists. split; [reflexivity|]. simpl.
  rewrite <- !app_assoc. done.
Qed.

Lemma with_statuses_nil st db : with_statuses st [] db = db.
Proof. by destruct db. Qed.

Lemma swept_lookup w k :
  subscriptions (with_statuses "expired" (s_id <$> due_subscriptions w) (store w)) !! k
  = expire (clock w) <$> subscriptions (store w) !! k.
Proof.
  rewrite lookup_with_statuses. unfold expire.
  destruct (subscriptions (store w) !! k) as [row|] eqn:Hrow; simpl.
  - case_decide as Hin.
    + apply elem_of_due_ids in Hin as (row' & Hrow' & Hdue).
      rewrite Hrow in Hrow'. injection Hrow' as <-. by rewrite decide_True.
    + rewrite decide_False; [done|]. intros Hdue. apply Hin.
      apply elem_of_due_ids. eauto.
  - by case_decide.
Qed.

Lemma expire_not_due now row : ¬ due now (expire now row).
Proof.
  unfold expire. case_decide as Hd; [|done].
  intros [Hst _]. simpl in Hst. discriminate.
Qed.

(** ** Status transitions and chat selection *)

Lemma flush1_subscriptions c db db' k :
  flush1 c db = Ok (db', k) →
  subscriptions db' = subscriptions db ∨
  (∃ s, c = InsertSubscription s ∧
        subscriptions db' = <[next_id (subscriptions db) := s]> (subscriptions db)) ∨
  (∃ id st, c = SetSubscriptionStatus id st ∧
        subscriptions db' = alter (Subscription.set_status st) id (subscriptions db)).
Proof.
  destruct c; simpl; repeat case_match; intros ?; simplify_eq; simpl; eauto 10.
Qed.

Lemma dead_stay_dead_refl db : dead_stay_dead db db.
Proof. intros k s ? ?. eauto. Qed.

Lemma dead_stay_dead_trans a b c :
  dead_stay_dead a b → dead_stay_dead b c → dead_stay_dead a c.
Proof.
  intros Hab Hbc k s Hs Hd. destruct (Hab k s Hs Hd) as (s' & Hs' & Hd'). eauto.
Qed.

Lemma never_revives_sound c db db' k :
  never_revives c → flush1 c db = Ok (db', k) → dead_stay_dead db db'.
Proof.
  intros Hc Hf i s Hs Hd.
  destruct (flush1_subscriptions c db db' k Hf)
    as [->|[(s0 & -> & ->)|(id & st & -> & ->)]].
  - eauto.
  - exists s. split; [|done]. rewrite lookup_insert_ne; [done|].
    intros <-. by rewrite next_id_fresh in Hs.
  - simpl in Hc. subst st. destruct (decide (id = i)) as [->|Hne].
    + rewrite lookup_alter_eq, Hs. simpl. eexists. split; [done|]. by left.
    + rewrite lookup_alter_ne by done. eauto.
Qed.

Lemma handle_dead_stay_dead pf r w :
  dead_stay_dead (store w) (store (handle pf r w).2).
Proof.
  pose proof dead_stay_dead_refl as R. pose proof dead_stay_dead_trans as T.
  pose proof never_revives_sound as S.
  destruct r as [q|q|q|q| | |q]; simpl.
  - by apply (steps_user_subscribe_callback never_revives).
  - by apply (steps_select_chat_callback never_revives).
  - destruct (confirm_payment_callback_run pf q w) as (w' & E & Hs & _).
    rewrite E. simpl. rewrite Hs. apply R.
  - by apply (steps_user_my_subscriptions_callback never_revives).
  - by apply (steps_send_renewal_reminders never_revives).
  - by apply (steps_process_expired_subscriptions never_revives).
  - by apply (steps_execute_remove_chat_callback never_revives).
Qed.

Section Adds.
Context (P : Subscription.t → Prop).

Lemma only_adds_refl db : only_adds P db db.
Proof. intros k s ?. by left. Qed.

Lemma only_adds_trans a b c :
  only_adds P a b → only_adds P b c → only_adds P a c.
Proof. intros Hab Hbc k s Hs. destruct (Hbc k s Hs); eauto. Qed.

Lemma adds_only_sound c db db' k :
  adds_only P c → flush1 c db = Ok (db', k) → only_adds P db db'.
Proof.
  intros Hc Hf i s Hs.
  destruct (flush1_subscriptions c db db' k Hf)
    as [E|[(s0 & -> & E)|(id & st & -> & E)]]; rewrite E in Hs.
  - by left.
  - destruct (decide (next_id (subscriptions db) = i)) as [<-|Hne].
    + rewrite lookup_insert_eq in Hs. injection Hs as <-. by right.
    + rewrite lookup_insert_ne in Hs by done. by left.
  - done.
Qed.
End Adds.

Lemma select_chat_tx_fresh q id w :
  pending (session w) = [] →
  select_chat_tx q id w =
  match chats (store w) !! id with
  | Some c => select_chat_subscribe q {| c_id := id; c_row := c |} w
  | None =>
      (Returned,
       emit (EditMessage "Selected chat not found. Please try again.") w)
  end.
Proof.
  intros Hp. unfold select_chat_tx. unfold bind at 1.
  rewrite get_chat_by_id_fresh by done. unfold load_chat.
  by destruct (chats (store w) !! id).
Qed.

Lemma select_chat_tx_adds q w0 :
  pending (session w0) = [] →
  let P := selected q (store w0) in
  Py.isdigit (Py.last_field (data q)) = true →
  staged_ok (adds_only P)
    (select_chat_tx q (Py.int (Py.last_field (data q))) w0).2 ∧
  only_adds P (store w0)
    (store (select_chat_tx q (Py.int (Py.last_field (data q))) w0).2).
Proof.
  intros Hp P Hd. rewrite select_chat_tx_fresh by done.
  destruct (chats (store w0) !! _) as [c|] eqn:Hc; simpl.
  - apply (keeps_select_chat_subscribe (adds_only P) (only_adds P)
             (only_adds_refl P) (only_adds_trans P) (adds_only_sound P)).
    + done.
    + done.
    + intros uid now u. simpl. split; [done|]. exists c. split; [done|].
      by exists uid, now, u.
    + unfold staged_ok. rewrite Hp. constructor.
  - split; [|apply only_adds_refl]. unfold staged_ok. simpl. rewrite Hp. constructor.
Qed.

Lemma select_chat_callback_adds pf q w :
  only_adds (selected q (store w)) (store w)
            (store (select_chat_callback pf q w).2).
Proof.
  set (P := selected q (store w)).
  pose proof (only_adds_refl P) as R. pose proof (only_adds_trans P) as T.
  pose proof (adds_only_sound P) as S.
  change (steps_at (only_adds P) (select_chat_callback pf q) w).
  unfold select_chat_callback.
  apply (steps_at_def (only_adds P)).
  apply (steps_at_try_except (only_adds P)); [done| |].
  2: { intros e w' _. destruct (is_SQLAlchemyError e);
       [|apply steps_when; [done|]]; by apply steps_edit_message_text. }
  apply (steps_at_bind (only_adds P)); [done|by apply steps_answer|].
  intros [] w1 [= <-].
  apply (steps_at_bind (only_adds P)); [done| |].
  { apply steps_when; [done|]. apply steps_bind; [done| |intros ?].
    - by apply steps_edit_message_text.
    - by apply steps_return. }
  intros [] w2. destruct (Py.isdigit _) eqn:Hd; simpl; [|done].
  intros [= <-].
  apply (steps_at_bind (only_adds P)); [done| |].
  - apply (steps_at_with_session (adds_only P)). intros H0.
    apply (keeps_with_begin_at (adds_only P) (only_adds P) R T S
             (select_chat_tx q (Py.int (Py.last_field (data q))))
             (set_session fresh_session (emit (Answered EmptyString) w)) H0).
    intros w0 Hp _ Hs. simpl in Hp, Hs.
    destruct (select_chat_tx_adds q w0 Hp Hd) as [H1 H2].
    rewrite Hs in H1, H2. simpl in H1, H2. split; [done|].
    rewrite Hs. done.
  - intros [[chat key] ref] w3 _.
    apply steps_bind; [done| |intros ?].
    + by apply steps_refresh_subscription.
    + by apply steps_edit_message_text.
Qed.

(** ** Chat removal *)

(** [delete_chat_by_id] on a chat the session can see. *)
Lemma delete_chat_by_id_found id w db ks c :
  flush (pending (session w)) (store w) = Ok (db, ks) →
  chats db !! id = Some c →
  delete_chat_by_id id w = (Normal true, advance w [DeleteChat id] []).
Proof.
  intros Hf Hc. unfold delete_chat_by_id, get_chat_by_id, bind, view.
  rewrite Hf. cbv beta iota. rewrite select_where_pk, Hc. simpl.
  unfold advance. by rewrite app_nil_r.
Qed.

Lemma delete_chat_by_id_fresh id w :
  pending (session w) = [] →
  delete_chat_by_id id w =
  match chats (store w) !! id with
  | Some _ => (Normal true, advance w [DeleteChat id] [])
  | None => (Normal false, w)
  end.
Proof.
  intros Hp. destruct (chats (store w) !! id) as [c|] eqn:Hc.
  - apply (delete_chat_by_id_found id w (store w) [] c); [by rewrite Hp|done].
  - unfold delete_chat_by_id, bind. rewrite get_chat_by_id_fresh by done.
    unfold load_chat. by rewrite Hc.
Qed.


(** ** Lookup-or-create of a user *)

Lemma flush_length cs db db' ks :
  flush cs db = Ok (db', ks) → length ks = length cs.
Proof.
  revert db ks. induction cs as [|c cs IH]; intros db ks; simpl.
  - by intros [= <- <-].
  - destruct (flush1 c db) as [[db1 k]|]; [|done].
    destruct (flush cs db1) as [[db2 ks2]|] eqn:E; [|done].
    intros [= <- <-]. simpl. f_equal. eauto.
Qed.

Lemma get_user_select_run t w db ks :
  flush (pending (session w)) (store w) = Ok (db, ks) →
  get_user_select t w =
  match rows_for t db with
  | [] => (Normal None, w)
  | [kv] => (Normal (Some (user_obj kv)), w)
  | _ => (Raised MultipleResultsFound, w)
  end.
Proof.
  intros Hf. unfold get_user_select, bind, view. rewrite Hf. cbv beta iota.
  fold (rows_for t db). by destruct (rows_for t db) as [|? [|? ?]].
Qed.

Lemma flush1_insert_user t db :
  rows_for t db = [] →
  flush1 (InsertUser (User.new t)) db =
  Ok (with_user db (User.new t), Some (next_id (users db))).
Proof.
  intros H. unfold flush1.
  assert (has_row (λ r, User.telegram_id r = User.telegram_id (User.new t))
                  (users db) = false) as ->; [|done].
  apply has_row_false. intros k r Hk.
  unfold rows_for in H. rewrite select_where_nil in H. exact (H k r Hk).
Qed.

Lemma flush1_insert_user_taken t db :
  rows_for t db ≠ [] →
  flush1 (InsertUser (User.new t)) db = Err (IntegrityError users_telegram_id_key).
Proof.
  intros H. unfold flush1.
  assert (has_row (λ r, User.telegram_id r = User.telegram_id (User.new t))
                  (users db) = true) as ->; [|done].
  apply has_row_true. unfold rows_for in H.
  destruct (select_where _ _) as [|[k r] l] eqn:E; [done|].
  assert ((k, r) ∈ select_where (λ kv : Z * User.t, User.telegram_id kv.2 = t) (users db))
    as Hin by (rewrite E; left).
  apply elem_of_select_where in Hin as [? ?]. eauto.
Qed.

Lemma get_user_create_run t w db ks :
  flush (pending (session w)) (store w) = Ok (db, ks) →
  rows_for t db = [] →
  ∃ w', get_user_create t w =
          (Normal {| u_id := next_id (users db); u_row := User.new t |}, w') ∧
        store w' = with_user db (User.new t) ∧
        session w' = closed_tx ∧ clock w' = clock w ∧
        trace w' = trace w ++ [TxCommit].
Proof.
  intros Hf Hnil. unfold get_user_create, bind, stage, commit.
  cbn [pending session set_session store].
  rewrite flush_app, Hf. cbn [flush]. rewrite (flush1_insert_user t db Hnil).
  cbv beta iota. unfold refresh_user.
  rewrite lookup_app_r by (by rewrite (flush_length _ _ _ _ Hf)).
  rewrite (flush_length _ _ _ _ Hf), Nat.sub_diag. simpl.
  unfold bind, view. simpl. unfold load_user. simpl.
  rewrite lookup_insert_eq. simpl. eexists. split; [reflexivity|]. done.
Qed.

(** The three ways [get_user_by_telegram_id] can go. *)
Lemma get_user_by_telegram_id_found t w db ks kv :
  flush (pending (session w)) (store w) = Ok (db, ks) →
  rows_for t db = [kv] →
  get_user_by_telegram_id t w = (Normal (user_obj kv), w).
Proof.
  intros Hf Hr. unfold get_user_by_telegram_id, try_except, bind.
  rewrite (get_user_select_run t w db ks Hf), Hr. done.
Qed.

Lemma get_user_by_telegram_id_created t w db ks :
  flush (pending (session w)) (store w) = Ok (db, ks) →
  rows_for t db = [] →
  ∃ w', get_user_by_telegram_id t w =
          (Normal {| u_id := next_id (users db); u_row := User.new t |}, w') ∧
        store w' = with_user db (User.new t) ∧
        session w' = closed_tx ∧ clock w' = clock w ∧
        trace w' = trace w ++ [TxCommit].
Proof.
  intros Hf Hr. unfold get_user_by_telegram_id, try_except, bind.
  rewrite (get_user_select_run t w db ks Hf), Hr. simpl.
  destruct (get_user_create_run t w db ks Hf Hr) as (w' & -> & H). eauto.
Qed.

Lemma get_user_by_telegram_id_store_found t w db ks :
  flush (pending (session w)) (store w) = Ok (db, ks) →
  rows_for t db ≠ [] →
  store (get_user_by_telegram_id t w).2 = store w.
Proof.
  intros Hf Hr. unfold get_user_by_telegram_id, try_except, bind.
  rewrite (get_user_select_run t w db ks Hf).
  destruct (rows_for t db) as [|kv [|? ?]]; done.
Qed.

(** ** The payment reference *)

Lemma hex_digit_lower d : Py.is_lower_hex (Py.hex_digit d) = true.
Proof.
  unfold Py.hex_digit. generalize (Z.to_nat d) as n. intros n.
  do 15 (destruct n as [|n]; [reflexivity|]). reflexivity.
Qed.

Lemma hex_fixed_lower w n : Py.all_chars Py.is_lower_hex (Py.hex_fixed w n) = true.
Proof.
  induction w as [|w IH]; [done|]. cbn [Py.hex_fixed Py.all_chars].
  by rewrite hex_digit_lower, IH.
Qed.

Lemma hex_fixed_length w n : String.length (Py.hex_fixed w n) = w.
Proof. induction w as [|w IH]; [done|]. cbn [Py.hex_fixed String.length]. by rewrite IH. Qed.

Lemma slice_to_length k s :
  (k ≤ String.length s)%nat → String.length (Py.slice_to k s) = k.
Proof.
  revert s. induction k as [|k IH]; intros [|c s]; simpl; try done; try lia.
  intros H. rewrite IH; [done|lia].
Qed.

Lemma slice_to_all p k s :
  Py.all_chars p s = true → Py.all_chars p (Py.slice_to k s) = true.
Proof.
  revert s. induction k as [|k IH]; intros [|c s]; simpl; try done.
  intros [? ?]%andb_prop. rewrite IH by done. by rewrite andb_true_r.
Qed.

Lemma map_chars_length f s : String.length (Py.map_chars f s) = String.length s.
Proof. induction s as [|c s IH]; [done|]. simpl. by rewrite IH. Qed.

Lemma upper_char_hex c :
  Py.is_lower_hex c = true → Py.is_upper_hex (Py.upper_char c) = true.
Proof. destruct c as [[] [] [] [] [] [] [] []]; vm_compute; done. Qed.

Lemma upper_hex s :
  Py.all_chars Py.is_lower_hex s = true →
  Py.all_chars Py.is_upper_hex (Py.upper s) = true.
Proof.
  induction s as [|c s IH]; [done|]. cbn [Py.all_chars Py.upper Py.map_chars].
  intros [? ?]%andb_prop. rewrite upper_char_hex by done.
  fold (Py.upper s). by rewrite IH.
Qed.

(** [PAYREF-] and ten upper-case hexadecimal digits, whatever was drawn. *)
Lemma payment_reference_format u :
  ∃ digits, payment_reference_of u = "PAYREF-" +:+ digits ∧
            String.length digits = 10%nat ∧
            Py.all_chars Py.is_upper_hex digits = true.
Proof.
  exists (Py.upper (Py.slice_to 10 (Py.uuid_hex u))). split; [done|]. split.
  - unfold Py.upper. rewrite map_chars_length. apply slice_to_length.
    unfold Py.uuid_hex. rewrite hex_fixed_length. lia.
  - apply upper_hex, slice_to_all, hex_fixed_lower.
Qed.

Lemma payment_details_lookup chat ref :
  payment_details_of chat ref !! "generated_wallet"
    = Some (Chat.crypto_wallet_address (c_row chat)) ∧
  payment_details_of chat ref !! "network"
    = Some (Chat.crypto_network (c_row chat)) ∧
  payment_details_of chat ref !! "reference" = Some (Some ref).
Proof.
  unfold payment_details_of. repeat split.
Qed.

(** ** Two callers at once *)

Lemma rows_for_elem t db k r :
  (k, r) ∈ rows_for t db ↔ users db !! k = Some r ∧ User.telegram_id r = t.
Proof. unfold rows_for. by rewrite elem_of_select_where. Qed.

Lemma rows_for_unique t db :
  unique_telegram_ids db → rows_for t db = [] ∨ ∃ kv, rows_for t db = [kv].
Proof.
  intros Hu. destruct (rows_for t db) as [|[k1 r1] [|[k2 r2] l]] eqn:E; eauto.
  exfalso.
  assert ((k1, r1) ∈ rows_for t db) as [H1 T1]%rows_for_elem by (rewrite E; set_solver).
  assert ((k2, r2) ∈ rows_for t db) as [H2 T2]%rows_for_elem by (rewrite E; set_solver).
  assert (k1 = k2) as -> by (eapply (Hu k1 r1 H1 k2 r2 H2); congruence).
  assert (r1 = r2) as -> by congruence.
  pose proof (NoDup_map_to_list
                (filter (λ kv : Z * User.t, User.telegram_id kv.2 = t) (users db))) as Hnd.
  unfold rows_for, select_where in E. rewrite E in Hnd.
  apply NoDup_cons in Hnd as [Hnd _]. apply Hnd. left.
Qed.

Lemma rows_for_grow t db db' :
  users_grow db db' → rows_for t db ≠ [] → rows_for t db' ≠ [].
Proof.
  intros [Hg _] Hne. destruct (rows_for t db) as [|[k r] l] eqn:E; [done|].
  assert ((k, r) ∈ rows_for t db) as [H1 T1]%rows_for_elem by (rewrite E; left).
  intros Hnil.
  assert ((k, r) ∈ rows_for t db') as Hin by (apply rows_for_elem; eauto).
  rewrite Hnil in Hin. by apply elem_of_nil in Hin.
Qed.

Lemma users_grow_refl db : users_grow db db.
Proof. by split. Qed.

Lemma users_grow_trans a b c : users_grow a b → users_grow b c → users_grow a c.
Proof.
  intros (H1 & H2 & H3) (H4 & H5 & H6). split; [eauto|]. split; congruence.
Qed.

Lemma users_grow_with_user db u : users_grow db (with_user db u).
Proof.
  split; [|done]. intros k r Hk. simpl. rewrite lookup_insert_ne; [done|].
  intros <-. by rewrite next_id_fresh in Hk.
Qed.

Lemma unique_with_user t db :
  unique_telegram_ids db → rows_for t db = [] →
  unique_telegram_ids (with_user db (User.new t)).
Proof.
  intros Hu Hnil k1 r1 H1 k2 r2 H2 Heq.
  assert (∀ k r, users db !! k = Some r → User.telegram_id r ≠ t) as Hno.
  { intros k r Hk Ht. assert ((k, r) ∈ rows_for t db) as Hin by by apply rows_for_elem.
    rewrite Hnil in Hin. by apply elem_of_nil in Hin. }
  cbn [users with_user] in H1, H2. rewrite lookup_insert in H1, H2.
  repeat case_decide; simplify_eq; simpl in *; try done.
  - exfalso. eapply Hno; eauto.
  - exfalso. eapply Hno; eauto.
  - eapply Hu; eauto.
Qed.

Lemma task_ok_grow t db db' task :
  users_grow db db' → task_ok t db task → task_ok t db' task.
Proof.
  intros Hg [Hp H]. split; [done|]. pose proof Hg as [Hu _].
  destruct (t_pc task) as [| |h keys|[u| |e]]; try done.
  - destruct H as (k & ? & ?). eauto.
  - destruct H. eauto.
  - destruct H. split; [done|]. eauto using rows_for_grow.
Qed.

(** One turn of a task that is in order. *)
Lemma task_step_ok t task w :
  unique_telegram_ids (store w) → task_ok t (store w) task →
  let task' := (task_step t task w).1 in
  let w' := (task_step t task w).2 in
  unique_telegram_ids (store w') ∧ users_grow (store w) (store w') ∧
  task_ok t (store w') task' ∧
  (turns_left task' < turns_left task ∨ turns_left task' = 0)%nat ∧
  (won task' ∨ rows_for t (store w') = [] ∨
   (¬ won task ∧ (waiting task' → waiting task) ∧ store w' = store w)).
Proof.
  intros Hu [Hp Hpc]. unfold task_step.
  assert (flush (pending (session (set_session (t_session task) w)))
                (store (set_session (t_session task) w)) = Ok (store w, [])) as Hf
    by (simpl; by rewrite Hp).
  destruct (t_pc task) as [| |h keys|r] eqn:Epc; unfold turns_left, won, waiting;
    rewrite ?Epc; cbn [phase].
  - (* the lookup *)
    unfold try_except, bind. rewrite (get_user_select_run t _ _ _ Hf).
    destruct (rows_for_unique t (store w) Hu) as [E|[[k r] E]]; rewrite E;
      cbn [fst snd store set_session t_pc t_session session ret].
    + split_and!; eauto using users_grow_refl; try lia. by split.
    + assert ((k, r) ∈ rows_for t (store w)) as [H1 T1]%rows_for_elem
        by (rewrite E; left).
      split_and!; eauto using users_grow_refl; try lia. by split.
  - (* the insert and its commit *)
    unfold try_except, bind, stage, commit. cbn [pending session set_session store].
    rewrite Hp. cbn [app flush].
    destruct (rows_for t (store w)) as [|kv l] eqn:E.
    + rewrite (flush1_insert_user t (store w) E).
      cbn [fst snd store set_session set_store emit t_pc t_session session ret].
      split_and!; eauto using unique_with_user, users_grow_with_user; try lia.
      split; [done|]. cbn [t_pc]. eexists. split; [done|].
      simpl. by rewrite lookup_insert_eq.
    + rewrite (flush1_insert_user_taken t (store w)) by (by rewrite E).
      unfold get_user_failed, rollback, raise. simpl.
      split_and!; eauto using users_grow_refl; try lia.
      * split; [done|]. simpl. split; [done|]. by rewrite E.
      * right. right. split_and!; try done; tauto.
  - (* the refresh *)
    destruct Hpc as (k & Hk & Hrow).
    unfold try_except, bind, refresh_user. rewrite Hk.
    unfold bind, view. rewrite Hf. cbv beta iota. unfold load_user.
    cbn [store set_session]. rewrite Hrow. simpl.
    split_and!; eauto using users_grow_refl; try lia. by split.
  - (* already finished *)
    simpl. rewrite Epc.
    split_and!; eauto using users_grow_refl; try lia.
    + by split; [|rewrite Epc].
    + destruct r; eauto; right; right; split_and!; try done; tauto.
Qed.

Lemma tasks_ok_step t a b w :
  tasks_ok t (store w) a b →
  let a' := (task_step t a w).1 in
  let w' := (task_step t a w).2 in
  tasks_ok t (store w') a' b ∧ tasks_ok t (store w') b a' ∧
  users_grow (store w) (store w') ∧
  (turns_left a' < turns_left a ∨ turns_left a' = 0)%nat.
Proof.
  intros (Hu & Ha & Hb & J) a' w'.
  destruct (task_step_ok t a w Hu Ha) as (Hu' & Hg & Ha' & Hlt & Hw).
  fold a' w' in Hu', Hg, Ha', Hlt, Hw.
  assert (waiting a' ∨ waiting b → rows_for t (store w') ≠ [] → won a' ∨ won b) as J'.
  { intros Hwait Hrows. destruct Hw as [?|[E|(Hnw & Hwa & Hs)]]; [by left|done|].
    rewrite Hs in Hrows. destruct J as [?|?]; [tauto|done|done|by right]. }
  split_and!; try done.
  - split_and!; eauto using task_ok_grow.
  - split_and!; eauto using task_ok_grow. tauto.
Qed.

Lemma tasks_ok_sym t db a b : tasks_ok t db a b → tasks_ok t db b a.
Proof. intros (? & ? & ? & J). split_and!; try done. tauto. Qed.

Lemma run_tasks_ok t schedule : ∀ a b w,
  tasks_ok t (store w) a b →
  let r := run_tasks t schedule a b w in
  tasks_ok t (store r.2) r.1.1 r.1.2 ∧ users_grow (store w) (store r.2) ∧
  (turns_left r.1.1 ≤ turns_left a - turns true schedule)%nat ∧
  (turns_left r.1.2 ≤ turns_left b - turns false schedule)%nat.
Proof.
  induction schedule as [|[] rest IH]; intros a b w Hok; cbn [run_tasks turns].
  - simpl. split_and!; eauto using users_grow_refl; lia.
  - destruct (tasks_ok_step t a b w Hok) as (Hok' & _ & Hg & Hlt).
    destruct (task_step t a w) as [a1 w1]. cbn [fst snd] in *.
    destruct (IH a1 b w1 Hok') as (H1 & H2 & H3 & H4).
    split_and!; eauto using users_grow_trans; simpl; lia.
  - destruct (tasks_ok_step t b a w (tasks_ok_sym _ _ _ _ Hok)) as (_ & Hok' & Hg & Hlt).
    destruct (task_step t b w) as [b1 w1]. cbn [fst snd] in *.
    destruct (IH a b1 w1 Hok') as (H1 & H2 & H3 & H4).
    split_and!; eauto using users_grow_trans; simpl; lia.
Qed.

Lemma tasks_ok_new t db : unique_telegram_ids db → tasks_ok t db new_task new_task.
Proof.
  intros Hu. unfold tasks_ok, task_ok, waiting. simpl. tauto.
Qed.

Lemma rows_for_of_row t db k r :
  unique_telegram_ids db → users db !! k = Some r → User.telegram_id r = t →
  rows_for t db = [(k, r)].
Proof.
  intros Hu Hk Ht.
  assert ((k, r) ∈ rows_for t db) as Hin by by apply rows_for_elem.
  destruct (rows_for_unique t db Hu) as [E|[kv E]]; rewrite E in Hin.
  - by apply elem_of_nil in Hin.
  - apply list_elem_of_singleton in Hin. by subst.
Qed.

(** ** More about the store, the sweep and single calls *)

Lemma foreign_keys_with_statuses st ids db :
  foreign_keys_hold db → foreign_keys_hold (with_statuses st ids db).
Proof.
  intros Hfk k s Hs. rewrite lookup_with_statuses in Hs.
  cbn [users chats with_statuses].
  destruct (subscriptions db !! k) as [s0|] eqn:E.
  - pose proof (Hfk k s0 E) as H0. cbn beta in H0.
    case_decide; simpl in Hs; injection Hs as <-; exact H0.
  - case_decide; discriminate.
Qed.


Lemma foreign_keys_empty : foreign_keys_hold empty_db.
Proof. intros k s Hs. unfold empty_db in Hs. simpl in Hs. by rewrite lookup_empty in Hs. Qed.

Lemma expiry_events_head pf sub u c :
  s_user sub = Some u → s_chat sub = Some c →
  let tid := User.telegram_id (u_row u) in
  let text := expired_text (Chat.title (c_row c)) in
  head (expiry_events pf sub) =
  Some (if send_ok pf tid text then SendMessage tid text else SendFailed tid text).
Proof.
  intros Hu Hc. unfold expiry_events. rewrite Hu, Hc. simpl.
  destruct (send_ok pf _ (expired_text _)); [|done].
  by destruct (send_ok pf _ (removed_text _)).
Qed.

Lemma discard_store {A} (m : M A) w : store (discard m w).2 = store (m w).2.
Proof. unfold discard, bind, ret. by destruct (m w) as [[?| |?] ?]. Qed.

Lemma select_chat_new_row pf q w k s :
  subscriptions (store (select_chat_callback pf q w).2) !! k = Some s →
  subscriptions (store w) !! k ≠ Some s →
  selected q (store w) s.
Proof.
  intros Hs Hne. destruct (select_chat_callback_adds pf q w k s Hs); done.
Qed.

Lemma rows_for_with_user t db :
  unique_telegram_ids db → rows_for t db = [] →
  rows_for t (with_user db (User.new t)) = [(next_id (users db), User.new t)].
Proof.
  intros Hu Hnil. apply rows_for_of_row.
  - by apply unique_with_user.
  - simpl. by rewrite lookup_insert_eq.
  - done.
Qed.

(** A call in a session of its own. *)
Lemma lookup_or_create_alone t w :
  unique_telegram_ids (store w) →
  ∃ u w1, with_session (get_user_by_telegram_id t) w = (Normal u, w1) ∧
          unique_telegram_ids (store w1) ∧ users_grow (store w) (store w1) ∧
          rows_for t (store w1) = [(u_id u, u_row u)] ∧
          (rows_for t (store w) ≠ [] → store w1 = store w).
Proof.
  intros Hu. unfold with_session.
  assert (flush (pending (session (set_session fresh_session w)))
                (store (set_session fresh_session w)) = Ok (store w, [])) as Hf by done.
  destruct (rows_for_unique t (store w) Hu) as [E|[[k r] E]].
  - destruct (get_user_by_telegram_id_created t _ _ _ Hf E) as (w1 & -> & Hs & _).
    eexists _, _. split; [reflexivity|]. cbn [store set_session]. rewrite Hs.
    split_and!; eauto using unique_with_user, users_grow_with_user.
    + by apply rows_for_with_user.
    + by rewrite E.
  - rewrite (get_user_by_telegram_id_found t _ _ _ (k, r) Hf E).
    eexists _, _. split; [reflexivity|]. cbn [store set_session].
    split_and!; eauto using users_grow_refl.
Qed.

(** A task that is given three turns in a row does what the function does. *)
Lemma task_alone t w :
  unique_telegram_ids (store w) →
  let r := run_tasks t [true; true; true] new_task new_task w in
  let f := with_session (get_user_by_telegram_id t) w in
  t_pc r.1.1 = Finished f.1 ∧ store r.2 = store f.2.
Proof.
  intros Hu. cbn [run_tasks]. unfold with_session.
  assert (flush (pending (session (set_session fresh_session w)))
                (store (set_session fresh_session w)) = Ok (store w, [])) as Hf by done.
  destruct (task_step t new_task w) as [a1 w1] eqn:E1.
  unfold task_step in E1. cbn [t_pc new_task phase t_session] in E1.
  unfold try_except, bind in E1.
  rewrite (get_user_select_run t _ _ _ Hf) in E1.
  destruct (rows_for_unique t (store w) Hu) as [E|[[k r] E]]; rewrite E in E1;
    cbn [fst snd ret] in E1; injection E1 as <- <-.
  - destruct (get_user_by_telegram_id_created t _ _ _ Hf E) as (w1 & -> & Hs & _).
    destruct (task_step t _ _) as [a2 w2] eqn:E2.
    unfold task_step in E2. cbn [t_pc t_session phase session set_session] in E2.
    unfold try_except, bind, stage, commit in E2.
    cbn [pending session set_session store fresh_session app flush] in E2.
    rewrite (flush1_insert_user t (store w) E) in E2. cbn [fst snd ret] in E2.
    injection E2 as <- <-.
    destruct (task_step t _ _) as [a3 w3] eqn:E3.
    unfold task_step in E3. cbn [t_pc t_session phase] in E3.
    unfold try_except, bind, refresh_user in E3. cbn [lookup list_lookup] in E3.
    unfold bind, view in E3. simpl in E3. unfold load_user in E3. simpl in E3.
    rewrite lookup_insert_eq in E3. simpl in E3. injection E3 as <- <-.
    simpl. by rewrite Hs.
  - rewrite (get_user_by_telegram_id_found t _ _ _ (k, r) Hf E).
    unfold task_step. simpl. done.
Qed.

(** * The claims *)

(** C1.  The ownership check of [confirm_payment_callback] reads the name
    [user], which the function never binds, so the request ends in the
    handler's catch-all branch.  On subscription 4, which belongs to user row
    2 (Telegram id 777), a confirmation sent by Telegram user 555 is answered
    with the generic error text and not with the not-yours text; the owner
    gets the same answer; the row is left as it was. *)
Theorem confirm_by_other_user_is_unexpected_error :
  let w := Sample.w0 in
  let stranger := confirm_payment_callback Sample.pf
                    (Sample.query 555 "confirm_payment_4") w in
  let owner := confirm_payment_callback Sample.pf
                 (Sample.query 777 "confirm_payment_4") w in
  Subscription.user_id <$> subscriptions (store w) !! 4 = Some 2 ∧
  User.telegram_id <$> users (store w) !! 2 = Some 777 ∧
  last_edit (trace stranger.2) = Some (unexpected_error) ∧
  last_edit (trace stranger.2) ≠ Some not_yours ∧
  last_edit (trace owner.2) = last_edit (trace stranger.2) ∧
  subscriptions (store stranger.2) !! 4 = subscriptions (store w) !! 4.
Proof. vm_compute. repeat split; done. Qed.

(** C6.  The same unbound name stops a confirmation of an already active
    subscription before the already-active branch: on subscription 1, active
    and owned by the caller, the answer is the generic error text and not the
    text that reports the current expiry; the row is left as it was. *)
Theorem confirm_active_is_unexpected_error :
  let w := Sample.w0 in
  let r := confirm_payment_callback Sample.pf
             (Sample.query 555 "confirm_payment_1") w in
  Subscription.user_id <$> subscriptions (store w) !! 1 = Some 1 ∧
  Subscription.status <$> subscriptions (store w) !! 1 = Some "active" ∧
  User.telegram_id <$> users (store w) !! 1 = Some 555 ∧
  last_edit (trace r.2) = Some unexpected_error ∧
  last_edit (trace r.2) ≠ Some (already_active Sample.pf "VIP" 100) ∧
  subscriptions (store r.2) !! 1 = subscriptions (store w) !! 1.
Proof. vm_compute. repeat split; done. Qed.

(** C2.  No handler or job moves an expired or cancelled subscription to any
    other state than expired or cancelled: whatever the request, a row that
    was expired or cancelled before is expired or cancelled after.  For a
    payment confirmation this is so because the handler stops at its
    ownership check and leaves the store as it was; the sweep only writes
    [expired]; chat selection only adds rows. *)
Theorem status_never_revived pf r w k s :
  subscriptions (store w) !! k = Some s → dead s →
  ∃ s', subscriptions (store (handle pf r w).2) !! k = Some s' ∧ dead s'.
Proof. intros Hs Hd. by eapply handle_dead_stay_dead. Qed.

Lemma status_never_revived_witness :
  subscriptions (store Sample.w0) !! 5 = Some (Sample.sub 1 1 100 "expired") ∧
  dead (Sample.sub 1 1 100 "expired") ∧
  ∃ s', subscriptions
          (store (handle Sample.pf
                    (ConfirmPayment (Sample.query 555 "confirm_payment_5"))
                    Sample.w0).2) !! 5 = Some s' ∧ dead s'.
Proof.
  assert (subscriptions (store Sample.w0) !! 5 = Some (Sample.sub 1 1 100 "expired"))
    as H1 by (vm_compute; reflexivity).
  assert (dead (Sample.sub 1 1 100 "expired")) as H2 by (left; reflexivity).
  split; [exact H1|]. split; [exact H2|].
  exact (status_never_revived Sample.pf
           (ConfirmPayment (Sample.query 555 "confirm_payment_5")) Sample.w0 5
           (Sample.sub 1 1 100 "expired") H1 H2).
Defined.

(** C3.  On a store whose subscriptions all have their user and their chat
    (the two foreign keys), one run of the sweep sets to [expired] the rows
    that are active with [end_date <= now] and changes no other row, user or
    chat; a second run at the same time finds nothing due and leaves the
    store as it is. *)
Theorem expiry_sweep_correct pf w :
  foreign_keys_hold (store w) →
  let w1 := (process_expired_subscriptions pf w).2 in
  (∀ k, subscriptions (store w1) !! k
        = expire (clock w) <$> subscriptions (store w) !! k) ∧
  users (store w1) = users (store w) ∧ chats (store w1) = chats (store w) ∧
  clock w1 = clock w ∧
  due_subscriptions w1 = [] ∧
  store (process_expired_subscriptions pf w1).2 = store w1.
Proof.
  intros Hfk w1. subst w1.
  destruct (process_expired_subscriptions_run pf w Hfk) as (w1 & E & Hs & Hc & _).
  rewrite E. cbn [snd].
  assert (∀ k, subscriptions (store w1) !! k
               = expire (clock w) <$> subscriptions (store w) !! k) as Hl
    by (intros k; rewrite Hs; apply swept_lookup).
  assert (due_subscriptions w1 = []) as Hnone.
  { unfold due_subscriptions.
    assert (select_where (λ kv : Z * Subscription.t, due (clock w1) kv.2)
                         (subscriptions (store w1)) = []) as ->; [|done].
    apply select_where_nil. intros k r Hr. rewrite Hl in Hr. rewrite Hc.
    destruct (subscriptions (store w) !! k) as [r0|]; [|done].
    injection Hr as <-. apply expire_not_due. }
  split_and!; try done.
  - by rewrite Hs.
  - by rewrite Hs.
  - assert (foreign_keys_hold (store w1)) as Hfk1
      by (rewrite Hs; by apply foreign_keys_with_statuses).
    destruct (process_expired_subscriptions_run pf w1 Hfk1) as (w2 & E2 & Hs2 & _).
    rewrite E2. cbn [snd]. rewrite Hs2, Hnone. apply with_statuses_nil.
Qed.

Lemma expiry_sweep_correct_witness :
  foreign_keys_hold (store Sample.w0) ∧
  let w1 := (process_expired_subscriptions Sample.pf Sample.w0).2 in
  (∀ k, subscriptions (store w1) !! k
        = expire (clock Sample.w0) <$> subscriptions (store Sample.w0) !! k) ∧
  users (store w1) = users (store Sample.w0) ∧ chats (store w1) = chats (store Sample.w0) ∧
  clock w1 = clock Sample.w0 ∧
  due_subscriptions w1 = [] ∧
  store (process_expired_subscriptions Sample.pf w1).2 = store w1.
Proof.
  assert (foreign_keys_hold (store Sample.w0)) as H
    by (apply (bool_decide_unpack _); vm_compute; exact I).
  split; [exact H|]. exact (expiry_sweep_correct Sample.pf Sample.w0 H).
Defined.

(** C4, as stated, fails: the first expiry message of the sample run goes out
    right after the transaction has begun, before any commit. *)
Lemma expiry_message_precedes_commit :
  ¬ notified_after_commit
      (trace (process_expired_subscriptions Sample.pf Sample.w0).2).
Proof.
  intros H.
  assert (trace (process_expired_subscriptions Sample.pf Sample.w0).2 !! 1%nat
          = Some (SendMessage 555 (expired_text "VIP"))) as E by (vm_compute; reflexivity).
  destruct (H _ _ E eq_refl) as [(j & Hj & Hc) _].
  destruct j; [|lia]. vm_compute in Hc. discriminate.
Qed.

(** C4, amended.  The sweep begins its transaction, then for each due
    subscription in turn stages the flip and sends that subscription's
    messages, and commits once after the last of them.  Every due
    subscription gets its attempt, delivered or failed, whatever happened to
    the others, and every flip is in the store afterwards whatever the bot
    could deliver. *)
Theorem expiry_sweep_notifies_before_commit pf w :
  foreign_keys_hold (store w) →
  let w1 := (process_expired_subscriptions pf w).2 in
  trace w1 = trace w ++ [TxBegin] ++
             (due_subscriptions w ≫= expiry_events pf) ++ [TxCommit] ∧
  (∀ sub, sub ∈ due_subscriptions w →
     ∃ u c, s_user sub = Some u ∧ s_chat sub = Some c ∧
       let tid := User.telegram_id (u_row u) in
       let text := expired_text (Chat.title (c_row c)) in
       head (expiry_events pf sub) =
       Some (if send_ok pf tid text then SendMessage tid text
             else SendFailed tid text)) ∧
  (∀ k, subscriptions (store w1) !! k
        = expire (clock w) <$> subscriptions (store w) !! k).
Proof.
  intros Hfk w1. subst w1.
  destruct (process_expired_subscriptions_run pf w Hfk) as (w1 & E & Hs & Hc & Ht).
  rewrite E. cbn [snd]. split_and!.
  - exact Ht.
  - intros sub Hin.
    pose proof (due_subscriptions_loaded w Hfk) as Hall.
    rewrite Forall_forall in Hall.
    destruct (Hall sub Hin) as ([u Hu] & [c Hc'] & _).
    exists u, c. split_and!; try done. by apply expiry_events_head.
  - intros k. rewrite Hs. apply swept_lookup.
Qed.

Lemma expiry_sweep_notifies_before_commit_witness :
  foreign_keys_hold (store Sample.w0) ∧
  let w1 := (process_expired_subscriptions Sample.pf_555_unreachable Sample.w0).2 in
  trace w1 = trace Sample.w0 ++ [TxBegin] ++
             (due_subscriptions Sample.w0 ≫= expiry_events Sample.pf_555_unreachable)
             ++ [TxCommit].
Proof.
  assert (foreign_keys_hold (store Sample.w0)) as H
    by (apply (bool_decide_unpack _); vm_compute; exact I).
  split; [exact H|].
  exact (proj1 (expiry_sweep_notifies_before_commit
                  Sample.pf_555_unreachable Sample.w0 H)).
Defined.

(** C5, as stated, fails: [get_user_by_telegram_id] on a store without the
    user changes the durable store. *)
Lemma lookup_or_create_commits :
  store (repo (GetUserByTelegramId 555) (Sample.world empty_db 0)).2
  ≠ store (Sample.world empty_db 0).
Proof.
  intros H. apply (f_equal (λ db, users db !! 1)) in H. vm_compute in H. discriminate.
Qed.

(** C5, amended.  Every repository function leaves the durable store as it
    was, except [get_user_by_telegram_id] when the session sees no row with
    the Telegram id: then it commits the session itself, so the store holds
    what the session had staged and the new user. *)
Theorem repository_frame c w :
  store (repo c w).2 =
  match c with
  | GetUserByTelegramId t =>
      match flush (pending (session w)) (store w) with
      | Ok (db, _) =>
          match rows_for t db with
          | [] => with_user db (User.new t)
          | _ => store w
          end
      | Err _ => store w
      end
  | _ => store w
  end.
Proof.
  destruct (is_lookup_or_create c) eqn:Hc.
  - destruct c; try discriminate. cbn [repo]. rewrite discard_store.
    destruct (flush (pending (session w)) (store w)) as [[db ks]|e] eqn:Hf.
    + destruct (rows_for telegram_id db) as [|kv l] eqn:Hr.
      * destruct (get_user_by_telegram_id_created telegram_id w db ks Hf Hr)
          as (w' & E & Hs & _). by rewrite E.
      * apply (get_user_by_telegram_id_store_found telegram_id w db ks Hf).
        by rewrite Hr.
    + unfold get_user_by_telegram_id, try_except, bind, get_user_select, bind, view.
      rewrite Hf. unfold get_user_failed, bind, rollback, raise.
      by destruct (is_SQLAlchemyError e).
  - assert (store (repo c w).2 = store w) as E.
    { symmetry.
      apply (keeps_repo (λ _, True) eq (λ _, eq_refl)
               (λ a b c (H1 : a = b) (H2 : b = c), eq_trans H1 H2) c Hc (λ _, I) w).
      unfold staged_ok. by apply Forall_true. }
    rewrite E. by destruct c.
Qed.

(** C7, as stated, fails: selecting chat 2, which is not active, creates a
    pending subscription to it. *)
Lemma inactive_chat_gets_subscription :
  let w := Sample.w0 in
  let r := select_chat_callback Sample.pf (Sample.query 555 "select_chat_2") w in
  Chat.is_active <$> chats (store w) !! 2 = Some false ∧
  subscriptions (store w) !! 6 = None ∧
  Subscription.status <$> subscriptions (store r.2) !! 6 = Some "pending_payment" ∧
  Subscription.chat_id <$> subscriptions (store r.2) !! 6 = Some 2.
Proof. vm_compute. repeat split; done. Qed.

(** C7, amended.  Chat selection creates a subscription only when the
    callback data names a chat that exists, and the row it creates refers to
    that chat and has status [pending_payment]; the chat's active flag is not
    looked at.  When the chat does not exist no subscription row is new. *)
Theorem select_chat_requires_chat pf q w k s :
  let id := Py.int (Py.last_field (data q)) in
  subscriptions (store (select_chat_callback pf q w).2) !! k = Some s →
  subscriptions (store w) !! k ≠ Some s →
  Py.isdigit (Py.last_field (data q)) = true ∧
  is_Some (chats (store w) !! id) ∧
  Subscription.chat_id s = id ∧
  Subscription.status s = "pending_payment".
Proof.
  intros id Hs Hne.
  destruct (select_chat_new_row pf q w k s Hs Hne)
    as (Hd & c & Hc & uid & now & u & ->).
  split_and!; eauto.
Qed.

Lemma select_chat_requires_chat_witness :
  ∃ s, subscriptions (store Sample.w_select_closed) !! 6 = Some s ∧
       subscriptions (store Sample.w0) !! 6 ≠ Some s ∧
       is_Some (chats (store Sample.w0) !! 2) ∧
       Subscription.chat_id s = 2 ∧
       Subscription.status s = "pending_payment".
Proof.
  destruct (subscriptions (store Sample.w_select_closed) !! 6) as [s|] eqn:E;
    [|vm_compute in E; discriminate].
  assert (subscriptions (store Sample.w0) !! 6 ≠ Some s) as H2
    by (vm_compute; discriminate).
  exists s. split; [reflexivity|]. split; [exact H2|].
  exact (proj2 (select_chat_requires_chat Sample.pf
                  (Sample.query 555 "select_chat_2") Sample.w0 6 s E H2)).
Defined.

(** C10.  A row that chat selection adds has as [payment_id] the text
    [PAYREF-] followed by ten characters out of [0-9A-F], and its
    [payment_details] hold the selected chat's wallet address under
    [generated_wallet], its network under [network] and that same reference
    under [reference]. *)
Theorem select_chat_payment_reference pf q w k s :
  let id := Py.int (Py.last_field (data q)) in
  subscriptions (store (select_chat_callback pf q w).2) !! k = Some s →
  subscriptions (store w) !! k ≠ Some s →
  ∃ c digits d,
    chats (store w) !! id = Some c ∧
    Subscription.payment_id s = Some ("PAYREF-" +:+ digits) ∧
    String.length digits = 10%nat ∧
    Py.all_chars Py.is_upper_hex digits = true ∧
    Subscription.payment_details s = Some d ∧
    d !! "generated_wallet" = Some (Chat.crypto_wallet_address c) ∧
    d !! "network" = Some (Chat.crypto_network c) ∧
    d !! "reference" = Some (Some ("PAYREF-" +:+ digits)).
Proof.
  intros id Hs Hne.
  destruct (select_chat_new_row pf q w k s Hs Hne)
    as (Hd & c & Hc & uid & now & u & ->).
  destruct (payment_reference_format u) as (digits & Href & Hlen & Hhex).
  destruct (payment_details_lookup {| c_id := id; c_row := c |}
              (payment_reference_of u)) as (H1 & H2 & H3).
  exists c, digits, (payment_details_of {| c_id := id; c_row := c |}
                       (payment_reference_of u)).
  cbn [Subscription.payment_id Subscription.payment_details].
  rewrite <- Href. split_and!; done.
Qed.

Lemma select_chat_payment_reference_witness :
  ∃ s, subscriptions (store Sample.w_select_vip) !! 6 = Some s ∧
       subscriptions (store Sample.w0) !! 6 ≠ Some s ∧
       Subscription.payment_id s = Some "PAYREF-0123456789" ∧
       ∃ c digits d,
         chats (store Sample.w0) !! 1 = Some c ∧
         Subscription.payment_id s = Some ("PAYREF-" +:+ digits) ∧
         String.length digits = 10%nat ∧
         Py.all_chars Py.is_upper_hex digits = true ∧
         Subscription.payment_details s = Some d ∧
         d !! "generated_wallet" = Some (Chat.crypto_wallet_address c) ∧
         d !! "network" = Some (Chat.crypto_network c) ∧
         d !! "reference" = Some (Some ("PAYREF-" +:+ digits)).
Proof.
  destruct (subscriptions (store Sample.w_select_vip) !! 6) as [s|] eqn:E;
    [|vm_compute in E; discriminate].
  assert (subscriptions (store Sample.w0) !! 6 ≠ Some s) as H2
    by (vm_compute; discriminate).
  assert (Subscription.payment_id s = Some "PAYREF-0123456789") as H3.
  { vm_compute in E. injection E as <-. reflexivity. }
  exists s. split; [reflexivity|]. split; [exact H2|]. split; [exact H3|].
  exact (select_chat_payment_reference Sample.pf
           (Sample.query 555 "select_chat_1") Sample.w0 6 s E H2).
Defined.




(** C8, as stated, fails: when two first contacts for the same Telegram id
    take turns at every await, the second to commit is refused by the unique
    constraint and raises instead of returning the record. *)
Lemma concurrent_first_contact_loser_raises :
  let r := run_tasks 555 [true; false; true; false; true; false]
             new_task new_task (Sample.world empty_db 0) in
  t_pc r.1.1 = Finished (Normal {| u_id := 1; u_row := User.new 555 |}) ∧
  t_pc r.1.2 = Finished (Raised (IntegrityError users_telegram_id_key)) ∧
  map_to_list (users (store r.2)) = [(1, User.new 555)].
Proof. vm_compute. repeat split; done. Qed.

(** C8, amended.  On a store with unique Telegram ids: two calls one after
    the other both return the same record, the second changes nothing, and
    exactly that one row is stored for the id.  Two calls interleaved at
    their awaits, in any order, keep the ids unique and the existing rows
    untouched; a call that returns returns the one stored row for the id; a
    call that raises raises the unique-constraint error; and once both have
    had their three turns both have finished and at least one has
    returned. *)
Theorem lookup_or_create_two_callers t w :
  unique_telegram_ids (store w) →
  (* one call after the other *)
  (∃ u w1 w2,
     with_session (get_user_by_telegram_id t) w = (Normal u, w1) ∧
     with_session (get_user_by_telegram_id t) w1 = (Normal u, w2) ∧
     store w2 = store w1 ∧
     rows_for t (store w2) = [(u_id u, u_row u)] ∧
     users_grow (store w) (store w2)) ∧
  (* two calls taking turns at their awaits *)
  (∀ schedule,
     let r := run_tasks t schedule new_task new_task w in
     let a := r.1.1 in
     let b := r.1.2 in
     unique_telegram_ids (store r.2) ∧
     users_grow (store w) (store r.2) ∧
     (∀ task u, task = a ∨ task = b → t_pc task = Finished (Normal u) →
        rows_for t (store r.2) = [(u_id u, u_row u)]) ∧
     (∀ task e, task = a ∨ task = b → t_pc task = Finished (Raised e) →
        e = IntegrityError users_telegram_id_key) ∧
     ((3 ≤ turns true schedule)%nat → (3 ≤ turns false schedule)%nat →
      ∃ ra rb, t_pc a = Finished ra ∧ t_pc b = Finished rb ∧
               ((∃ u, ra = Normal u) ∨ (∃ u, rb = Normal u)))).
Proof.
  intros Hu. split.
  - destruct (lookup_or_create_alone t w Hu) as (u & w1 & E1 & Hu1 & Hg1 & Hr1 & _).
    destruct (lookup_or_create_alone t w1 Hu1) as (u' & w2 & E2 & Hu2 & Hg2 & Hr2 & Hs2).
    assert (store w2 = store w1) as Hs by (apply Hs2; by rewrite Hr1).
    assert (u' = u) as ->.
    { rewrite Hs, Hr1 in Hr2. injection Hr2 as ? ?. destruct u, u'; simpl in *; congruence. }
    exists u, w1, w2. split_and!; eauto using users_grow_trans.
  - intros schedule r a b.
    destruct (run_tasks_ok t schedule new_task new_task w (tasks_ok_new t _ Hu))
      as ((Hu' & Ha & Hb & J) & Hg & Hta & Htb).
    fold r in Hu', Ha, Hb, J, Hg, Hta, Htb. fold a in Ha, J, Hta. fold b in Hb, J, Htb.
    assert (∀ task, task = a ∨ task = b → task_ok t (store r.2) task) as Hok
      by (intros task [->| ->]; done).
    split_and!; try done.
    + intros task u Htask Hpc. destruct (Hok task Htask) as [_ H]. rewrite Hpc in H.
      destruct H. by apply rows_for_of_row.
    + intros task e Htask Hpc. destruct (Hok task Htask) as [_ H]. rewrite Hpc in H.
      by destruct H.
    + intros H3a H3b. unfold turns_left in Hta, Htb. cbn [t_pc new_task] in Hta, Htb.
      destruct Ha as [_ Ha], Hb as [_ Hb]. unfold won, waiting in J.
      destruct (t_pc a) as [| | |ra]; try lia.
      destruct (t_pc b) as [| | |rb]; try lia.
      exists ra, rb. split_and!; try done.
      destruct ra as [ua| |ea]; [eauto|done|].
      destruct rb as [ub| |eb]; [eauto|done|].
      destruct Ha as [_ Hrows]. destruct J; tauto.
Qed.

Lemma lookup_or_create_two_callers_witness :
  let w := Sample.world empty_db 0 in
  let r := run_tasks 555 [true; false; true; false; true; false]
             new_task new_task w in
  unique_telegram_ids (store w) ∧
  unique_telegram_ids (store r.2) ∧
  rows_for 555 (store r.2) = [(1, User.new 555)].
Proof.
  intros w r.
  assert (unique_telegram_ids (store w)) as H
    by (apply (bool_decide_unpack _); vm_compute; exact I).
  pose proof (proj2 (lookup_or_create_two_callers 555 w H)
                [true; false; true; false; true; false]) as (H1 & _ & H3 & _).
  split; [exact H|]. split; [exact H1|].
  exact (H3 r.1.1 {| u_id := 1; u_row := User.new 555 |}
            (or_introl eq_refl) eq_refl).
Defined.

(** ** What a run said *)

Lemma said_app w w' evs : trace w' = trace w ++ evs → said w w' = evs.
Proof. intros H. unfold said. rewrite H. by rewrite drop_app_length. Qed.

(** ** The chats on offer *)

Lemma get_all_managed_chats_fresh w :
  pending (session w) = [] →
  get_all_managed_chats w = (Normal (on_offer (store w)), w).
Proof.
  intros H. unfold get_all_managed_chats, bind. by rewrite (view_fresh w H).
Qed.

Lemma elem_of_on_offer db chat :
  chat ∈ on_offer db ↔
  chats db !! c_id chat = Some (c_row chat) ∧ Chat.is_active (c_row chat) = true.
Proof.
  unfold on_offer. rewrite list_elem_of_fmap. split.
  - intros ([k c] & -> & Hin). by apply elem_of_select_where in Hin.
  - intros [Hc Ha]. exists (c_id chat, c_row chat). split; [by destruct chat|].
    by apply elem_of_select_where.
Qed.

Lemma user_subscribe_callback_run q w :
  ∃ w', user_subscribe_callback q w = (Normal tt, w') ∧
        store w' = store w ∧ session w' = fresh_session ∧
        trace w' = trace w ++
          [Answered EmptyString;
           EditMessage (match on_offer (store w) with
                        | [] => "No chats available for subscription at the moment."
                        | _ => "Please select a chat to subscribe to:"
                        end)].
Proof.
  unfold user_subscribe_callback. run_monad.
  rewrite get_all_managed_chats_fresh by done. cbn [store set_session emit].
  destruct (on_offer (store w)) as [|c l]; eexists; (split; [reflexivity|]);
    simpl; rewrite <- ?app_assoc; done.
Qed.

(** ** Chat selection that selects nothing *)


(** ** Chat removal that goes through, or finds nothing *)

Lemma execute_remove_chat_callback_unreferenced pf q w c :
  let id := Py.int (Py.last_field (data q)) in
  Py.isdigit (Py.last_field (data q)) = true →
  chats (store w) !! id = Some c →
  ¬ referenced (store w) id →
  ∃ w', execute_remove_chat_callback pf q w = (Normal tt, w') ∧
        store w' = {| users := users (store w);
                      chats := delete id (chats (store w));
                      subscriptions := subscriptions (store w) |} ∧
        trace w' = trace w ++
          [Answered "Attempting to remove chat..."; TxBegin; TxCommit;
           EditMessage ("Chat DB ID " +:+ Py.str id +:+ " has been removed.")].
Proof.
  intros id Hd Hc Href.
  unfold execute_remove_chat_callback. fold id. run_monad.
  rewrite Hd. simpl (negb _). cbv beta iota.
  rewrite delete_chat_by_id_fresh by done. cbn [store set_session emit]. rewrite Hc.
  cbv beta iota. unfold commit. simpl.
  assert (has_row (λ r, Subscription.chat_id r = id) (subscriptions (store w)) = false)
    as ->.
  { apply has_row_false. intros k r Hk Hr. apply Href. by exists k, r. }
  simpl. eexists. split; [reflexivity|]. split; [done|].
  simpl. rewrite <- !app_assoc. done.
Qed.


(** ** The reminder job *)

Lemma get_subscriptions_ending_soon_fresh d w :
  pending (session w) = [] →
  get_subscriptions_ending_soon d w = (Normal (ending_soon d w), w).
Proof.
  intros H. unfold get_subscriptions_ending_soon, bind, utcnow.
  rewrite (view_fresh w H). done.
Qed.

Lemma get_active_subscriptions_fresh t w :
  pending (session w) = [] →
  get_active_subscriptions t w = (Normal (active_for t w), w).
Proof.
  intros H. unfold get_active_subscriptions, bind, utcnow.
  rewrite (view_fresh w H). done.
Qed.

Lemma elem_of_ending_soon d w sub :
  sub ∈ ending_soon d w ↔
  subscriptions (store w) !! s_id sub = Some (s_row sub) ∧
  ends_soon (clock w) d (s_row sub) ∧
  sub = load_sub (store w) (s_id sub, s_row sub).
Proof.
  unfold ending_soon. rewrite list_elem_of_fmap. split.
  - intros ([k r] & -> & Hin). apply elem_of_select_where in Hin as [? ?]. done.
  - intros (Hs & He & Hl). exists (s_id sub, s_row sub). split; [done|].
    by apply elem_of_select_where.
Qed.

Lemma elem_of_due_subscriptions w sub :
  sub ∈ due_subscriptions w ↔
  subscriptions (store w) !! s_id sub = Some (s_row sub) ∧
  due (clock w) (s_row sub) ∧
  sub = load_sub (store w) (s_id sub, s_row sub).
Proof.
  unfold due_subscriptions. rewrite list_elem_of_fmap. split.
  - intros ([k r] & -> & Hin). apply elem_of_select_where in Hin as [? ?]. done.
  - intros (Hs & He & Hl). exists (s_id sub, s_row sub). split; [done|].
    by apply elem_of_select_where.
Qed.

Lemma elem_of_active_for t w sub :
  sub ∈ active_for t w ↔
  subscriptions (store w) !! s_id sub = Some (s_row sub) ∧
  active_of (store w) (clock w) t (s_row sub) ∧
  sub = load_sub (store w) (s_id sub, s_row sub).
Proof.
  unfold active_for. rewrite list_elem_of_fmap. split.
  - intros ([k r] & -> & Hin). apply elem_of_select_where in Hin as [? ?]. done.
  - intros (Hs & He & Hl). exists (s_id sub, s_row sub). split; [done|].
    by apply elem_of_select_where.
Qed.

Lemma ending_soon_empty_window d w : d ≤ 0 → ending_soon d w = [].
Proof.
  intros Hd. unfold ending_soon.
  assert (select_where (λ kv : Z * Subscription.t, ends_soon (clock w) d kv.2)
            (subscriptions (store w)) = []) as ->; [|done].
  apply select_where_nil. intros k r _ (_ & H1 & H2). simpl in *.
  unfold seconds_per_day in H2. nia.
Qed.

Lemma ending_soon_loaded d w :
  foreign_keys_hold (store w) →
  Forall (λ sub, is_Some (s_user sub) ∧ is_Some (s_chat sub)) (ending_soon d w).
Proof.
  intros Hfk. unfold ending_soon. apply Forall_fmap, Forall_forall.
  intros [k row] Hin. apply elem_of_select_where in Hin as [Hrow _].
  destruct (Hfk k row Hrow) as [[u Hu] [c Hc]].
  simpl. unfold load_user, load_chat. rewrite Hu, Hc. simpl. eauto.
Qed.

Lemma remind_one_run pf sub u c w :
  s_user sub = Some u → s_chat sub = Some c →
  remind_one pf sub w = (Normal tt, advance w [] (reminder_events pf sub)).
Proof.
  intros Hu Hc. unfold remind_one, reminder_events. rewrite Hu, Hc.
  unfold try_except, bind, attr, ret, send_message, advance, emit.
  destruct w as [? [] ? ? ? ?]. destruct (send_ok pf _ _); simpl; by rewrite app_nil_r.
Qed.

Lemma for_each_remind pf L : ∀ w,
  Forall (λ sub, is_Some (s_user sub) ∧ is_Some (s_chat sub)) L →
  for_each L (remind_one pf) w =
  (Normal tt, advance w [] (L ≫= reminder_events pf)).
Proof.
  induction L as [|sub L IH]; intros w HL; simpl.
  - by rewrite advance_nil.
  - apply Forall_cons in HL as [([u Hu] & [c Hc]) HL].
    unfold bind. rewrite (remind_one_run pf sub u c w Hu Hc).
    rewrite IH by done. by rewrite advance_advance.
Qed.

Lemma send_renewal_reminders_run pf w :
  foreign_keys_hold (store w) →
  send_renewal_reminders pf w =
  (Normal tt,
   advance (set_session fresh_session w) []
           (ending_soon (reminder_days_ahead pf) w ≫= reminder_events pf)).
Proof.
  intros Hfk. unfold send_renewal_reminders. run_monad.
  rewrite get_subscriptions_ending_soon_fresh by done.
  match goal with |- context [for_each ?L _ ?w0] =>
    change L with (ending_soon (reminder_days_ahead pf) w);
    rewrite (for_each_remind pf (ending_soon (reminder_days_ahead pf) w) w0)
      by (apply (ending_soon_loaded _ w Hfk))
  end.
  done.
Qed.

Lemma send_renewal_reminders_empty_window pf w :
  reminder_days_ahead pf ≤ 0 →
  send_renewal_reminders pf w = (Normal tt, set_session fresh_session w).
Proof.
  intros Hd. unfold send_renewal_reminders. run_monad.
  rewrite get_subscriptions_ending_soon_fresh by done.
  match goal with |- context [for_each ?L _ ?w0] =>
    change L with (ending_soon (reminder_days_ahead pf) w)
  end.
  rewrite ending_soon_empty_window by done. done.
Qed.

(** ** The list of one's subscriptions *)

Lemma subscription_lines_run pf L : ∀ text w,
  Forall (λ sub, is_Some (s_chat sub)) L →
  subscription_lines pf L text w =
  (Normal (foldl (λ text sub, text +:+ subscription_line pf sub) text L), w).
Proof.
  induction L as [|sub L IH]; intros text w HL; simpl; [done|].
  apply Forall_cons in HL as [[c Hc] HL]. unfold bind. rewrite Hc. simpl.
  rewrite IH by done. unfold subscription_line. rewrite Hc. simpl.
  done.
Qed.

Lemma active_for_loaded t w :
  foreign_keys_hold (store w) →
  Forall (λ sub, is_Some (s_chat sub)) (active_for t w).
Proof.
  intros Hfk. unfold active_for. apply Forall_fmap, Forall_forall.
  intros [k row] Hin. apply elem_of_select_where in Hin as [Hrow _].
  destruct (Hfk k row Hrow) as [_ [c Hc]].
  simpl. unfold load_chat. rewrite Hc. simpl. eauto.
Qed.

(** Nobody's subscriptions when nobody has the Telegram id. *)
Lemma active_for_stranger t w :
  rows_for t (store w) = [] → active_for t w = [].
Proof.
  intros Hnil. unfold active_for.
  assert (select_where
            (λ kv : Z * Subscription.t, active_of (store w) (clock w) t kv.2)
            (subscriptions (store w)) = []) as ->; [|done].
  apply select_where_nil. intros k r _ (Hu & _). simpl in Hu.
  destruct (users (store w) !! Subscription.user_id r) as [u|] eqn:E; [|done].
  simpl in Hu. injection Hu as Hu.
  assert ((Subscription.user_id r, u) ∈ rows_for t (store w)) as Hin
    by by apply rows_for_elem.
  rewrite Hnil in Hin. by apply elem_of_nil in Hin.
Qed.

(** Nor does the row that was just added have any. *)
Lemma active_for_newcomer t w w1 :
  foreign_keys_hold (store w) → rows_for t (store w) = [] →
  store w1 = with_user (store w) (User.new t) →
  active_for t w1 = [].
Proof.
  intros Hfk Hnil Hs. unfold active_for. rewrite Hs.
  assert (select_where
            (λ kv : Z * Subscription.t,
               active_of (with_user (store w) (User.new t)) (clock w1) t kv.2)
            (subscriptions (with_user (store w) (User.new t))) = []) as ->; [|done].
  apply select_where_nil. intros k r Hr (Hu & _). simpl in Hr, Hu.
  destruct (Hfk k r Hr) as [[u Hu'] _].
  rewrite lookup_insert_ne in Hu.
  - rewrite Hu' in Hu. simpl in Hu. injection Hu as Hu.
    assert ((Subscription.user_id r, u) ∈ rows_for t (store w)) as Hin
      by by apply rows_for_elem.
    rewrite Hnil in Hin. by apply elem_of_nil in Hin.
  - intros E. rewrite <- E in Hu'. by rewrite next_id_fresh in Hu'.
Qed.

Lemma user_my_subscriptions_callback_run pf q w :
  let t := tg_id (from_user q) in
  foreign_keys_hold (store w) → unique_telegram_ids (store w) →
  ∃ w', user_my_subscriptions_callback pf q w = (Normal tt, w') ∧
        store w' = match rows_for t (store w) with
                   | [] => with_user (store w) (User.new t)
                   | _ => store w
                   end ∧
        trace w' = trace w ++ [Answered EmptyString] ++
                   match rows_for t (store w) with
                   | [] => [TxCommit]
                   | _ => []
                   end ++
                   [EditMessage (my_subscriptions_text pf (active_for t w))].
Proof.
  intros t Hfk Hu. unfold user_my_subscriptions_callback. fold t. run_monad.
  set (w0 := set_session fresh_session (emit (Answered EmptyString) w)).
  assert (flush (pending (session w0)) (store w0) = Ok (store w, [])) as Hf by done.
  destruct (rows_for_unique t (store w) Hu) as [E|[[k r] E]].
  - destruct (get_user_by_telegram_id_created t w0 _ _ Hf E)
      as (w1 & -> & Hs & Hss & Hc & Ht).
    cbv beta iota. cbn [u_row User.telegram_id User.new].
    rewrite get_active_subscriptions_fresh by (by rewrite Hss).
    rewrite (active_for_newcomer t w w1 Hfk E Hs), (active_for_stranger t w E), E.
    cbn. eexists. split; [reflexivity|]. split; [done|].
    cbn. rewrite Ht. subst w0. cbn. by rewrite <- !app_assoc.
  - rewrite (get_user_by_telegram_id_found t w0 _ _ (k, r) Hf E).
    assert ((k, r) ∈ rows_for t (store w)) as [_ Ht]%rows_for_elem by (rewrite E; left).
    cbv beta iota. cbn [user_obj u_row snd]. rewrite Ht.
    rewrite get_active_subscriptions_fresh by done.
    change (active_for t w0) with (active_for t w). rewrite E.
    unfold my_subscriptions_text.
    destruct (active_for t w) as [|sub L] eqn:EL.
    + cbn. eexists. split; [reflexivity|]. split; [done|].
      cbn. by rewrite <- !app_assoc.
    + rewrite subscription_lines_run
        by (rewrite <- EL; apply (active_for_loaded t w Hfk)).
      cbn. eexists. split; [reflexivity|]. split; [done|].
      cbn. by rewrite <- !app_assoc.
Qed.

(** ** The declared constraints are kept *)


Lemma set_chat_field_telegram_chat_id f c :
  Chat.telegram_chat_id (set_chat_field f c) = Chat.telegram_chat_id c.
Proof. by destruct f, c. Qed.







(** ** How much of the uuid the payment reference keeps *)

Lemma upper_hex_digit_inj a b :
  0 ≤ a < 16 → 0 ≤ b < 16 →
  Py.upper_char (Py.hex_digit a) = Py.upper_char (Py.hex_digit b) → a = b.
Proof.
  intros Ha Hb.
  assert (a = 0 ∨ a = 1 ∨ a = 2 ∨ a = 3 ∨ a = 4 ∨ a = 5 ∨ a = 6 ∨ a = 7 ∨
          a = 8 ∨ a = 9 ∨ a = 10 ∨ a = 11 ∨ a = 12 ∨ a = 13 ∨ a = 14 ∨ a = 15)
    as Ea by lia.
  assert (b = 0 ∨ b = 1 ∨ b = 2 ∨ b = 3 ∨ b = 4 ∨ b = 5 ∨ b = 6 ∨ b = 7 ∨
          b = 8 ∨ b = 9 ∨ b = 10 ∨ b = 11 ∨ b = 12 ∨ b = 13 ∨ b = 14 ∨ b = 15)
    as Eb by lia.
  clear Ha Hb.
  repeat (destruct Ea as [->|Ea]); try subst a;
    repeat (destruct Eb as [->|Eb]); try subst b;
    vm_compute; intros H; try reflexivity; discriminate H.
Qed.

Lemma upper_hex_fixed_eq w n m :
  Py.upper (Py.hex_fixed w n) = Py.upper (Py.hex_fixed w m) ↔
  n mod 16 ^ Z.of_nat w = m mod 16 ^ Z.of_nat w.
Proof.
  induction w as [|w IH].
  - simpl. rewrite !Z.mod_1_r. done.
  - cbn [Py.hex_fixed Py.upper Py.map_chars]. fold (Py.upper (Py.hex_fixed w n)).
    fold (Py.upper (Py.hex_fixed w m)).
    rewrite Nat2Z.inj_succ, Z.pow_succ_r by lia.
    assert (0 < 16 ^ Z.of_nat w) as Hpos by (apply Z.pow_pos_nonneg; lia).
    rewrite (Z.mul_comm 16), !Z.rem_mul_r by lia.
    pose proof (Z.mod_pos_bound (n / 16 ^ Z.of_nat w) 16 ltac:(lia)) as Bn.
    pose proof (Z.mod_pos_bound (m / 16 ^ Z.of_nat w) 16 ltac:(lia)) as Bm.
    pose proof (Z.mod_pos_bound n (16 ^ Z.of_nat w) Hpos) as Cn.
    pose proof (Z.mod_pos_bound m (16 ^ Z.of_nat w) Hpos) as Cm.
    split.
    + intros [= Hd Hr]. apply upper_hex_digit_inj in Hd; [|done..].
      apply IH in Hr. rewrite Hd, Hr. done.
    + intros H.
      assert ((n / 16 ^ Z.of_nat w) mod 16 = (m / 16 ^ Z.of_nat w) mod 16) as Hd.
      { revert H Bn Bm Cn Cm Hpos.
        generalize (16 ^ Z.of_nat w), (n mod 16 ^ Z.of_nat w),
                   (m mod 16 ^ Z.of_nat w), ((n / 16 ^ Z.of_nat w) mod 16),
                   ((m / 16 ^ Z.of_nat w) mod 16).
        intros P rn rm dn dm H Bn Bm Cn Cm Hpos.
        destruct (Z.lt_trichotomy dn dm) as [?|[?|?]]; [nia|done|nia]. }
      assert (n mod 16 ^ Z.of_nat w = m mod 16 ^ Z.of_nat w) as Hr
        by (rewrite Hd in H; lia).
      rewrite Hd. f_equal. by apply IH.
Qed.

Lemma slice_to_hex_fixed k j n :
  Py.slice_to k (Py.hex_fixed (k + j) n) = Py.hex_fixed k (n / 16 ^ Z.of_nat j).
Proof.
  induction k as [|k IH].
  - by destruct (Py.hex_fixed (0 + j) n).
  - cbn [Nat.add Py.hex_fixed Py.slice_to]. rewrite IH. f_equal. f_equal.
    rewrite Z.div_div by (try apply Z.pow_pos_nonneg; lia).
    rewrite <- Z.pow_add_r by lia. f_equal. f_equal. f_equal. lia.
Qed.


(** ** Ids written into callback data come back *)

Lemma int_from_uint_acc d : ∀ acc,
  Py.int_from (Z.pos acc) (NilEmpty.string_of_uint d)
  = Z.pos (Pos.of_uint_acc d acc).
Proof.
  induction d; intros acc; cbn [NilEmpty.string_of_uint Py.int_from Pos.of_uint_acc];
    [done|..];
    match goal with |- Py.int_from ?a _ = _ =>
      match type of IHd with ∀ acc, _ = Z.pos (Pos.of_uint_acc _ acc) =>
        rewrite <- IHd; f_equal; vm_compute Py.code; lia
      end
    end.
Qed.

Lemma int_from_uint d :
  Py.int_from 0 (NilEmpty.string_of_uint d) = Z.of_N (Pos.of_uint d).
Proof.
  induction d; cbn [NilEmpty.string_of_uint Py.int_from Pos.of_uint]; [done|..];
    match goal with |- Py.int_from ?a _ = _ =>
      let a' := eval vm_compute in a in change a with a'
    end;
    [exact IHd|cbn [Z.of_N]; apply int_from_uint_acc..].
Qed.

Lemma all_digits_uint d : Py.all_digits (NilEmpty.string_of_uint d) = true.
Proof. induction d; cbn [NilEmpty.string_of_uint Py.all_digits]; by rewrite ?IHd. Qed.

Lemma str_nonneg n :
  0 ≤ n → ∃ d, d ≠ Decimal.Nil ∧ Py.str n = NilEmpty.string_of_uint d ∧
               Z.of_N (Pos.of_uint d) = n.
Proof.
  intros Hn. destruct n as [|p|p]; [| |lia].
  - exists (Decimal.D0 Decimal.Nil). done.
  - exists (Pos.to_uint p). pose proof (Unsigned.to_uint_nonnil p) as Hnn.
    split; [done|]. split.
    + unfold Py.str. simpl. by destruct (Pos.to_uint p).
    + by rewrite Unsigned.of_to.
Qed.

Lemma int_str n : 0 ≤ n → Py.int (Py.str n) = n.
Proof.
  intros Hn. destruct (str_nonneg n Hn) as (d & _ & -> & <-).
  apply int_from_uint.
Qed.

Lemma isdigit_str n : 0 ≤ n → Py.isdigit (Py.str n) = true.
Proof.
  intros Hn. destruct (str_nonneg n Hn) as (d & Hd & -> & _).
  unfold Py.isdigit. pose proof (all_digits_uint d) as H.
  destruct d; done.
Qed.

Lemma append_nil_r s : s +:+ EmptyString = s.
Proof.
  induction s as [|a s IH]; [done|].
  change (String a (s +:+ EmptyString) = String a s). by rewrite IH.
Qed.

Lemma append_assoc a b c : (a +:+ b) +:+ c = a +:+ (b +:+ c).
Proof.
  induction a as [|x a IH]; [done|].
  change (String x ((a +:+ b) +:+ c) = String x (a +:+ (b +:+ c))). by rewrite IH.
Qed.

Lemma last_field_from_digits s : ∀ cur,
  Py.all_digits s = true → Py.last_field_from cur s = cur +:+ s.
Proof.
  induction s as [|c s IH]; intros cur; cbn [Py.all_digits Py.last_field_from].
  - intros _. by rewrite append_nil_r.
  - intros [Hc Hs]%andb_prop.
    assert (Ascii.eqb c "_" = false) as ->.
    { destruct (Ascii.eqb_spec c "_") as [->|]; [|done]. vm_compute in Hc. done. }
    rewrite IH by done. by rewrite append_assoc.
Qed.

Lemma last_field_from_prefix p s : ∀ cur,
  Py.last_field_from cur (p +:+ "_" +:+ s) = Py.last_field_from EmptyString s.
Proof.
  induction p as [|c p IH]; intros cur; [done|].
  change (String c p +:+ "_" +:+ s) with (String c (p +:+ "_" +:+ s)).
  cbn [Py.last_field_from]. destruct (Ascii.eqb c "_"); apply IH.
Qed.

(** [prefix_{n}] is read back as [n]. *)
Lemma callback_data_round_trip p n :
  0 ≤ n →
  Py.isdigit (Py.last_field (p +:+ "_" +:+ Py.str n)) = true ∧
  Py.int (Py.last_field (p +:+ "_" +:+ Py.str n)) = n.
Proof.
  intros Hn. unfold Py.last_field. rewrite last_field_from_prefix.
  pose proof (isdigit_str n Hn) as Hd.
  rewrite last_field_from_digits.
  - simpl. split; [done|]. by apply int_str.
  - unfold Py.isdigit in Hd. by destruct (Py.str n).
Qed.

(** ** The buttons of the keyboards *)

Lemma subscribe_keyboard_rows pf L : ∀ acc,
  foldl (λ keyboard chat,
           keyboard ++
           [[ {| label := Chat.title (c_row chat) +:+ " - " +:+
                          format_2f pf (Chat.price_amount (c_row chat)) +:+ " " +:+
                          Chat.price_currency (c_row chat);
                 callback_data := "select_chat_" +:+ Py.str (c_id chat) |} ]])
        acc L
  = acc ++ ((λ chat,
       [ {| label := Chat.title (c_row chat) +:+ " - " +:+
                     format_2f pf (Chat.price_amount (c_row chat)) +:+ " " +:+
                     Chat.price_currency (c_row chat);
            callback_data := "select_chat_" +:+ Py.str (c_id chat) |} ]) <$> L).
Proof.
  induction L as [|chat L IH]; intros acc; simpl.
  - by rewrite app_nil_r.
  - rewrite IH. by rewrite <- app_assoc.
Qed.

(** ** The queries in a session of their own *)

Lemma with_session_ending_soon d w :
  (with_session (get_subscriptions_ending_soon d) w).1 = Normal (ending_soon d w).
Proof.
  unfold with_session. by rewrite get_subscriptions_ending_soon_fresh.
Qed.

Lemma with_session_due w :
  (with_session get_expired_subscriptions w).1 = Normal (due_subscriptions w).
Proof.
  unfold with_session. by rewrite get_expired_subscriptions_fresh.
Qed.

Lemma with_session_active t w :
  (with_session (get_active_subscriptions t) w).1 = Normal (active_for t w).
Proof.
  unfold with_session. by rewrite get_active_subscriptions_fresh.
Qed.

(** * Further properties of the handlers, the jobs and the repository *)

(** X1.  [user_subscribe_callback] never changes the store and always ends
    normally with one answer and one edit of the message.  The text is the
    no-chats text exactly when no chat of the store is active, and the
    invitation to select a chat exactly when some chat is active. *)
Theorem user_subscribe_offers_active_chats q w :
  ∃ w' text,
    user_subscribe_callback q w = (Normal tt, w') ∧
    store w' = store w ∧
    said w w' = [Answered EmptyString; EditMessage text] ∧
    (text = "No chats available for subscription at the moment." ↔
     ∀ k c, chats (store w) !! k = Some c → Chat.is_active c = false) ∧
    (text = "Please select a chat to subscribe to:" ↔
     ∃ k c, chats (store w) !! k = Some c ∧ Chat.is_active c = true).
Proof.
  destruct (user_subscribe_callback_run q w) as (w' & E & Hs & _ & Ht).
  exists w'. eexists. split; [exact E|]. split; [exact Hs|].
  split; [by apply said_app|].
  destruct (on_offer (store w)) as [|chat l] eqn:Eo.
  - assert (∀ k c, chats (store w) !! k = Some c → Chat.is_active c = false) as Hoff.
    { intros k c Hk. destruct (Chat.is_active c) eqn:Ha; [|done].
      assert ({| c_id := k; c_row := c |} ∈ on_offer (store w)) as Hin
        by by apply elem_of_on_offer.
      rewrite Eo in Hin. by apply elem_of_nil in Hin. }
    split; [done|]. split; [done|].
    intros (k & c & Hk & Ha). rewrite (Hoff k c Hk) in Ha. done.
  - assert (chat ∈ on_offer (store w)) as [Hk Ha]%elem_of_on_offer
      by (rewrite Eo; left).
    split.
    + split; [done|]. intros Hoff. rewrite (Hoff _ _ Hk) in Ha. done.
    + split; [|done]. intros _. eauto.
Qed.



(** X3.  [execute_remove_chat_callback] on the number of a chat that exists
    and that no subscription refers to removes exactly that chat: afterwards
    the chat is gone, every other chat, every user and every subscription is
    as before, the transaction was committed, and the message says that the
    chat has been removed. *)
Theorem remove_unreferenced_chat_deletes_it pf q w c :
  let id := Py.int (Py.last_field (data q)) in
  Py.isdigit (Py.last_field (data q)) = true →
  chats (store w) !! id = Some c →
  ¬ referenced (store w) id →
  ∃ w', execute_remove_chat_callback pf q w = (Normal tt, w') ∧
        chats (store w') !! id = None ∧
        (∀ k, k ≠ id → chats (store w') !! k = chats (store w) !! k) ∧
        users (store w') = users (store w) ∧
        subscriptions (store w') = subscriptions (store w) ∧
        TxCommit ∈ said w w' ∧
        last_edit (said w w') =
          Some ("Chat DB ID " +:+ Py.str id +:+ " has been removed.").
Proof.
  intros id Hd Hc Href.
  destruct (execute_remove_chat_callback_unreferenced pf q w c Hd Hc Href)
    as (w' & E & Hs & Ht).
  exists w'. split; [exact E|]. rewrite Hs, (said_app _ _ _ Ht). fold id. simpl.
  split; [by rewrite lookup_delete_eq|].
  split; [by intros k Hk; rewrite lookup_delete_ne|].
  split; [done|]. split; [done|]. split; [|done].
  do 2 right. left.
Qed.

Lemma remove_unreferenced_chat_deletes_it_witness :
  let q := Sample.query 1 "admin_execute_remove_chat_2" in
  let id := Py.int (Py.last_field (data q)) in
  Py.isdigit (Py.last_field (data q)) = true ∧
  chats (store Sample.w0) !! id = Some Sample.closed_room ∧
  ¬ referenced (store Sample.w0) id ∧
  ∃ w', execute_remove_chat_callback Sample.pf q Sample.w0 = (Normal tt, w') ∧
        chats (store w') !! id = None ∧
        (∀ k, k ≠ id → chats (store w') !! k = chats (store Sample.w0) !! k) ∧
        users (store w') = users (store Sample.w0) ∧
        subscriptions (store w') = subscriptions (store Sample.w0) ∧
        TxCommit ∈ said Sample.w0 w' ∧
        last_edit (said Sample.w0 w') =
          Some ("Chat DB ID " +:+ Py.str id +:+ " has been removed.").
Proof.
  intros q id.
  assert (Py.isdigit (Py.last_field (data q)) = true) as H1 by reflexivity.
  assert (chats (store Sample.w0) !! id = Some Sample.closed_room) as H2
    by (vm_compute; reflexivity).
  assert (¬ referenced (store Sample.w0) id) as H3.
  { intros (k & r & Hk & Hr).
    assert (has_row (λ r, Subscription.chat_id r = id)
                    (subscriptions (store Sample.w0)) = false) as Hn
      by (vm_compute; reflexivity).
    rewrite has_row_false in Hn. exact (Hn k r Hk Hr). }
  split; [exact H1|]. split; [exact H2|]. split; [exact H3|].
  exact (remove_unreferenced_chat_deletes_it Sample.pf q Sample.w0
           Sample.closed_room H1 H2 H3).
Defined.




(** X6.  The reminder query and the expiry query never pick the same
    subscription at the same time, and a subscription the reminder query
    picks is among the active subscriptions that
    [get_active_subscriptions] gives for its owner. *)
Theorem reminder_and_expiry_queries_apart d w soon over :
  (with_session (get_subscriptions_ending_soon d) w).1 = Normal soon →
  (with_session get_expired_subscriptions w).1 = Normal over →
  ∀ sub, sub ∈ soon →
    (∀ sub', sub' ∈ over → s_id sub' ≠ s_id sub) ∧
    (∀ u, s_user sub = Some u →
       ∃ mine,
         (with_session (get_active_subscriptions (User.telegram_id (u_row u))) w).1
         = Normal mine ∧ sub ∈ mine).
Proof.
  rewrite with_session_ending_soon, with_session_due.
  intros [= <-] [= <-] sub Hsub.
  apply elem_of_ending_soon in Hsub as (Hrow & (Hst & Hlo & Hhi) & Hload).
  split.
  - intros sub' Hsub' Heq.
    apply elem_of_due_subscriptions in Hsub' as (Hrow' & [_ Hdue] & _).
    rewrite Heq, Hrow in Hrow'. injection Hrow' as Er. rewrite <- Er in Hdue. lia.
  - intros u Hu. eexists. split; [apply with_session_active|].
    apply elem_of_active_for. split; [done|]. split; [|done].
    split; [|done].
    rewrite Hload in Hu. simpl in Hu. unfold load_user in Hu.
    destruct (users (store w) !! Subscription.user_id (s_row sub)) as [r|]; [|done].
    simpl in Hu. injection Hu as <-. done.
Qed.

Lemma reminder_and_expiry_queries_apart_witness :
  let w := Cases.w_early in
  let sub := load_sub (store w) (3, Sample.sub 1 1 900 "active") in
  ∃ soon over,
    (with_session (get_subscriptions_ending_soon 3) w).1 = Normal soon ∧
    (with_session get_expired_subscriptions w).1 = Normal over ∧
    sub ∈ soon ∧
    (∀ sub', sub' ∈ over → s_id sub' ≠ s_id sub) ∧
    (∀ u, s_user sub = Some u →
       ∃ mine,
         (with_session (get_active_subscriptions (User.telegram_id (u_row u))) w).1
         = Normal mine ∧ sub ∈ mine).
Proof.
  intros w sub.
  destruct (with_session (get_subscriptions_ending_soon 3) w).1 as [soon| |] eqn:E1;
    [|vm_compute in E1; discriminate..].
  destruct (with_session get_expired_subscriptions w).1 as [over| |] eqn:E2;
    [|vm_compute in E2; discriminate..].
  assert (sub ∈ soon) as Hin.
  { vm_compute in E1. injection E1 as <-. vm_compute. left. }
  exists soon, over. split; [reflexivity|]. split; [reflexivity|].
  split; [exact Hin|].
  exact (reminder_and_expiry_queries_apart 3 w soon over E1 E2 sub Hin).
Defined.

(** X7.  With [REMINDER_DAYS_AHEAD] zero or negative the reminder job finds
    nothing and sends nothing: it ends normally and leaves the store and the
    trace as they were. *)
Theorem reminders_need_a_window pf w :
  reminder_days_ahead pf ≤ 0 →
  ∃ w', send_renewal_reminders pf w = (Normal tt, w') ∧
        store w' = store w ∧ said w w' = [] ∧
        (with_session (get_subscriptions_ending_soon (reminder_days_ahead pf)) w).1
        = Normal [].
Proof.
  intros Hd. rewrite (send_renewal_reminders_empty_window pf w Hd).
  eexists. split; [reflexivity|]. split; [done|]. split.
  - apply said_app. simpl. by rewrite app_nil_r.
  - rewrite with_session_ending_soon. f_equal. by apply ending_soon_empty_window.
Qed.

Lemma reminders_need_a_window_witness :
  reminder_days_ahead Cases.pf_no_window ≤ 0 ∧
  ∃ w', send_renewal_reminders Cases.pf_no_window Cases.w_early = (Normal tt, w') ∧
        store w' = store Cases.w_early ∧ said Cases.w_early w' = [] ∧
        (with_session (get_subscriptions_ending_soon
                         (reminder_days_ahead Cases.pf_no_window)) Cases.w_early).1
        = Normal [].
Proof.
  assert (reminder_days_ahead Cases.pf_no_window ≤ 0) as H by (vm_compute; discriminate).
  split; [exact H|].
  exact (reminders_need_a_window Cases.pf_no_window Cases.w_early H).
Defined.

(** X8.  On a store whose subscriptions all have their user and their chat,
    the reminder job ends normally and leaves the store as it was; what it
    says is, for each subscription that [get_subscriptions_ending_soon]
    gives, in that order, one attempt to message the subscriber with the
    chat title and the end date, delivered or failed, and nothing else: a
    failed delivery does not stop the later ones. *)
Theorem reminders_one_attempt_each pf w :
  foreign_keys_hold (store w) →
  ∃ w' soon,
    (with_session (get_subscriptions_ending_soon (reminder_days_ahead pf)) w).1
    = Normal soon ∧
    send_renewal_reminders pf w = (Normal tt, w') ∧
    store w' = store w ∧
    said w w' = soon ≫= reminder_events pf ∧
    length (said w w') = length soon ∧
    Forall (λ sub, ∃ u c e,
              s_user sub = Some u ∧ s_chat sub = Some c ∧
              reminder_events pf sub = [e] ∧ is_send e = true) soon.
Proof.
  intros Hfk. rewrite (send_renewal_reminders_run pf w Hfk).
  eexists. exists (ending_soon (reminder_days_ahead pf) w).
  assert (Forall (λ sub, ∃ u c e,
              s_user sub = Some u ∧ s_chat sub = Some c ∧
              reminder_events pf sub = [e] ∧ is_send e = true)
            (ending_soon (reminder_days_ahead pf) w)) as Hall.
  { eapply Forall_impl; [apply (ending_soon_loaded _ w Hfk)|].
    intros sub [[u Hu] [c Hc]]. exists u, c. unfold reminder_events.
    rewrite Hu, Hc. eexists. split; [done|]. split; [done|]. split; [done|].
    by destruct (send_ok pf _ _). }
  assert (said w (advance (set_session fresh_session w) []
                    (ending_soon (reminder_days_ahead pf) w ≫= reminder_events pf))
          = ending_soon (reminder_days_ahead pf) w ≫= reminder_events pf) as Hsaid
    by by apply said_app.
  split; [apply with_session_ending_soon|].
  split; [reflexivity|]. split; [done|]. split; [exact Hsaid|].
  split; [|exact Hall].
  rewrite Hsaid. clear Hsaid.
  induction Hall as [|sub L (u & c & e & _ & _ & He & _) _ IH]; [done|].
  rewrite bind_cons, He. simpl. by rewrite IH.
Qed.

Lemma reminders_one_attempt_each_witness :
  foreign_keys_hold (store Cases.w_early) ∧
  ∃ w' soon,
    (with_session (get_subscriptions_ending_soon
                     (reminder_days_ahead Sample.pf_555_unreachable))
                  Cases.w_early).1 = Normal soon ∧
    send_renewal_reminders Sample.pf_555_unreachable Cases.w_early = (Normal tt, w') ∧
    store w' = store Cases.w_early ∧
    said Cases.w_early w' = soon ≫= reminder_events Sample.pf_555_unreachable ∧
    length (said Cases.w_early w') = length soon ∧
    Forall (λ sub, ∃ u c e,
              s_user sub = Some u ∧ s_chat sub = Some c ∧
              reminder_events Sample.pf_555_unreachable sub = [e] ∧
              is_send e = true) soon.
Proof.
  assert (foreign_keys_hold (store Cases.w_early)) as H
    by (apply (bool_decide_unpack _); vm_compute; exact I).
  split; [exact H|].
  exact (reminders_one_attempt_each Sample.pf_555_unreachable Cases.w_early H).
Defined.

(** X9.  On a store that keeps the foreign keys and the uniqueness of
    Telegram ids, [user_my_subscriptions_callback] ends normally.  For a
    caller without a user row it adds exactly the row of a new user with the
    caller's Telegram id, commits, and shows the no-subscriptions text; for a
    caller with a row it leaves the store as it was and shows the text built
    from what [get_active_subscriptions] gives for the caller. *)
Theorem my_subscriptions_shows_active pf q w :
  let t := tg_id (from_user q) in
  foreign_keys_hold (store w) → unique_telegram_ids (store w) →
  ∃ w' mine,
    (with_session (get_active_subscriptions t) w).1 = Normal mine ∧
    user_my_subscriptions_callback pf q w = (Normal tt, w') ∧
    last_edit (said w w') = Some (my_subscriptions_text pf mine) ∧
    Forall (λ e, is_send e = false) (said w w') ∧
    (rows_for t (store w) = [] →
       store w' = with_user (store w) (User.new t) ∧ mine = [] ∧
       TxCommit ∈ said w w') ∧
    (rows_for t (store w) ≠ [] → store w' = store w).
Proof.
  intros t Hfk Hu.
  destruct (user_my_subscriptions_callback_run pf q w Hfk Hu) as (w' & E & Hs & Ht).
  fold t in Hs, Ht. exists w', (active_for t w).
  split; [apply with_session_active|].
  split; [exact E|]. rewrite (said_app _ _ _ Ht).
  destruct (rows_for t (store w)) as [|kv l] eqn:Er.
  - split; [done|]. split; [repeat constructor|]. split; [|done].
    intros _. split; [done|]. split; [by apply active_for_stranger|].
    right. left.
  - split; [done|]. split; [repeat constructor|]. split; [done|]. done.
Qed.

Lemma my_subscriptions_shows_active_witness :
  let q := Sample.query 999 "user_my_subscriptions" in
  let t := tg_id (from_user q) in
  foreign_keys_hold (store Sample.w0) ∧ unique_telegram_ids (store Sample.w0) ∧
  ∃ w' mine,
    (with_session (get_active_subscriptions t) Sample.w0).1 = Normal mine ∧
    user_my_subscriptions_callback Sample.pf q Sample.w0 = (Normal tt, w') ∧
    last_edit (said Sample.w0 w') = Some (my_subscriptions_text Sample.pf mine) ∧
    Forall (λ e, is_send e = false) (said Sample.w0 w') ∧
    (rows_for t (store Sample.w0) = [] →
       store w' = with_user (store Sample.w0) (User.new t) ∧ mine = [] ∧
       TxCommit ∈ said Sample.w0 w') ∧
    (rows_for t (store Sample.w0) ≠ [] → store w' = store Sample.w0).
Proof.
  intros q t.
  assert (foreign_keys_hold (store Sample.w0)) as H1
    by (apply (bool_decide_unpack _); vm_compute; exact I).
  assert (unique_telegram_ids (store Sample.w0)) as H2
    by (apply (bool_decide_unpack _); vm_compute; exact I).
  split; [exact H1|]. split; [exact H2|].
  exact (my_subscriptions_shows_active Sample.pf q Sample.w0 H1 H2).
Defined.



(** X11.  The payment reference keeps bits 88 to 127 of the uuid it is cut
    from and nothing else: two uuids give the same reference exactly when
    they agree on those forty bits. *)
Theorem payment_reference_keeps_forty_bits u u' :
  payment_reference_of u = payment_reference_of u' ↔
  (u / 2 ^ 88) mod 2 ^ 40 = (u' / 2 ^ 88) mod 2 ^ 40.
Proof.
  unfold payment_reference_of, Py.uuid_hex.
  rewrite !(slice_to_hex_fixed 10 22).
  change (16 ^ Z.of_nat 22) with (2 ^ 88).
  rewrite <- (upper_hex_fixed_eq 10). change (16 ^ Z.of_nat 10) with (2 ^ 40).
  split.
  - intros H. by apply (String.app_inj "PAYREF-") in H.
  - intros ->. done.
Qed.

(** X12.  The ids the keyboards write into callback data are read back by
    the handlers' parsing ([split('_')[-1]], [isdigit], [int]): for every
    chat with a key that is not negative, the keyboard of
    [user_subscribe_callback] has a row with one button whose data parses to
    the chat's key; the confirm button of the payment keyboard parses to the
    subscription's key; and both keyboards end with the way back. *)
Theorem keyboard_ids_come_back pf available_chats chat new_subscription_id :
  chat ∈ available_chats → 0 ≤ c_id chat → 0 ≤ new_subscription_id →
  (∃ b, [b] ∈ subscribe_keyboard pf available_chats ∧
        Py.starts_with "select_chat_" (callback_data b) = true ∧
        Py.isdigit (Py.last_field (callback_data b)) = true ∧
        Py.int (Py.last_field (callback_data b)) = c_id chat) ∧
  (∃ b rest, payment_keyboard new_subscription_id = [b] :: rest ∧
        Py.starts_with "confirm_payment_" (callback_data b) = true ∧
        Py.isdigit (Py.last_field (callback_data b)) = true ∧
        Py.int (Py.last_field (callback_data b)) = new_subscription_id) ∧
  last (subscribe_keyboard pf available_chats)
  = Some [ {| label := "<< Back to User Panel";
              callback_data := "user_panel_return" |} ] ∧
  length (subscribe_keyboard pf available_chats)
  = S (length available_chats).
Proof.
  intros Hin Hc Hn. unfold subscribe_keyboard. rewrite subscribe_keyboard_rows.
  simpl. split_and!.
  - eexists. split.
    + apply elem_of_app. left. apply list_elem_of_fmap. exists chat. split; [reflexivity|done].
    + cbn [callback_data]. split; [done|].
      exact (callback_data_round_trip "select_chat" (c_id chat) Hc).
  - eexists _, _. split; [reflexivity|]. cbn [callback_data]. split; [done|].
    exact (callback_data_round_trip "confirm_payment" new_subscription_id Hn).
  - by rewrite last_snoc.
  - rewrite length_app, length_fmap. simpl. lia.
Qed.

Lemma keyboard_ids_come_back_witness :
  let chat := {| c_id := 1; c_row := Sample.vip |} in
  chat ∈ [chat] ∧ 0 ≤ c_id chat ∧ 0 ≤ 6 ∧
  (∃ b, [b] ∈ subscribe_keyboard Sample.pf [chat] ∧
        Py.starts_with "select_chat_" (callback_data b) = true ∧
        Py.isdigit (Py.last_field (callback_data b)) = true ∧
        Py.int (Py.last_field (callback_data b)) = c_id chat) ∧
  (∃ b rest, payment_keyboard 6 = [b] :: rest ∧
        Py.starts_with "confirm_payment_" (callback_data b) = true ∧
        Py.isdigit (Py.last_field (callback_data b)) = true ∧
        Py.int (Py.last_field (callback_data b)) = 6) ∧
  last (subscribe_keyboard Sample.pf [chat])
  = Some [ {| label := "<< Back to User Panel";
              callback_data := "user_panel_return" |} ] ∧
  length (subscribe_keyboard Sample.pf [chat]) = S (length [chat]).
Proof.
  intros chat.
  assert (chat ∈ [chat]) as H1 by left.
  assert (0 ≤ c_id chat) as H2 by (vm_compute; discriminate).
  assert (0 ≤ 6) as H3 by lia.
  split; [exact H1|]. split; [exact H2|]. split; [exact H3|].
  exact (keyboard_ids_come_back Sample.pf [chat] chat 6 H1 H2 H3).
Defined.

(** ** The admin gate *)

Lemma is_admin_admits pf ids {A} (func : Update → M A) update u w :
  effective_user update = Some u → tg_id u ∈ ids →
  is_admin pf (AsDict (Some ids)) func update w
  = (let* r := func update in ret (Some r)) w.
Proof.
  intros Hu Hin. unfold is_admin. rewrite Hu. simpl. unfold bind at 1. simpl.
  rewrite bool_decide_eq_false_2 by (intros ->; by apply elem_of_nil in Hin).
  rewrite bool_decide_eq_false_2 by (intros Hn; by apply Hn).
  done.
Qed.

Lemma deny_frame pf update a b w :
  ∃ r w', deny pf update a b w = (r, w') ∧
          store w' = store w ∧ session w' = session w ∧
          Forall (λ e, is_notice e = true) (said w w').
Proof.
  unfold deny, reply_text, send_message, answer.
  destruct (callback_query update) as [q|]; [|destruct (message update) as [c|]].
  - eexists _, _. split; [reflexivity|]. split; [done|]. split; [done|].
    rewrite (said_app w _ [Answered a]) by done. by repeat constructor.
  - destruct (send_ok pf c b); eexists _, _; (split; [reflexivity|]);
      (split; [done|]); (split; [done|]).
    + rewrite (said_app w _ [SendMessage c b]) by done. by repeat constructor.
    + rewrite (said_app w _ [SendFailed c b]) by done. by repeat constructor.
  - eexists _, _. split; [reflexivity|]. split; [done|]. split; [done|].
    rewrite (said_app w _ []) by (by rewrite app_nil_r). constructor.
Qed.

Lemma is_admin_refuses pf ids {A} (func : Update → M A) update w :
  (∀ u, effective_user update = Some u → tg_id u ∉ default [] ids) →
  ∃ r w', is_admin pf (AsDict ids) func update w = (r, w') ∧
          (∀ a, r ≠ Normal (Some a)) ∧
          store w' = store w ∧ session w' = session w ∧
          Forall (λ e, is_notice e = true) (said w w') ∧
          ∀ B (other : Update → M B),
            (is_admin pf (AsDict ids) other update w).2 = w'.
Proof.
  intros Hout.
  destruct (deny_frame pf update "Admin IDs not configured."
              "Access Denied: Admin functionality is not configured." w)
    as (r1 & w1 & E1 & Hs1 & Hss1 & Ht1).
  destruct (deny_frame pf update "Access Denied."
              "Access Denied. You are not authorized for this command." w)
    as (r2 & w2 & E2 & Hs2 & Hss2 & Ht2).
  unfold is_admin, get_admin_user_ids, bind, ret.
  destruct (effective_user update) as [u|] eqn:Hu.
  - specialize (Hout u eq_refl).
    destruct (bool_decide (default [] ids = [])).
    + rewrite E1. destruct r1 as [[]| |e]; eexists _, w1; split_and!; done.
    + rewrite bool_decide_eq_true_2 by done. rewrite E2.
      destruct r2 as [[]| |e]; eexists _, w2; split_and!; done.
  - unfold answer.
    destruct (callback_query update) as [q|]; eexists _, _;
      (split; [reflexivity|]); (split; [done|]); split_and!; try done.
    + rewrite (said_app w _ [Answered "Error: Could not identify user."]) by done.
      by repeat constructor.
    + rewrite (said_app w _ []) by (by rewrite app_nil_r). constructor.
Qed.

(** ** The list of chats *)

Lemma list_chats_callback_func_run update q w :
  callback_query update = Some q →
  ∃ w', list_chats_callback_func update w = (Normal tt, w') ∧
        store w' = store w ∧ session w' = fresh_session ∧
        trace w' = trace w ++ [Answered EmptyString] ++
          (if effective_message update
           then [EditMessage (list_chats_view (on_offer (store w))).1]
           else []).
Proof.
  intros Hq. unfold list_chats_callback_func. rewrite Hq. run_monad.
  rewrite get_all_managed_chats_fresh by done. cbn [store set_session emit].
  destruct (effective_message update); eexists; (split; [reflexivity|]);
    simpl; rewrite <- ?app_assoc; done.
Qed.
(** ** Turning a chat on and off *)

Lemma alter_at {A} (f : A → A) (m : gmap Z A) id c :
  m !! id = Some c → alter f id m = <[id := f c]> m.
Proof.
  intros H. apply map_eq. intros k. rewrite lookup_alter, lookup_insert.
  case_decide; subst; [by rewrite H|done].
Qed.


Lemma update_chat_details_fresh id f w c :
  pending (session w) = [] → chats (store w) !! id = Some c →
  hasattr_chat f = true →
  update_chat_details id [f] w
  = (Normal (Some {| c_id := id; c_row := set_chat_field f c |}),
     advance w [SetChatField id f] []).
Proof.
  intros Hp Hc Hf. unfold update_chat_details, bind.
  rewrite get_chat_by_id_fresh by done. unfold load_chat. rewrite Hc. simpl.
  rewrite Hf. unfold bind, stage, ret, advance, set_session. simpl.
  rewrite Hp. simpl. by rewrite app_nil_r.
Qed.

Lemma toggle_chat_status_callback_func_run pf ids update q u w c :
  let id := Py.int (Py.last_field (data q)) in
  callback_query update = Some q →
  effective_user update = Some u → tg_id u ∈ ids →
  Py.isdigit (Py.last_field (data q)) = true →
  chats (store w) !! id = Some c →
  ∃ w', toggle_chat_status_callback_func pf (AsDict (Some ids)) update w
        = (Normal tt, w') ∧
        store w' = {| users := users (store w);
                      chats := <[id := toggled c]> (chats (store w));
                      subscriptions := subscriptions (store w) |} ∧
        session w' = fresh_session ∧
        trace w' = trace w ++
          [Answered EmptyString; TxBegin; TxCommit; Answered EmptyString] ++
          (if effective_message update
           then [EditMessage (list_chats_view (on_offer (store w'))).1]
           else []).
Proof.
  intros id Hq Hu Hin Hd Hc.
  unfold toggle_chat_status_callback_func. rewrite Hq. fold id. run_monad.
  rewrite Hd. simpl (negb _). cbv beta iota.
  rewrite get_chat_by_id_fresh by done. unfold load_chat.
  cbn [store set_session emit]. rewrite Hc. cbn [fmap option_fmap option_map].
  cbv beta iota. cbn [c_row].
  rewrite (update_chat_details_fresh _ _ _ c) by done.
  unfold commit. cbn [pending session advance app set_session emit fresh_session].
  cbn [flush flush1 store advance set_session emit set_store session tx_active
       closed_tx pending].
  cbv beta iota.
  unfold list_chats_callback.
  rewrite (is_admin_admits pf ids list_chats_callback_func update u _ Hu Hin).
  unfold bind at 1.
  match goal with |- context [list_chats_callback_func update ?w0] =>
    destruct (list_chats_callback_func_run update q w0 Hq)
      as (w' & E & Hs & Hss & Ht); rewrite E
  end.
  cbv beta iota. unfold ret. eexists. split; [reflexivity|].
  rewrite Hs, Ht. cbn. rewrite (alter_at _ _ _ c Hc). fold (toggled c).
  split; [done|]. split; [done|]. rewrite <- !app_assoc. done.
Qed.
Lemma toggle_chat_status_callback_func_nothing pf settings update q w :
  let s := Py.last_field (data q) in
  callback_query update = Some q →
  Py.isdigit s = false ∨ chats (store w) !! Py.int s = None →
  ∃ w', toggle_chat_status_callback_func pf settings update w = (Normal tt, w') ∧
        store w' = store w ∧
        trace w' = trace w ++
          (if Py.isdigit s
           then [Answered EmptyString; TxBegin; EditMessage "Chat not found.";
                 TxCommit]
           else [Answered "Invalid chat ID."]).
Proof.
  intros s Hq H. unfold toggle_chat_status_callback_func. rewrite Hq. fold s.
  run_monad.
  destruct (Py.isdigit s) eqn:Hd; simpl (negb _); cbv beta iota.
  2: { eexists. split; [reflexivity|]. by simpl. }
  destruct H as [?|Hc]; [done|].
  rewrite get_chat_by_id_fresh by done. unfold load_chat.
  cbn [store set_session emit]. rewrite Hc. cbn.
  eexists. split; [reflexivity|]. split; [done|].
  simpl. rewrite <- !app_assoc. done.
Qed.

(** ** Creating a chat, or updating the one there is *)




(** ** The view of the list *)

Lemma list_chats_view_fold L : ∀ text keyboard,
  foldl (λ '(message_text, keyboard) chat_item,
           (message_text +:+
              ("- " +:+ Chat.title (c_row chat_item) +:+ " (ID: " +:+
               Py.str (Chat.telegram_chat_id (c_row chat_item)) +:+
               ", DB_ID: " +:+ Py.str (c_id chat_item) +:+ ")" +:+ nl),
            keyboard ++ [chat_buttons chat_item]))
        (text, keyboard) L
  = (foldl (λ message_text chat_item,
              message_text +:+
                ("- " +:+ Chat.title (c_row chat_item) +:+ " (ID: " +:+
                 Py.str (Chat.telegram_chat_id (c_row chat_item)) +:+
                 ", DB_ID: " +:+ Py.str (c_id chat_item) +:+ ")" +:+ nl))
           text L,
     keyboard ++ (chat_buttons <$> L)).
Proof.
  induction L as [|chat L IH]; intros text keyboard; simpl.
  - by rewrite app_nil_r.
  - rewrite IH. by rewrite <- app_assoc.
Qed.

Lemma list_chats_view_rows L row :
  row ∈ (list_chats_view L).2 →
  (∃ chat, chat ∈ L ∧ row = chat_buttons chat) ∨
  row = [ back_to_chat_management ] ∨
  row = [ {| label := "Add New Chat"; callback_data := "admin_add_chat_start" |} ].
Proof.
  unfold list_chats_view. destruct L as [|c L].
  - simpl. intros [->|[->|[]%elem_of_nil]%elem_of_cons]%elem_of_cons; eauto.
  - rewrite list_chats_view_fold. cbn [snd app].
    intros [Hin|Hin%list_elem_of_singleton]%elem_of_app; [|eauto].
    apply list_elem_of_fmap in Hin as (chat & -> & Hin). eauto.
Qed.

Lemma toggled_toggled c : toggled (toggled c) = c.
Proof. destruct c as [? ? ? ? ? ? []]; done. Qed.

Lemma toggled_is_active c : Chat.is_active (toggled c) = negb (Chat.is_active c).
Proof. by destruct c. Qed.

(** X13.  The gate [is_admin] keeps everybody else out: when the update
    has no user, or its user is not in the configured [ADMIN_USER_IDS] (or
    none are configured), the wrapped handler is not run.  The wrapper does
    not answer with a result of the handler, the store and the session are
    as before, all it says is an answer to the callback query or a reply to
    the message, and the world it leaves is the same whatever the
    handler. *)
Theorem admin_gate_keeps_others_out pf ids {A} (func : Update → M A) update w :
  (∀ u, effective_user update = Some u → tg_id u ∉ default [] ids) →
  ∃ r w', is_admin pf (AsDict ids) func update w = (r, w') ∧
          (∀ a, r ≠ Normal (Some a)) ∧
          store w' = store w ∧ session w' = session w ∧
          Forall (λ e, is_notice e = true) (said w w') ∧
          ∀ B (other : Update → M B),
            (is_admin pf (AsDict ids) other update w).2 = w'.
Proof.
  intros Hout.
  destruct (is_admin_refuses pf ids func update w Hout)
    as (r & w' & E & Hr & Hs & Hss & Ht & Hany).
  exists r, w'. split_and!; done.
Qed.

Lemma admin_gate_keeps_others_out_witness :
  let update := callback_update (Sample.query 555 "admin_execute_remove_chat_2") in
  let func := λ update : Update,
                match callback_query update with
                | Some query => execute_remove_chat_callback Sample.pf query
                | None => raise (AttributeError "from_user")
                end in
  (∀ u, effective_user update = Some u → tg_id u ∉ default [] (Some [1; 2])) ∧
  ∃ r w', is_admin Sample.pf (AsDict (Some [1; 2])) func update Sample.w0 = (r, w') ∧
          (∀ a, r ≠ Normal (Some a)) ∧
          store w' = store Sample.w0 ∧ session w' = session Sample.w0 ∧
          Forall (λ e, is_notice e = true) (said Sample.w0 w') ∧
          ∀ B (other : Update → M B),
            (is_admin Sample.pf (AsDict (Some [1; 2])) other update Sample.w0).2 = w'.
Proof.
  intros update func.
  assert (∀ u, effective_user update = Some u → tg_id u ∉ default [] (Some [1; 2]))
    as H.
  { intros u [= <-]. apply (bool_decide_unpack _). vm_compute. exact I. }
  split; [exact H|].
  exact (admin_gate_keeps_others_out Sample.pf (Some [1; 2]) func update Sample.w0 H).
Defined.

(** X14.  [main.py] stores the [Settings] object itself under
    [bot_data['settings']], and [is_admin] calls [get] on what it finds
    there.  With that object in place every gated handler stops in the gate
    for every update that has a user, admin or not: it raises
    [AttributeError], and nothing is answered, begun or written. *)
Theorem admin_handlers_stop_at_settings_object pf ids chat_info update u w :
  effective_user update = Some u →
  list_chats_callback pf (AsSettings ids) update w
    = (Raised (AttributeError "get"), w) ∧
  toggle_chat_status_callback pf (AsSettings ids) update w
    = (Raised (AttributeError "get"), w) ∧
  confirm_create_chat_callback pf (AsSettings ids) chat_info update w
    = (Raised (AttributeError "get"), w) ∧
  execute_remove_chat_callback_gated pf (AsSettings ids) update w
    = (Raised (AttributeError "get"), w).
Proof.
  intros Hu.
  unfold list_chats_callback, toggle_chat_status_callback,
    confirm_create_chat_callback, execute_remove_chat_callback_gated, is_admin.
  rewrite Hu. split_and!; reflexivity.
Qed.

Lemma admin_handlers_stop_at_settings_object_witness :
  let update := callback_update (Sample.query 1 "admin_toggle_chat_1") in
  effective_user update = Some (from_user (Sample.query 1 "admin_toggle_chat_1")) ∧
  list_chats_callback Sample.pf (AsSettings [1]) update Sample.w0
    = (Raised (AttributeError "get"), Sample.w0) ∧
  toggle_chat_status_callback Sample.pf (AsSettings [1]) update Sample.w0
    = (Raised (AttributeError "get"), Sample.w0) ∧
  confirm_create_chat_callback Sample.pf (AsSettings [1]) None update Sample.w0
    = (Raised (AttributeError "get"), Sample.w0) ∧
  execute_remove_chat_callback_gated Sample.pf (AsSettings [1]) update Sample.w0
    = (Raised (AttributeError "get"), Sample.w0).
Proof.
  intros update.
  assert (effective_user update
          = Some (from_user (Sample.query 1 "admin_toggle_chat_1"))) as H
    by reflexivity.
  split; [exact H|].
  exact (admin_handlers_stop_at_settings_object Sample.pf [1] None update _
           Sample.w0 H).
Defined.

(** X15.  For an admin, [toggle_chat_status_callback] on the number of a
    chat that exists turns that chat's [is_active] and nothing else: the row
    keeps its other fields, every other chat, every user and every
    subscription is as before.  The list it then shows is the one of the new
    store, so a chat that was active is no longer in it; and a second toggle
    brings the store back to what it was. *)
Theorem toggle_flips_one_flag pf ids q w c :
  let id := Py.int (Py.last_field (data q)) in
  let update := callback_update q in
  tg_id (from_user q) ∈ ids →
  Py.isdigit (Py.last_field (data q)) = true →
  chats (store w) !! id = Some c →
  ∃ w', toggle_chat_status_callback pf (AsDict (Some ids)) update w
        = (Normal (Some tt), w') ∧
        chats (store w') !! id = Some (toggled c) ∧
        Chat.is_active (toggled c) = negb (Chat.is_active c) ∧
        set_chat_field (IsActive (Chat.is_active c)) (toggled c) = c ∧
        (∀ k, k ≠ id → chats (store w') !! k = chats (store w) !! k) ∧
        users (store w') = users (store w) ∧
        subscriptions (store w') = subscriptions (store w) ∧
        (has_message q = true →
         last_edit (said w w') = Some (list_chats_view (on_offer (store w'))).1) ∧
        (Chat.is_active c = true →
         ∀ chat, chat ∈ on_offer (store w') → c_id chat ≠ id) ∧
        store (toggle_chat_status_callback pf (AsDict (Some ids)) update w').2
        = store w.
Proof.
  intros id update Hin Hd Hc.
  assert (callback_query update = Some q) as Hq by done.
  assert (effective_user update = Some (from_user q)) as Hu by done.
  destruct (toggle_chat_status_callback_func_run pf ids update q _ w c Hq Hu Hin Hd Hc)
    as (w' & E & Hs & _ & Ht).
  fold id in Hs.
  assert (chats (store w') !! id = Some (toggled c)) as Hc'
    by (rewrite Hs; simpl; by rewrite lookup_insert_eq).
  destruct (toggle_chat_status_callback_func_run pf ids update q _ w' (toggled c)
              Hq Hu Hin Hd Hc') as (w'' & E' & Hs' & _ & _).
  fold id in Hs'.
  exists w'. unfold toggle_chat_status_callback.
  rewrite !(is_admin_admits pf ids _ update _ _ Hu Hin). unfold bind.
  rewrite E, E'. split; [done|]. split; [exact Hc'|].
  split; [apply toggled_is_active|].
  split; [by destruct c as [? ? ? ? ? ? []]|].
  split; [intros k Hk; rewrite Hs; simpl; by rewrite lookup_insert_ne|].
  split; [by rewrite Hs|]. split; [by rewrite Hs|].
  split.
  { intros Hm. rewrite (said_app _ _ _ Ht).
    change (effective_message update) with (has_message q). rewrite Hm. done. }
  split.
  { intros Ha chat [Hk Hact]%elem_of_on_offer Heq.
    rewrite Heq, Hc' in Hk. injection Hk as Hk.
    rewrite <- Hk, toggled_is_active, Ha in Hact. done. }
  simpl. rewrite Hs', Hs. simpl. rewrite toggled_toggled.
  destruct (store w) as [us cs ss]. simpl in *. f_equal.
  apply map_eq. intros k. rewrite !lookup_insert.
  case_decide; subst; done.
Qed.

Lemma toggle_flips_one_flag_witness :
  let q := Sample.query 1 "admin_toggle_chat_1" in
  let id := Py.int (Py.last_field (data q)) in
  let update := callback_update q in
  tg_id (from_user q) ∈ [1; 2] ∧
  Py.isdigit (Py.last_field (data q)) = true ∧
  chats (store Sample.w0) !! id = Some Sample.vip ∧
  ∃ w', toggle_chat_status_callback Sample.pf (AsDict (Some [1; 2])) update Sample.w0
        = (Normal (Some tt), w') ∧
        chats (store w') !! id = Some (toggled Sample.vip) ∧
        Chat.is_active (toggled Sample.vip) = negb (Chat.is_active Sample.vip) ∧
        set_chat_field (IsActive (Chat.is_active Sample.vip)) (toggled Sample.vip)
        = Sample.vip ∧
        (∀ k, k ≠ id → chats (store w') !! k = chats (store Sample.w0) !! k) ∧
        users (store w') = users (store Sample.w0) ∧
        subscriptions (store w') = subscriptions (store Sample.w0) ∧
        (has_message q = true →
         last_edit (said Sample.w0 w')
         = Some (list_chats_view (on_offer (store w'))).1) ∧
        (Chat.is_active Sample.vip = true →
         ∀ chat, chat ∈ on_offer (store w') → c_id chat ≠ id) ∧
        store (toggle_chat_status_callback Sample.pf (AsDict (Some [1; 2]))
                 update w').2
        = store Sample.w0.
Proof.
  intros q id update.
  assert (tg_id (from_user q) ∈ [1; 2]) as H1 by left.
  assert (Py.isdigit (Py.last_field (data q)) = true) as H2 by reflexivity.
  assert (chats (store Sample.w0) !! id = Some Sample.vip) as H3
    by (vm_compute; reflexivity).
  split; [exact H1|]. split; [exact H2|]. split; [exact H3|].
  exact (toggle_flips_one_flag Sample.pf [1; 2] q Sample.w0 Sample.vip H1 H2 H3).
Defined.

(** X16.  The list of chats [list_chats_callback] shows is built from the
    active chats only, so a chat that was turned off is not in it, and the
    toggle button of every chat in it reads [Deactivate]: nothing in the
    list turns a chat on again.  The handler itself leaves the store as it
    was; a toggle with bad callback data or for a chat that is not there
    changes nothing either. *)
Theorem chat_list_shows_active_chats_only pf settings update q w :
  callback_query update = Some q →
  (∃ w', list_chats_callback_func update w = (Normal tt, w') ∧
         store w' = store w ∧
         said w w' = [Answered EmptyString] ++
           (if effective_message update
            then [EditMessage (list_chats_view (on_offer (store w))).1]
            else [])) ∧
  (∀ chat, chat ∈ on_offer (store w) ↔
           chats (store w) !! c_id chat = Some (c_row chat) ∧
           Chat.is_active (c_row chat) = true) ∧
  (∀ row b, row ∈ (list_chats_view (on_offer (store w))).2 → b ∈ row →
            Py.starts_with "admin_toggle_chat_" (callback_data b) = true →
            label b = "Toggle Active: Deactivate") ∧
  (Py.isdigit (Py.last_field (data q)) = false ∨
   chats (store w) !! Py.int (Py.last_field (data q)) = None →
   store (toggle_chat_status_callback_func pf settings update w).2 = store w).
Proof.
  intros Hq. split_and!.
  - destruct (list_chats_callback_func_run update q w Hq) as (w' & E & Hs & _ & Ht).
    exists w'. split; [exact E|]. split; [exact Hs|]. by apply said_app.
  - intros chat. apply elem_of_on_offer.
  - intros row b Hrow Hb Hdata.
    apply list_chats_view_rows in Hrow as [(chat & Hchat & ->)|[->| ->]].
    + apply elem_of_on_offer in Hchat as [_ Hact]. unfold chat_buttons in Hb.
      rewrite Hact in Hb.
      repeat (apply elem_of_cons in Hb as [->|Hb]; [revert Hdata; vm_compute; try done|]).
      by apply elem_of_nil in Hb.
    + apply list_elem_of_singleton in Hb as ->. by vm_compute in Hdata.
    + apply list_elem_of_singleton in Hb as ->. by vm_compute in Hdata.
  - intros H.
    destruct (toggle_chat_status_callback_func_nothing pf settings update q w Hq H)
      as (w' & E & Hs & _).
    by rewrite E.
Qed.

Lemma chat_list_shows_active_chats_only_witness :
  let q := Sample.query 1 "admin_list_chats" in
  let update := callback_update q in
  let w := Sample.w0 in
  callback_query update = Some q ∧
  (∃ w', list_chats_callback_func update w = (Normal tt, w') ∧
         store w' = store w ∧
         said w w' = [Answered EmptyString] ++
           (if effective_message update
            then [EditMessage (list_chats_view (on_offer (store w))).1]
            else [])) ∧
  (∀ chat, chat ∈ on_offer (store w) ↔
           chats (store w) !! c_id chat = Some (c_row chat) ∧
           Chat.is_active (c_row chat) = true) ∧
  (∀ row b, row ∈ (list_chats_view (on_offer (store w))).2 → b ∈ row →
            Py.starts_with "admin_toggle_chat_" (callback_data b) = true →
            label b = "Toggle Active: Deactivate") ∧
  (Py.isdigit (Py.last_field (data q)) = false ∨
   chats (store w) !! Py.int (Py.last_field (data q)) = None →
   store (toggle_chat_status_callback_func Sample.pf NotStored update w).2 = store w).
Proof.
  intros q update w.
  assert (callback_query update = Some q) as H by reflexivity.
  split; [exact H|].
  exact (chat_list_shows_active_chats_only Sample.pf NotStored update q w H).
Defined.



(** ** Start-up *)

Lemma getattr_there m name log :
  name ∈ module_globals m →
  getattr m name log = (Went {| cb_module := m; cb_name := name |}, log).
Proof. intros H. unfold getattr. by rewrite bool_decide_eq_true_2. Qed.

Lemma getattr_missing m name log :
  name ∉ module_globals m →
  getattr m name log = (Threw (NoAttribute name), log).
Proof. intros H. unfold getattr. by rewrite bool_decide_eq_false_2. Qed.

Lemma admin_panel_callback_missing :
  ("admin_panel_callback" ∉ module_globals admin_handlers) ∧
  ("remove_chat_callback" ∉ module_globals admin_handlers).
Proof. split; apply (bool_decide_unpack _); vm_compute; exact I. Qed.

(** One call: it fails, or it is added to the calls made. *)
Lemma call_cases fails c log :
  call fails c log = (Threw FromLibrary, log) ∧ fails (length log) = true ∨
  call fails c log = (Went tt, log ++ [c]) ∧ fails (length log) = false.
Proof. unfold call. destruct (fails (length log)); eauto. Qed.

Ltac boot_getattr :=
  unfold add_command, add_callback; unfold boot_bind at 1; cbv beta iota;
  unfold boot_bind at 1; cbv beta iota;
  rewrite getattr_there by (apply (bool_decide_unpack _); vm_compute; exact I).

Ltac boot_call Hall :=
  cbv beta iota;
  match goal with
  | |- context [call ?f ?c ?log] =>
      destruct (call_cases f c log) as [[-> ?]|[-> ?]];
      [ eexists _, _; split; [intros ?; reflexivity|];
        split; [by repeat constructor|]; split;
        [ by eexists; rewrite <- ?app_assoc; simpl
        | intros _ _ Hall; simpl in *; by rewrite Hall in * ]
      | cbn [app]; cbv beta iota ]
  end.

Lemma main_run fails token url :
  ∃ r log,
    (∀ rest, main fails rest token url [] = (r, log)) ∧
    Forall (λ c, is_admin_callback_handler c = false) log ∧
    log `prefix_of` registered_before_the_stop ∧
    (token = true → url = true → (∀ n, fails n = false) →
     r = Threw (NoAttribute "admin_panel_callback") ∧
     log = registered_before_the_stop).
Proof.
  unfold main.
  assert (token = true ∧ url = true ∨ negb token || negb url = true)
    as [[-> ->]|E] by (destruct token, url; auto).
  2: { rewrite E. unfold boot_bind at 1. cbv beta iota.
       eexists _, _. split; [intros ?; reflexivity|].
       split; [constructor|]. split; [by eexists|].
       intros -> ->. done. }
  simpl (negb _ || negb _). cbv iota.
  unfold boot_bind at 1. unfold boot_ret at 1. cbv beta iota.
  do 4 (unfold boot_bind at 1; boot_call Hall).
  unfold boot_bind at 1; cbv beta iota.
  rewrite getattr_there by (apply (bool_decide_unpack _); vm_compute; exact I).
  unfold boot_bind at 1; boot_call Hall.
  do 10 (boot_getattr; boot_call Hall).
  unfold boot_bind at 1. cbv beta iota.
  unfold boot_bind at 1. cbv beta iota.
  rewrite getattr_missing by apply admin_panel_callback_missing.
  eexists _, _. split; [intros ?; reflexivity|].
  split; [by repeat constructor|]. split; [by eexists; rewrite app_nil_r|].
  by intros.
Qed.

(** X18.  [main] never gets past line 68.  [admin_handlers.py] binds
    neither [admin_panel_callback] nor [remove_chat_callback], the two names
    [main] reads for its first and its last admin callback handler.  So
    whatever the libraries do, [main] ends before any callback handler of
    [admin_handlers.py] is added and without running anything of lines
    77-138 (the conversation handler, the scheduler, the polling): the calls
    it has made are a beginning of the fifteen up to the [admin] command
    handler.  When the token and the database URL are set and no library
    call fails, it makes exactly those fifteen and raises [AttributeError]
    for [admin_panel_callback]. *)
Theorem main_stops_before_the_admin_callbacks fails token url :
  ("admin_panel_callback" ∉ admin_handlers_globals) ∧
  ("remove_chat_callback" ∉ admin_handlers_globals) ∧
  ∃ r log,
    (∀ rest, main fails rest token url [] = (r, log)) ∧
    Forall (λ c, is_admin_callback_handler c = false) log ∧
    log `prefix_of` registered_before_the_stop ∧
    (token = true → url = true → (∀ n, fails n = false) →
     r = Threw (NoAttribute "admin_panel_callback") ∧
     log = registered_before_the_stop).
Proof.
  destruct admin_panel_callback_missing as [H1 H2].
  split; [exact H1|]. split; [exact H2|].
  destruct (main_run fails token url) as (r & log & Hrun & Hlog & Hpre & Hall).
  exists r, log. split_and!; done.
Qed.

(** ** A chat selection that goes through, or meets a reference in use *)









(** ** Updates in a session: seen there at once, in the store at the commit *)





Lemma foldl_set_chat_field_telegram_chat_id fs : ∀ c,
  Chat.telegram_chat_id (foldl (λ r f, set_chat_field f r) c fs)
  = Chat.telegram_chat_id c.
Proof.
  induction fs as [|f fs IH]; intros c; [done|].
  simpl. by rewrite IH, set_chat_field_telegram_chat_id.
Qed.




